(** * Ladoo Metrics front end: a shallow embedding of the client code

    The first part follows the TypeScript sources:

    - [Api]          : frontend/src/lib/api.ts (the HTTP client and the
                       session id kept in [localStorage]);
    - [Js]           : the scalar values of a JSON table and the coercions
                       the code applies to them;
    - [Backend]      : the summary roll-up computed by the server;
    - [StatTests]    : frontend/src/components/StatisticalTests.tsx
                       (sample extraction, parameter controls, result view);
    - [App]          : App.tsx (the props handed to [StatisticalTests] and
                       [calculateSummaryStats]);
    - [Csv]          : frontend/src/utils/exportToCSV.ts;
    - [ChartBuilder] : the [chartData] memo of ChartBuilder.tsx;
    - [ApiCalls]     : the captain-level, funnel-analysis, dashboard and
                       report-builder calls of api.ts;
    - [Handler]      : event handlers over the state of a component;
    - [ReportContext]: contexts/ReportContext.tsx;
    - [StatRun]      : [runTest] of StatisticalTests.tsx;
    - [MetricBar]    : the selection handlers of MetricBar.tsx;
    - [AppState]     : the state and the handlers of App.tsx;
    - [ChartLines]   : legend keys and CSV export of ChartBuilder.tsx;
    - [FunnelWizard] : the wizard of FunnelAnalysis.tsx.

    The second part ([ApiSpec], [SummarySpec], [CsvSpec], [ChartSpec] and
    the other modules named [...Spec], [CsvReader], [Fixtures], [Samples])
    holds the vocabulary of the properties and some sample data; the third
    part states and proves the properties.

    JavaScript numbers are modelled by exact rationals ([Q]); [NaN] appears
    only as the [None] result of a coercion, and infinities are outside the
    model.  Platform primitives whose result depends on the binary
    representation of a number ([String(n)], [n.toFixed(d)], [Math.sqrt])
    are parameters of the section that uses them. *)

From Stdlib Require Import QArith Qround Qabs Qminmax Lqa Permutation Sorted Ascii.
From stdpp Require Import gmap strings list.

Local Open Scope string_scope.
Local Open Scope list_scope.

(** ** JavaScript truthiness of the values the code branches on *)

Definition truthy_string (s : string) : bool :=
  if decide (s = "") then false else true.

Definition truthy_opt_string (o : option string) : bool :=
  match o with
  | Some s => truthy_string s
  | None => false
  end.

(** * api.ts *)

Module Api.

Inductive Method := GET | POST | DELETE.

(** [Error] is [new Error(message)]; [SyntaxError] is the rejection of
    [res.json()] on a body that is not JSON; [NetworkError] is the rejection
    of [fetch] itself. *)
Inductive Exn :=
| Error (message : string)
| SyntaxError
| NetworkError.

Inductive result (A : Type) :=
| Return (a : A)
| Throw (e : Exn).
Arguments Return {A} a.
Arguments Throw {A} e.

Section Client.
(** What the client does not look into: the uploaded file, the request
    payloads and their serialisation, the value [res.json()] resolves to,
    and the [session_id] field of an [UploadResponse]. *)
Variable File : Type.
Variable Payload : Type.
Variable JSON_stringify : Payload → string.
Variable Json : Type.
Variable session_id : Json → string.
Variable VITE_API_BASE_URL : option string.

Inductive Body :=
| NoBody
| FormBody (file : File)
| JsonBody (s : string).

(** [Headers] as the map from (lower-cased) names to values. *)
Record Request := mkRequest {
  url : string;
  method : Method;
  headers : gmap string string;
  body : Body
}.

(** [json = None] : the body does not parse. *)
Record Response := mkResponse {
  ok : bool;
  text : string;
  json : option Json
}.

(** The browser state the client touches, and the requests issued. *)
Record World := mkWorld {
  localStorage : gmap string string;
  sent : list Request
}.

(** The answering side: [None] when [fetch] rejects. *)
Variable network : Request → option Response.

Definition M (A : Type) : Type := World → result A * World.

Definition ret {A} (a : A) : M A := λ w, (Return a, w).
Definition throw {A} (e : Exn) : M A := λ w, (Throw e, w).
Definition bind {A B} (m : M A) (k : A → M B) : M B :=
  λ w, match m w with
       | (Return a, w') => k a w'
       | (Throw e, w') => (Throw e, w')
       end.

Notation "'let!' x ':=' m 'in' k" := (bind m (λ x, k))
  (at level 10, x name, m at level 200, k at level 200).

Definition fetch (req : Request) : M Response :=
  λ w, let w' := mkWorld (localStorage w) (sent w ++ [req]) in
       match network req with
       | Some res => (Return res, w')
       | None => (Throw NetworkError, w')
       end.

Definition res_text (res : Response) : M string := ret (text res).

Definition res_json (res : Response) : M Json :=
  match json res with
  | Some v => ret v
  | None => throw SyntaxError
  end.

Definition BASE_URL : string := default "http://localhost:8000" VITE_API_BASE_URL.

Definition getSessionId : M (option string) :=
  λ w, (Return (localStorage w !! "session_id"), w).

Definition setSessionId (id : string) : M unit :=
  λ w, (Return tt, mkWorld (<["session_id" := id]> (localStorage w)) (sent w)).

Definition removeSessionId : M unit :=
  λ w, (Return tt, mkWorld (delete "session_id" (localStorage w)) (sent w)).

Definition sessionHeaders : M (gmap string string) :=
  let! session := getSessionId in
  match session with
  | Some s => if truthy_string s then ret (<["x-session-id" := s]> ∅) else ret ∅
  | None => ret ∅
  end.

Definition content_json (h : gmap string string) : gmap string string :=
  <["content-type" := "application/json"]> h.

Definition uploadCsv (file : File) : M Json :=
  let! res := fetch (mkRequest (BASE_URL +:+ "/upload") POST ∅ (FormBody file)) in
  if negb (ok res) then
    let! t := res_text res in throw (Error t)
  else
    let! data := res_json res in
    let! _ := setSessionId (session_id data) in
    ret data.

Definition getMeta : M Json :=
  let! h := sessionHeaders in
  let! res := fetch (mkRequest (BASE_URL +:+ "/meta") GET h NoBody) in
  if negb (ok res) then let! t := res_text res in throw (Error t)
  else res_json res.

Definition fetchMetrics (payload : Payload) : M Json :=
  let! h := sessionHeaders in
  let headers := content_json h in
  let! res := fetch (mkRequest (BASE_URL +:+ "/metrics") POST headers
                        (JsonBody (JSON_stringify payload))) in
  if negb (ok res) then let! t := res_text res in throw (Error t)
  else res_json res.

Definition fetchFunnel (payload : Payload) : M Json :=
  let! h := sessionHeaders in
  let headers := content_json h in
  let! res := fetch (mkRequest (BASE_URL +:+ "/funnel") POST headers
                        (JsonBody (JSON_stringify payload))) in
  if negb (ok res) then let! t := res_text res in throw (Error t)
  else res_json res.

Definition clearSession : M unit :=
  let! h := sessionHeaders in
  let! res := fetch (mkRequest (BASE_URL +:+ "/session") DELETE h NoBody) in
  if negb (ok res) then let! t := res_text res in throw (Error t)
  else removeSessionId.

Definition fetchCohortAggregation : M Json :=
  let! h := sessionHeaders in
  let! res := fetch (mkRequest (BASE_URL +:+ "/cohort-aggregation") GET h NoBody) in
  if negb (ok res) then let! t := res_text res in throw (Error t)
  else res_json res.

Definition runStatisticalTest (req : Payload) : M Json :=
  let! h := sessionHeaders in
  let headers := content_json h in
  let! res := fetch (mkRequest (BASE_URL +:+ "/statistical-test") POST headers
                        (JsonBody (JSON_stringify req))) in
  if negb (ok res) then
    let! error := res_text res in
    throw (Error (if truthy_string error then error else "Statistical test failed"))
  else res_json res.

End Client.

Arguments mkRequest {File} _ _ _ _.
Arguments url {File} _.
Arguments method {File} _.
Arguments headers {File} _.
Arguments body {File} _.
Arguments mkResponse {Json} _ _ _.
Arguments ok {Json} _.
Arguments text {Json} _.
Arguments json {Json} _.
Arguments mkWorld {File} _ _.
Arguments localStorage {File} _.
Arguments sent {File} _.

End Api.

(** * Values and coercions shared by the table utilities *)

Module Js.

(** The scalar cells of a JSON table. *)
Inductive jsval :=
| JUndefined
| JNull
| JBool (b : bool)
| JNum (q : Q)
| JStr (s : string).

(** A row, [Record<string, any>]; a missing column reads as [undefined]. *)
Definition row_get (row : gmap string jsval) (col : string) : jsval :=
  default JUndefined (row !! col).

Definition dquote : ascii := "034"%char.
Definition newline : ascii := "010"%char.
Definition str (c : ascii) : string := String c "".

(** [s.includes(needle)] *)
Fixpoint includes (needle s : string) : bool :=
  if String.prefix needle s then true
  else match s with
       | "" => false
       | String _ s' => includes needle s'
       end.

(** [parts.join(sep)] on an array of strings *)
Definition join (sep : string) (parts : list string) : string :=
  String.concat sep parts.

Definition truthy_num (q : Q) : bool := negb (Qeq_bool q 0).

Section Coercions.
(** [String(n)] for a number and [Number(s)] for a string ([None] is
    [NaN]) are taken from the platform. *)
Variable num_to_string : Q → string.
Variable str_to_number : string → option Q.

Definition ToString (v : jsval) : string :=
  match v with
  | JUndefined => "undefined"
  | JNull => "null"
  | JBool true => "true"
  | JBool false => "false"
  | JNum q => num_to_string q
  | JStr s => s
  end.

Definition ToNumber (v : jsval) : option Q :=
  match v with
  | JUndefined => None
  | JNull => Some 0%Q
  | JBool true => Some 1%Q
  | JBool false => Some 0%Q
  | JNum q => Some q
  | JStr s => str_to_number s
  end.

(** [Number(v) || 0] *)
Definition number_or_zero (v : jsval) : Q :=
  match ToNumber v with
  | Some q => if truthy_num q then q else 0%Q
  | None => 0%Q
  end.
End Coercions.

End Js.

(** * The summary roll-up of the aggregation service *)

Module Backend.

Inductive Aggregation := Sum | Mean | Count.

(** [SummaryStats] of api.ts; [pct_change = None] is [null]. *)
Record SummaryStats := mkSummaryStats {
  aggregation : Aggregation;
  test_value : Q;
  control_value : Q;
  mean_difference : Q;
  pct_change : option Q
}.

(** Modelled from the spec: the server-side roll-up that fills a
    [SummaryStats] record is not part of the front-end sources (only the
    record type is).  Following section 4.3, step 6: the scalar test and
    control values of the primary slice, their absolute difference and
    their percent difference, the latter undefined (null) when the control
    value is exactly zero. *)
Definition summarize (agg : Aggregation) (test control : Q) : SummaryStats :=
  {| aggregation := agg;
     test_value := test;
     control_value := control;
     mean_difference := (test - control)%Q;
     pct_change := if Qeq_bool control 0 then None
                   else Some ((test - control) / control * 100)%Q |}.

(** Modelled from the spec: one summary per requested aggregation kind;
    [test_of] and [control_of] give the scalar value of each kind. *)
Definition summaries (requested : list Aggregation)
    (test_of control_of : Aggregation → Q) : list SummaryStats :=
  map (λ agg, summarize agg (test_of agg) (control_of agg)) requested.

End Backend.

(** * StatisticalTests.tsx *)

Module StatTests.

(** [SeriesPoint], as the component reads it. *)
Record SeriesPoint := mkSeriesPoint {
  date : string;
  cohort : string;
  value : Q
}.

(** [d.cohort === label], where the label prop may be [undefined]. *)
Definition cohort_is (label : option string) (d : SeriesPoint) : Prop :=
  Some (cohort d) = label.

#[global] Instance cohort_is_dec label d : Decision (cohort_is label d).
Proof. unfold cohort_is. apply _. Defined.

Record Samples := mkSamples {
  preTest : list Q;
  postTest : list Q;
  preControl : list Q;
  postControl : list Q
}.

Definition extractData (preData postData : list SeriesPoint)
    (testCohort controlCohort : option string) : Samples :=
  {| preTest := map value (filter (cohort_is testCohort) preData);
     postTest := map value (filter (cohort_is testCohort) postData);
     preControl := map value (filter (cohort_is controlCohort) preData);
     postControl := map value (filter (cohort_is controlCohort) postData) |}.

(** ** The test catalogue (names and parameters of [TEST_CATEGORIES]) *)

Inductive ParamType := TText | TNumber.

Inductive ParamDefault :=
| DText (s : string)
| DNumber (q : Q).

Record ParamConfig := mkParam {
  name : string;
  label : string;
  type : ParamType;
  default : ParamDefault
}.

Record TestConfig := mkTest {
  test : string;
  parameters : list ParamConfig
}.

Record CategoryConfig := mkCategory {
  key : string;
  title : string;
  tests : list TestConfig
}.

Definition effect_size_param := mkParam "effect_size" "Expected Effect Size" TNumber (DNumber 0.5).
Definition alpha_param := mkParam "alpha" "Significance Level" TNumber (DNumber 0.05).
Definition power_param := mkParam "power" "Desired Power" TNumber (DNumber 0.8).
Definition nobs1_param := mkParam "nobs1" "Sample Size Group 1" TNumber (DNumber 50).
Definition confidence_param := mkParam "confidence" "Confidence Level" TNumber (DNumber 0.95).
Definition n_bootstrap_param := mkParam "n_bootstrap" "Bootstrap Samples" TNumber (DNumber 1000).
Definition subject_id_param := mkParam "subject_id" "Subject ID Column" TText (DText "subject").

Definition TEST_CATEGORIES : list CategoryConfig :=
  [ mkCategory "paired_tests" "Paired Tests"
      [ mkTest "Paired t-test" [];
        mkTest "Wilcoxon signed-rank test" [];
        mkTest "Sign test" [] ];
    mkCategory "group_comparisons" "Group Comparisons"
      [ mkTest "Two-way ANOVA (time × group)" [];
        mkTest "Difference-in-Differences" [];
        mkTest "Linear Mixed-Effects Model" [subject_id_param] ];
    mkCategory "effect_size" "Effect Size"
      [ mkTest "Cohen's d" [];
        mkTest "Hedges' g" [];
        mkTest "Cliff's delta" [] ];
    mkCategory "variance_distribution_tests" "Variance & Distribution"
      [ mkTest "Homoscedasticity test" [];
        mkTest "Kolmogorov-Smirnov test" [] ];
    mkCategory "power_and_sample_size" "Power Analysis"
      [ mkTest "Paired t-test power" [effect_size_param; alpha_param; power_param];
        mkTest "Independent t-test power" [effect_size_param; alpha_param; nobs1_param] ];
    mkCategory "confidence_intervals" "Confidence Intervals"
      [ mkTest "Paired mean difference CI" [confidence_param];
        mkTest "Bootstrap CI" [confidence_param; n_bootstrap_param] ] ].

(** [TEST_CATEGORIES[selectedCategory]?.tests.find(t => t.name === selectedTest)] *)
Definition selectedTestConfig (selectedCategory selectedTest : string)
    : option TestConfig :=
  category ← List.find (λ c, bool_decide (key c = selectedCategory)) TEST_CATEGORIES;
  List.find (λ t, bool_decide (test t = selectedTest)) (tests category).

(** ** Numeric parameter controls

    The numeric controls are rendered for the parameters of type
    ['number'] only; the entries of the [parameters] state they read and
    write are numbers, and the state is modelled on those entries. *)

Definition numeric_default (param : ParamConfig) : Q :=
  match default param with
  | DNumber q => q
  | DText _ => 0
  end.

(** The state set when a test is selected: every parameter at its default
    (here, the numeric ones). *)
Definition defaultParams (t : TestConfig) : gmap string Q :=
  foldl (λ acc param,
           match type param with
           | TNumber => <[name param := numeric_default param]> acc
           | TText => acc
           end) ∅ (parameters t).

(** [a || b] on numbers *)
Definition or_num (a b : Q) : Q := if Js.truthy_num a then a else b.

(** [parameters[param.name] || param.default || 0] *)
Definition currentValue (params : gmap string Q) (param : ParamConfig) : Q :=
  match params !! name param with
  | Some v => or_num v (or_num (numeric_default param) 0)
  | None => or_num (numeric_default param) 0
  end.

(** [Math.round(v * 100) / 100]; [Math.round] is [floor (x + 1/2)]. *)
Definition round2 (v : Q) : Q :=
  (inject_Z (Qfloor (v * 100 + (1 # 2))) / 100)%Q.

(** The "+" button and the ArrowUp key. *)
Definition increase (params : gmap string Q) (param : ParamConfig) : gmap string Q :=
  let currentValue := currentValue params param in
  let newValue := Qmin 1 (currentValue + 0.05) in
  <[name param := round2 newValue]> params.

(** The "−" button and the ArrowDown key. *)
Definition decrease (params : gmap string Q) (param : ParamConfig) : gmap string Q :=
  let currentValue := currentValue params param in
  let newValue := Qmax 0 (currentValue - 0.05) in
  <[name param := round2 newValue]> params.

Inductive Control := PlusButton | MinusButton | ArrowUp | ArrowDown.

Definition press (c : Control) (params : gmap string Q) (param : ParamConfig)
    : gmap string Q :=
  match c with
  | PlusButton | ArrowUp => increase params param
  | MinusButton | ArrowDown => decrease params param
  end.

(** Typing into the field: [typed] is [parseFloat(e.target.value)], [None]
    when that is [NaN]. *)
Definition onChange (params : gmap string Q) (param : ParamConfig)
    (typed : option Q) : gmap string Q :=
  match typed with
  | Some value => <[name param := round2 value]> params
  | None => params
  end.

(** A run of presses on one parameter. *)
Definition presses (cs : list Control) (params : gmap string Q)
    (param : ParamConfig) : gmap string Q :=
  foldl (λ ps c, press c ps param) params cs.

(** ** Result view *)

(** An optional field of a response: absent, [null], or a value. *)
Inductive field (A : Type) :=
| Undefined
| Null
| Present (a : A).
Arguments Undefined {A}.
Arguments Null {A}.
Arguments Present {A} a.

Record StatTestResult := mkResult {
  test_name : string;
  category : string;
  statistic : field Q;
  p_value : field Q;
  effect_size : field Q;
  confidence_interval : field (list Q);
  sample_size : field Q;
  power : field Q;
  summary : string;
  parameters_used : gmap string Js.jsval
}.

(** One rendered result: the heading, the rows of the "Key Results" table
    (metric, value), the interpretation paragraph and the optional
    "Parameters Used" block. *)
Record ResultCard := mkCard {
  heading : string;
  subheading : string;
  ordinal : nat;
  rows : list (string * string);
  interpretation : string;
  details : option string
}.

Section View.
(** [n.toFixed(d)], [String(n)] and [JSON.stringify(o, null, 2)] *)
Variable toFixed : Q → nat → string.
Variable num_to_string : Q → string.
Variable stringify : gmap string Js.jsval → string.

Definition safeToFixed (value : field Q) (decimals : nat) : string :=
  match value with
  | Present v => toFixed v decimals
  | _ => "N/A"
  end.

(** [arr[i]] as a possibly undefined number *)
Definition interval_entry (arr : list Q) (i : nat) : field Q :=
  match arr !! i with
  | Some v => Present v
  | None => Undefined
  end.

(** [cond && <tr>..</tr>] *)
Definition row_when (cond : bool) (r : string * string) : list (string * string) :=
  if cond then [r] else [].

Definition is_present {A} (f : field A) : bool :=
  match f with
  | Present _ => true
  | _ => false
  end.

Definition statistic_row (result : StatTestResult) :=
  row_when (is_present (statistic result))
    ("Test Statistic", safeToFixed (statistic result) 4).

Definition p_value_row (result : StatTestResult) :=
  row_when (is_present (p_value result))
    ("P-value",
     match p_value result with
     | Present p => if Qlt_le_dec p 0.001 then "< 0.001"
                    else safeToFixed (p_value result) 4
     | _ => safeToFixed (p_value result) 4
     end).

Definition effect_size_row (result : StatTestResult) :=
  row_when (is_present (effect_size result))
    ("Effect Size", safeToFixed (effect_size result) 4).

Definition confidence_interval_row (result : StatTestResult) :=
  match confidence_interval result with
  | Present ci =>
      row_when (bool_decide (length ci = 2))
        ("95% CI",
         "[" +:+ safeToFixed (interval_entry ci 0) 4 +:+ ", "
             +:+ safeToFixed (interval_entry ci 1) 4 +:+ "]")
  | _ => []
  end.

Definition sample_size_row (result : StatTestResult) :=
  match sample_size result with
  | Present n => [("Required Sample Size", num_to_string n)]
  | _ => []
  end.

Definition power_row (result : StatTestResult) :=
  match power result with
  | Present p => [("Statistical Power", safeToFixed (Present (p * 100)%Q) 1 +:+ "%")]
  | _ => []
  end.

Definition render_result (index : nat) (result : StatTestResult) : ResultCard :=
  {| heading := test_name result;
     subheading := category result;
     ordinal := index + 1;
     rows := statistic_row result ++ p_value_row result ++ effect_size_row result
             ++ confidence_interval_row result ++ sample_size_row result
             ++ power_row result;
     interpretation := summary result;
     details := if bool_decide (dom (parameters_used result) = ∅) then None
                else Some (stringify (parameters_used result)) |}.

(** [results.map((result, index) => ...)] *)
Definition render_results (results : list StatTestResult) : list ResultCard :=
  imap render_result results.
End View.

End StatTests.

(** * App.tsx *)

Module App.

Record FunnelPoint := mkFunnelPoint {
  date : string;
  cohort : string;
  metric : string;
  value : Q;
  series_value : option string
}.

(** The two series of a [FunnelResponse]. *)
Record FunnelResponse := mkFunnel {
  pre_series : list FunnelPoint;
  post_series : list FunnelPoint
}.

(** The cohort selections of [FiltersState]. *)
Record FiltersState := mkFilters {
  test_cohort : option string;
  control_cohort : option string
}.

(** [filters.test_cohort ? `TEST: ${filters.test_cohort}` : undefined] *)
Definition testLabel (filters : FiltersState) : option string :=
  if truthy_opt_string (test_cohort filters)
  then Some ("TEST: " +:+ default "" (test_cohort filters))
  else None.

Definition controlLabel (filters : FiltersState) : option string :=
  if truthy_opt_string (control_cohort filters)
  then Some ("CONTROL: " +:+ default "" (control_cohort filters))
  else None.

(** [series.map(p => ({ date: p.date, cohort: p.cohort, value: p.value }))] *)
Definition series_props (series : list FunnelPoint) : list StatTests.SeriesPoint :=
  map (λ p, StatTests.mkSeriesPoint (date p) (cohort p) (value p)) series.

(** What [extractData] computes inside the [StatisticalTests] element that
    [App] renders for a funnel. *)
Definition statistical_samples (filters : FiltersState) (funnel : FunnelResponse)
    : StatTests.Samples :=
  StatTests.extractData (series_props (pre_series funnel))
    (series_props (post_series funnel)) (testLabel filters) (controlLabel filters).

(** ** [calculateSummaryStats] *)

Record Stats := mkStats {
  mean : Q;
  median : Q;
  p25 : Q;
  p75 : Q;
  std : Q;
  count : nat
}.

(** Rationals are never [NaN]. *)
Definition isNaN (v : Q) : bool := false.

(** [arr.length] as a number *)
Definition len (arr : list Q) : Q := inject_Z (Z.of_nat (length arr)).

(** [Math.floor] *)
Definition floor (x : Q) : Q := inject_Z (Qfloor x).

(** [arr[i]] for a number [i]: [None] ([undefined]) unless [i] is a
    non-negative integer below the length. *)
Definition at_index (arr : list Q) (i : Q) : option Q :=
  if Qeq_bool i (floor i) && (0 <=? Qfloor i)%Z
  then arr !! Z.to_nat (Qfloor i)
  else None.

(** [arr.sort((a, b) => a - b)]: the stable ascending sort. *)
Fixpoint insert_sorted (x : Q) (sorted : list Q) : list Q :=
  match sorted with
  | [] => [x]
  | y :: rest => if Qle_bool x y then x :: y :: rest else y :: insert_sorted x rest
  end.

Definition sort_ascending (data : list Q) : list Q :=
  foldr insert_sorted [] data.

Section SummaryStats.
(** [Math.sqrt] *)
Variable sqrt : Q → Q.

(** [None]: one of the array reads gave [undefined]. *)
Definition calculateStats (data : list Q) : option Stats :=
  if bool_decide (length data = 0) then
    Some (mkStats 0 0 0 0 0 0)
  else
    let sorted := sort_ascending data in
    let mean := (foldl (λ sum val, sum + val) 0 data / len data)%Q in
    median ←
      (if bool_decide (length sorted mod 2 = 0) then
         a ← at_index sorted (len sorted / 2 - 1)%Q;
         b ← at_index sorted (len sorted / 2)%Q;
         Some ((a + b) / 2)%Q
       else at_index sorted (floor (len sorted / 2)%Q));
    let p25Index := floor (len sorted * 0.25)%Q in
    let p75Index := floor (len sorted * 0.75)%Q in
    p25 ← at_index sorted p25Index;
    p75 ← at_index sorted p75Index;
    let variance :=
      (foldl (λ sum val, sum + (val - mean) ^ 2) 0 data / len data)%Q in
    let std := sqrt variance in
    Some (mkStats mean median p25 p75 std (length data)).

(** The values of the points whose cohort contains one of two markers. *)
Definition group_sample (upper lower : string) (series : list FunnelPoint) : list Q :=
  List.filter (λ v, negb (isNaN v))
    (map value
       (List.filter (λ p, Js.includes upper (cohort p) || Js.includes lower (cohort p))
          series)).

Definition calculateSummaryStats (funnel : FunnelResponse) (_metric : string)
    : list (string * option Stats) :=
  let preTestData := group_sample "TEST" "test" (pre_series funnel) in
  let postTestData := group_sample "TEST" "test" (post_series funnel) in
  let preControlData := group_sample "CONTROL" "control" (pre_series funnel) in
  let postControlData := group_sample "CONTROL" "control" (post_series funnel) in
  [ ("Pre Test", calculateStats preTestData);
    ("Post Test", calculateStats postTestData);
    ("Pre Control", calculateStats preControlData);
    ("Post Control", calculateStats postControlData) ].
End SummaryStats.

End App.

(** * exportToCSV.ts *)

Module Csv.
Import Js.

Record DataFrameJSON := mkDataFrame {
  columns : list string;
  data : list (gmap string jsval)
}.

(** The global replacement of every double quote by two of them. *)
Fixpoint double_quotes (s : string) : string :=
  match s with
  | "" => ""
  | String c rest =>
      if decide (c = dquote) then String dquote (String dquote (double_quotes rest))
      else String c (double_quotes rest)
  end.

Section Convert.
Variable num_to_string : Q → string.

Definition needs_quoting (stringValue : string) : bool :=
  includes "," stringValue || includes (str dquote) stringValue
  || includes (str newline) stringValue.

(** The callback of the inner [columns.map]. *)
Definition csv_cell (value : jsval) : string :=
  match value with
  | JNull | JUndefined => ""
  | _ =>
      let stringValue := ToString num_to_string value in
      if needs_quoting stringValue
      then str dquote +:+ double_quotes stringValue +:+ str dquote
      else stringValue
  end.

Definition csv_row (columns : list string) (row : gmap string jsval) : string :=
  join "," (map (λ col, csv_cell (row_get row col)) columns).

Definition convertToCSV (dataframe : DataFrameJSON) : string :=
  let header := join "," (columns dataframe) in
  let rows := map (csv_row (columns dataframe)) (data dataframe) in
  join (str newline) (header :: rows).
End Convert.

(** ** Reading a field back

    The inverse transformation named by the round-trip property: a field
    that starts and ends with a double quote loses the two outer quotes and
    has each doubled quote halved; any other field is taken as it is. *)

Fixpoint halve_quotes (s : string) : string :=
  match s with
  | String c1 (String c2 rest as tail) =>
      if decide (c1 = dquote ∧ c2 = dquote) then String dquote (halve_quotes rest)
      else String c1 (halve_quotes tail)
  | _ => s
  end.

Fixpoint drop_last (s : string) : string :=
  match s with
  | "" => ""
  | String c "" => ""
  | String c rest => String c (drop_last rest)
  end.

Fixpoint last_char (s : string) : option ascii :=
  match s with
  | "" => None
  | String c "" => Some c
  | String _ rest => last_char rest
  end.

Definition is_quoted (field : string) : bool :=
  match field with
  | String c (String _ _ as rest) =>
      bool_decide (c = dquote) && bool_decide (last_char rest = Some dquote)
  | _ => false
  end.

Definition unescape_field (field : string) : string :=
  if is_quoted field then
    match field with
    | String _ rest => halve_quotes (drop_last rest)
    | "" => ""
    end
  else field.

End Csv.

(** * ChartBuilder.tsx: the [chartData] memo *)

Module ChartBuilder.
Import Js.

(** A value held by a grouped record: the x label or a running total. *)
Inductive cellval :=
| VStr (s : string)
| VNum (q : Q).

(** An object used as a dictionary: its own properties in creation order. *)
Definition obj (V : Type) : Type := list (string * V).

Fixpoint obj_get {V} (o : obj V) (k : string) : option V :=
  match o with
  | [] => None
  | (k', v) :: rest => if decide (k' = k) then Some v else obj_get rest k
  end.

(** [o[k] = v]: an existing property keeps its place, a new one goes last. *)
Fixpoint obj_set {V} (o : obj V) (k : string) (v : V) : obj V :=
  match o with
  | [] => [(k, v)]
  | (k', v') :: rest =>
      if decide (k' = k) then (k, v) :: rest else (k', v') :: obj_set rest k v
  end.

(** The members every object literal inherits from [Object.prototype]. *)
Definition Object_prototype : list string :=
  [ "constructor"; "__defineGetter__"; "__defineSetter__"; "hasOwnProperty";
    "__lookupGetter__"; "__lookupSetter__"; "isPrototypeOf";
    "propertyIsEnumerable"; "toString"; "valueOf"; "__proto__";
    "toLocaleString" ].

Definition inherited (k : string) : bool := bool_decide (k ∈ Object_prototype).

(** ** Property order of [Object.values]

    Keys that are array indices (canonical decimal numerals below
    [2^32 - 1]) come first, in ascending numeric order; the other keys
    follow in creation order. *)

Definition digit (c : ascii) : option N :=
  let n := N_of_ascii c in
  if ((48 <=? n) && (n <=? 57))%N then Some (n - 48)%N else None.

Fixpoint digits_value (s : string) (acc : N) : option N :=
  match s with
  | "" => Some acc
  | String c rest => d ← digit c; digits_value rest (acc * 10 + d)%N
  end.

Definition array_index (k : string) : option N :=
  match k with
  | "" => None
  | String c rest =>
      if decide (c = "0"%char) then (if decide (rest = "") then Some 0%N else None)
      else n ← digits_value k 0; if (n <? 4294967295)%N then Some n else None
  end.

Fixpoint insert_by_index {V} (e : N * V) (l : list (N * V)) : list (N * V) :=
  match l with
  | [] => [e]
  | e' :: rest => if (e.1 <=? e'.1)%N then e :: e' :: rest
                  else e' :: insert_by_index e rest
  end.

Definition indexed_entries {V} (o : obj V) : list (N * V) :=
  omap (λ kv, (λ n, (n, kv.2)) <$> array_index kv.1) o.

Definition named_entries {V} (o : obj V) : list (string * V) :=
  List.filter (λ kv, bool_decide (array_index kv.1 = None)) o.

Definition Object_values {V} (o : obj V) : list V :=
  map snd (foldr insert_by_index [] (indexed_entries o)) ++ map snd (named_entries o).

(** A loop whose body may leave the modelled fragment. *)
Fixpoint foldM {A S} (f : S → A → option S) (l : list A) (s : S) : option S :=
  match l with
  | [] => Some s
  | a :: rest => s' ← f s a; foldM f rest s'
  end.

(** The pill buttons of the Y-axis selector. *)
Definition toggleYAxis (yAxes : list string) (col : string) : list string :=
  if bool_decide (col ∈ yAxes) then filter (λ y, y ≠ col) yAxes
  else yAxes ++ [col].

Section Chart.
Variable num_to_string : Q → string.
Variable str_to_number : string → option Q.

Variable xAxis : string.
Variable yAxes : list string.
Variable series : string.

Definition x_of (row : gmap string jsval) : string :=
  ToString num_to_string (row_get row xAxis).

Definition series_of (row : gmap string jsval) : string :=
  ToString num_to_string (row_get row series).

Definition y_of (yAxis : string) (row : gmap string jsval) : Q :=
  number_or_zero str_to_number (row_get row yAxis).

(** The loops below return [None] when the run leaves the fragment
    modelled here: a key that names a member inherited from
    [Object.prototype] (the truthiness test and the updates then reach
    the inherited object instead of an own entry), a metric named
    [__proto__] (assigning to it creates no own property), or [+=] on a
    missing property. *)

(** [{ [xAxis]: xValue }] followed by [yAxes.forEach(y => rec[y] = 0)] *)
Definition init_record (xValue : string) : obj cellval :=
  foldl (λ rec yAxis, obj_set rec yAxis (VNum 0)) [(xAxis, VStr xValue)] yAxes.

(** [rec[yAxis] += n] *)
Definition add_assign (rec : obj cellval) (yAxis : string) (n : Q)
    : option (obj cellval) :=
  if bool_decide (yAxis = "__proto__") then None
  else
    match obj_get rec yAxis with
    | Some (VNum q) => Some (obj_set rec yAxis (VNum (q + n)))
    | Some (VStr s) => Some (obj_set rec yAxis (VStr (s +:+ num_to_string n)))
    | None => None
    end.

(** The body of [data.forEach] when no series column is selected. *)
Definition plain_step (grouped : obj (obj cellval)) (row : gmap string jsval)
    : option (obj (obj cellval)) :=
  let xValue := x_of row in
  if inherited xValue then None
  else
    let grouped1 :=
      match obj_get grouped xValue with
      | Some _ => grouped
      | None => obj_set grouped xValue (init_record xValue)
      end in
    foldM (λ g yAxis,
             rec ← obj_get g xValue;
             rec' ← add_assign rec yAxis (y_of yAxis row);
             Some (obj_set g xValue rec'))
          yAxes grouped1.

(** [(rec[key] || 0) + yValue] *)
Definition or_zero_plus (old : option cellval) (yValue : Q) : cellval :=
  match old with
  | Some (VNum q) => if truthy_num q then VNum (q + yValue) else VNum (0 + yValue)
  | Some (VStr s) =>
      if truthy_string s then VStr (s +:+ num_to_string yValue)
      else VNum (0 + yValue)
  | None => VNum (0 + yValue)
  end.

Definition series_key (yAxis seriesValue : string) : string :=
  yAxis +:+ "_" +:+ seriesValue.

(** The body of [data.forEach] when a series column is selected. *)
Definition series_step (grouped : obj (obj cellval)) (row : gmap string jsval)
    : option (obj (obj cellval)) :=
  let xValue := x_of row in
  let seriesValue := series_of row in
  if inherited xValue then None
  else
    let grouped1 :=
      match obj_get grouped xValue with
      | Some _ => grouped
      | None => obj_set grouped xValue [(xAxis, VStr xValue)]
      end in
    foldM (λ g yAxis,
             let yValue := y_of yAxis row in
             let key := series_key yAxis seriesValue in
             if inherited key then None
             else
               rec ← obj_get g xValue;
               Some (obj_set g xValue
                       (obj_set rec key (or_zero_plus (obj_get rec key) yValue))))
          yAxes grouped1.

(** The dictionary built by the loop, before [Object.values].  The [data]
    prop is an array; the [!data] test of the memo never fires on it. *)
Definition chartGroups (data : list (gmap string jsval)) : option (obj (obj cellval)) :=
  if negb (truthy_string series) then foldM plain_step data []
  else foldM series_step data [].

Definition chartData (data : list (gmap string jsval)) : option (list (obj cellval)) :=
  if negb (truthy_string xAxis) || bool_decide (length yAxes = 0) then Some []
  else Object_values <$> chartGroups data.
End Chart.

End ChartBuilder.

(** * api.ts, continued: captain-level, funnel-analysis, dashboard and
    report-builder calls *)

Module ApiCalls.
Import Api.

Section Client.
(** As in [Api]; in addition the [funnel_session_id] field of a
    [MobileNumberUploadResponse] and the object literal [{ username }]. *)
Variable File : Type.
Variable Payload : Type.
Variable JSON_stringify : Payload → string.
Variable Json : Type.
Variable session_id : Json → string.
Variable funnel_session_id : Json → string.
Variable username_object : string → Payload.
Variable VITE_API_BASE_URL : option string.
Variable network : Request File → option (Response Json).

Local Abbreviation M := (Api.M File).
Local Abbreviation ret := (Api.ret File).
Local Abbreviation throw := (Api.throw File).
Local Abbreviation fetch := (Api.fetch File Json network).
Local Abbreviation res_text := (Api.res_text File Json).
Local Abbreviation res_json := (Api.res_json File Json).
Local Abbreviation BASE_URL := (Api.BASE_URL VITE_API_BASE_URL).
Local Abbreviation NoBody := (Api.NoBody File).
Local Abbreviation FormBody := (Api.FormBody File).
Local Abbreviation JsonBody := (Api.JsonBody File).

Notation "'let!' x ':=' m 'in' k" := (Api.bind File m (λ x, k))
  (at level 10, x name, m at level 200, k at level 200).

(** [error || fallback] on strings *)
Definition or_message (error fallback : string) : string :=
  if truthy_string error then error else fallback.

Definition fetchCaptainLevelAggregation (req : Payload) : M Json :=
  let! h := sessionHeaders File in
  let headers := content_json h in
  let! res := fetch (mkRequest (BASE_URL +:+ "/captain-level-aggregation") POST headers
                        (JsonBody (JSON_stringify req))) in
  if negb (ok res) then
    let! error := res_text res in
    throw (Error (or_message error "Captain-level aggregation failed"))
  else res_json res.

(** ** Funnel analysis *)

Definition getFunnelSessionId : M (option string) :=
  λ w, (Return (localStorage w !! "funnel_session_id"), w).

Definition setFunnelSessionId (id : string) : M unit :=
  λ w, (Return tt, mkWorld (<["funnel_session_id" := id]> (localStorage w)) (sent w)).

Definition removeFunnelSessionId : M unit :=
  λ w, (Return tt, mkWorld (delete "funnel_session_id" (localStorage w)) (sent w)).

Definition funnelSessionHeaders : M (gmap string string) :=
  let! session := getFunnelSessionId in
  match session with
  | Some s => if truthy_string s then ret (<["x-funnel-session-id" := s]> ∅) else ret ∅
  | None => ret ∅
  end.

Definition uploadMobileNumbers (file : File) : M Json :=
  let! res := fetch (mkRequest (BASE_URL +:+ "/funnel-analysis/upload-mobile-numbers")
                        POST ∅ (FormBody file)) in
  if negb (ok res) then
    let! error := res_text res in
    throw (Error (or_message error "Mobile numbers upload failed"))
  else
    let! data := res_json res in
    let! _ := setFunnelSessionId (funnel_session_id data) in
    ret data.

Definition getCaptainIds (username : string) : M Json :=
  let! h := funnelSessionHeaders in
  let headers := content_json h in
  let! res := fetch (mkRequest (BASE_URL +:+ "/funnel-analysis/get-captain-ids") POST
                        headers (JsonBody (JSON_stringify (username_object username)))) in
  if negb (ok res) then
    let! error := res_text res in
    throw (Error (or_message error "Failed to fetch captain IDs"))
  else res_json res.

Definition getAOFunnel (req : Payload) : M Json :=
  let! h := funnelSessionHeaders in
  let headers := content_json h in
  let! res := fetch (mkRequest (BASE_URL +:+ "/funnel-analysis/get-ao-funnel") POST
                        headers (JsonBody (JSON_stringify req))) in
  if negb (ok res) then
    let! error := res_text res in
    throw (Error (or_message error "Failed to fetch AO funnel data"))
  else res_json res.

Definition clearFunnelSession : M unit :=
  let! h := funnelSessionHeaders in
  let! res := fetch (mkRequest (BASE_URL +:+ "/funnel-analysis/session") DELETE h NoBody) in
  if negb (ok res) then let! t := res_text res in throw (Error t)
  else removeFunnelSessionId.

Definition useFunnelForAnalysis : M Json :=
  let! h := funnelSessionHeaders in
  let! res := fetch (mkRequest (BASE_URL +:+ "/funnel-analysis/use-for-analysis") POST
                        h NoBody) in
  if negb (ok res) then
    let! error := res_text res in
    throw (Error (or_message error "Failed to transfer funnel data to analysis session"))
  else
    let! data := res_json res in
    let! _ := setSessionId File (session_id data) in
    ret data.

(** ** Dashboards *)

Definition getDaprBucket (req : Payload) : M Json :=
  let headers := content_json ∅ in
  let! res := fetch (mkRequest (BASE_URL +:+ "/funnel-analysis/dapr-bucket") POST headers
                        (JsonBody (JSON_stringify req))) in
  if negb (ok res) then
    let! error := res_text res in
    throw (Error (or_message error "Failed to fetch DAPR bucket data"))
  else res_json res.

Definition getFe2Net (req : Payload) : M Json :=
  let headers := content_json ∅ in
  let! res := fetch (mkRequest (BASE_URL +:+ "/captain-dashboards/fe2net") POST headers
                        (JsonBody (JSON_stringify req))) in
  if negb (ok res) then
    let! error := res_text res in
    throw (Error (or_message error "Failed to fetch FE2Net data"))
  else res_json res.

Definition getRtuPerformance (req : Payload) : M Json :=
  let headers := content_json ∅ in
  let! res := fetch (mkRequest (BASE_URL +:+ "/captain-dashboards/rtu-performance") POST
                        headers (JsonBody (JSON_stringify req))) in
  if negb (ok res) then
    let! error := res_text res in
    throw (Error (or_message error "Failed to fetch RTU Performance data"))
  else res_json res.

Definition getR2A (req : Payload) : M Json :=
  let headers := content_json ∅ in
  let! res := fetch (mkRequest (BASE_URL +:+ "/captain-dashboards/r2a") POST headers
                        (JsonBody (JSON_stringify req))) in
  if negb (ok res) then
    let! error := res_text res in
    throw (Error (or_message error "Failed to fetch R2A data"))
  else res_json res.

Definition getR2APercentage (req : Payload) : M Json :=
  let headers := content_json ∅ in
  let! res := fetch (mkRequest (BASE_URL +:+ "/captain-dashboards/r2a-percentage") POST
                        headers (JsonBody (JSON_stringify req))) in
  if negb (ok res) then
    let! error := res_text res in
    throw (Error (or_message error "Failed to fetch R2A% data"))
  else res_json res.

Definition getA2PhhSummary (req : Payload) : M Json :=
  let headers := content_json ∅ in
  let! res := fetch (mkRequest (BASE_URL +:+ "/captain-dashboards/a2phh-summary") POST
                        headers (JsonBody (JSON_stringify req))) in
  if negb (ok res) then
    let! error := res_text res in
    throw (Error (or_message error "Failed to fetch A2PHH Summary data"))
  else res_json res.

(** ** Report builder *)

Definition report_header (reportId : string) (h : gmap string string)
    : gmap string string :=
  <["x-report-id" := reportId]> h.

Definition createReport : M Json :=
  let! res := fetch (mkRequest (BASE_URL +:+ "/report/create") POST ∅ NoBody) in
  if negb (ok res) then throw (Error "Failed to create report")
  else res_json res.

Definition addReportItem (request : Payload) (reportId : string) : M Json :=
  let headers := report_header reportId (content_json ∅) in
  let! res := fetch (mkRequest (BASE_URL +:+ "/report/add-item") POST headers
                        (JsonBody (JSON_stringify request))) in
  if negb (ok res) then throw (Error "Failed to add report item")
  else res_json res.

Definition deleteReportItem (itemId reportId : string) : M Json :=
  let headers := report_header reportId ∅ in
  let! res := fetch (mkRequest (BASE_URL +:+ "/report/item/" +:+ itemId) DELETE headers
                        NoBody) in
  if negb (ok res) then throw (Error "Failed to delete report item")
  else res_json res.

Definition listReportItems (reportId : string) : M Json :=
  let headers := report_header reportId ∅ in
  let! res := fetch (mkRequest (BASE_URL +:+ "/report/list") GET headers NoBody) in
  if negb (ok res) then throw (Error "Failed to list report items")
  else res_json res.

Definition exportReport (reportId : string) : M Json :=
  let headers := report_header reportId ∅ in
  let! res := fetch (mkRequest (BASE_URL +:+ "/report/export") GET headers NoBody) in
  if negb (ok res) then throw (Error "Failed to export report")
  else res_json res.

Definition clearReport (reportId : string) : M Json :=
  let headers := report_header reportId ∅ in
  let! res := fetch (mkRequest (BASE_URL +:+ "/report/clear") DELETE headers NoBody) in
  if negb (ok res) then throw (Error "Failed to clear report")
  else res_json res.

End Client.

End ApiCalls.

(** * Event handlers of the React components

    A handler runs against the state of its component and the browser
    state of [Api].  The state variables a handler reads are those of the
    render that created it; the model reads them once, when the handler
    starts, and from then on only writes ([setX]).  A handler is followed
    from its start to its end with no other handler running in between;
    [console] output is not modelled. *)

Module Handler.
Import Api.

Section Monad.
Variable File : Type.
Variable State : Type.

Definition Page : Type := State * World File.

Definition H (A : Type) : Type := Page → result A * Page.

Definition ret {A} (a : A) : H A := λ p, (Return a, p).
Definition throw {A} (e : Exn) : H A := λ p, (Throw e, p).
Definition bind {A B} (m : H A) (k : A → H B) : H B :=
  λ p, match m p with
       | (Return a, p') => k a p'
       | (Throw e, p') => (Throw e, p')
       end.

(** [await m] for a call of the HTTP client *)
Definition await {A} (m : Api.M File A) : H A :=
  λ p, let '(r, w') := m p.2 in (r, (p.1, w')).

(** The state of the render the handler belongs to. *)
Definition render : H State := λ p, (Return p.1, p).

(** [setX(v)] and [setX(prev => ...)] *)
Definition set (f : State → State) : H unit := λ p, (Return tt, (f p.1, p.2)).

(** [try { m } catch (e) { h e }] *)
Definition try_catch {A} (m : H A) (h : Exn → H A) : H A :=
  λ p, match m p with
       | (Return a, p') => (Return a, p')
       | (Throw e, p') => h e p'
       end.

(** [try { m } finally { f }] *)
Definition try_finally {A} (m : H A) (f : H unit) : H A :=
  λ p, let '(r, p') := m p in
       match f p' with
       | (Return _, p'') => (r, p'')
       | (Throw e, p'') => (Throw e, p'')
       end.

End Monad.

Arguments ret {File State A} a.
Arguments throw {File State A} e.
Arguments bind {File State A B} m k.
Arguments await {File State A} m.
Arguments render {File State}.
Arguments set {File State} f.
Arguments try_catch {File State A} m h.
Arguments try_finally {File State A} m f.

Module Notations.
Notation "'do!' x ':=' m 'in' k" := (bind m (λ x, k))
  (at level 10, x name, m at level 200, k at level 200).
End Notations.

(** [e.message]: the text of an [Error], and whatever the platform puts in
    the errors it raises itself. *)
Section Messages.
Variable syntax_error_message : string.
Variable network_error_message : string.

Definition message (e : Exn) : string :=
  match e with
  | Error m => m
  | SyntaxError => syntax_error_message
  | NetworkError => network_error_message
  end.
End Messages.

End Handler.

(** * ReportContext.tsx *)

Module ReportContext.
Import Api Handler Handler.Notations.

(** The state of [ReportProvider]. *)
Record State (ReportItem : Type) := mkState {
  reportId : option string;
  items : list ReportItem;
  isLoading : bool;
  showReportBuilder : bool
}.
Arguments mkState {ReportItem} _ _ _ _.
Arguments reportId {ReportItem} _.
Arguments items {ReportItem} _.
Arguments isLoading {ReportItem} _.
Arguments showReportBuilder {ReportItem} _.

Section Provider.
(** The [report_id] field of a response, and its [items] field ([None]
    when it is missing or [null]). *)
Variable File : Type.
Variable Payload : Type.
Variable JSON_stringify : Payload → string.
Variable Json : Type.
Variable ReportItem : Type.
Variable report_id : Json → string.
Variable response_items : Json → option (list ReportItem).
Variable VITE_API_BASE_URL : option string.
Variable network : Request File → option (Response Json).

Local Abbreviation H := (Handler.H File (State ReportItem)).
Local Abbreviation createReport := (ApiCalls.createReport File Json VITE_API_BASE_URL network).
Local Abbreviation addReportItem :=
  (ApiCalls.addReportItem File Payload JSON_stringify Json VITE_API_BASE_URL network).
Local Abbreviation listReportItems :=
  (ApiCalls.listReportItems File Json VITE_API_BASE_URL network).

Definition setReportId (id : string) : H unit :=
  set (λ s, mkState (Some id) (items s) (isLoading s) (showReportBuilder s)).

Definition setItems (l : list ReportItem) : H unit :=
  set (λ s, mkState (reportId s) l (isLoading s) (showReportBuilder s)).

Definition setIsLoading (b : bool) : H unit :=
  set (λ s, mkState (reportId s) (items s) b (showReportBuilder s)).

(** [localStorage.getItem('report_id')] and [localStorage.setItem('report_id', id)] *)
Definition stored_report_id : H (option string) :=
  λ p, (Return (localStorage p.2 !! "report_id"), p).

Definition store_report_id (id : string) : H unit :=
  λ p, (Return tt, (p.1, mkWorld (<["report_id" := id]> (localStorage p.2)) (sent p.2))).

Definition refreshItemsInternal (id : string) : H unit :=
  try_finally
    (try_catch
       (do! _ := setIsLoading true in
        do! response := await (listReportItems id) in
        do! _ :=
          (if truthy_string (report_id response)
              && negb (bool_decide (report_id response = id))
           then
             do! _ := setReportId (report_id response) in
             store_report_id (report_id response)
           else ret tt) in
        setItems (default [] (response_items response)))
       (λ error, setItems []))
    (setIsLoading false).

Definition refreshItems : H unit :=
  do! s := render in
  match reportId s with
  | Some id => if truthy_string id then refreshItemsInternal id else ret tt
  | None => ret tt
  end.

(** The effect run when the provider mounts. *)
Definition initReport : H unit :=
  try_catch
    (do! r := await createReport in
     do! _ := setReportId (report_id r) in
     store_report_id (report_id r))
    (λ error, ret tt).

Definition mount : H unit :=
  do! existingReportId := stored_report_id in
  match existingReportId with
  | Some id =>
      if truthy_string id then
        do! _ := setReportId id in
        refreshItemsInternal id
      else initReport
  | None => initReport
  end.

Definition addItem (item : Payload) : H unit :=
  do! s := render in
  do! currentReportId :=
    (if negb (truthy_opt_string (reportId s)) then
       try_catch
         (do! r := await createReport in
          do! _ := setReportId (report_id r) in
          do! _ := store_report_id (report_id r) in
          ret (report_id r))
         (λ error, throw (Error "Failed to create report session"))
     else ret (default "" (reportId s))) in
  try_finally
    (try_catch
       (do! _ := setIsLoading true in
        do! response := await (addReportItem item currentReportId) in
        do! _ :=
          (if truthy_string (report_id response)
              && negb (bool_decide (report_id response = currentReportId))
           then
             do! _ := setReportId (report_id response) in
             store_report_id (report_id response)
           else ret tt) in
        refreshItemsInternal
          (if truthy_string currentReportId then currentReportId
           else report_id response))
       (λ error, throw error))
    (setIsLoading false).

End Provider.

End ReportContext.

(** * StatisticalTests.tsx: running a test *)

Module StatRun.
Import Api Handler Handler.Notations.

(** [StatTestRequest]; the parameters are passed on as they are. *)
Record StatTestRequest (Params : Type) := mkStatTestRequest {
  test_category : string;
  test_name : string;
  parameters : Params;
  data : StatTests.Samples
}.
Arguments mkStatTestRequest {Params} _ _ _ _.

(** The state of the component. *)
Record State (Params Json : Type) := mkState {
  selectedCategory : string;
  selectedTest : string;
  current_parameters : Params;
  results : list Json;
  loading : bool;
  error : option string
}.
Arguments mkState {Params Json} _ _ _ _ _ _.
Arguments selectedCategory {Params Json} _.
Arguments selectedTest {Params Json} _.
Arguments current_parameters {Params Json} _.
Arguments results {Params Json} _.
Arguments loading {Params Json} _.
Arguments error {Params Json} _.

Section Component.
(** [is_object result] is [result && typeof result === 'object']. *)
Variable File : Type.
Variable Params : Type.
Variable JSON_stringify : StatTestRequest Params → string.
Variable Json : Type.
Variable is_object : Json → bool.
Variable syntax_error_message : string.
Variable network_error_message : string.
Variable VITE_API_BASE_URL : option string.
Variable network : Request File → option (Response Json).

(** The props. *)
Variable preData postData : list StatTests.SeriesPoint.
Variable testCohort controlCohort : option string.

Local Abbreviation H := (Handler.H File (State Params Json)).
Local Abbreviation message := (Handler.message syntax_error_message network_error_message).
Local Abbreviation runStatisticalTest :=
  (Api.runStatisticalTest File (StatTestRequest Params) JSON_stringify Json
     VITE_API_BASE_URL network).

Definition setResults (f : list Json → list Json) : H unit :=
  set (λ s, mkState (selectedCategory s) (selectedTest s) (current_parameters s)
              (f (results s)) (loading s) (error s)).

Definition setLoading (b : bool) : H unit :=
  set (λ s, mkState (selectedCategory s) (selectedTest s) (current_parameters s)
              (results s) b (error s)).

Definition setError (e : option string) : H unit :=
  set (λ s, mkState (selectedCategory s) (selectedTest s) (current_parameters s)
              (results s) (loading s) e).

Definition extractData : StatTests.Samples :=
  StatTests.extractData preData postData testCohort controlCohort.

Definition runTest : H unit :=
  do! s := render in
  if negb (truthy_string (selectedCategory s)) || negb (truthy_string (selectedTest s))
  then ret tt
  else
    do! _ := setLoading true in
    do! _ := setError None in
    try_finally
      (try_catch
         (let data := extractData in
          if bool_decide (length (StatTests.preTest data) = 0)
             && bool_decide (length (StatTests.postTest data) = 0)
          then throw (Error "No valid data found for the test cohort")
          else
            let request :=
              mkStatTestRequest (selectedCategory s) (selectedTest s)
                (current_parameters s) data in
            do! result := await (runStatisticalTest request) in
            if negb (is_object result)
            then throw (Error "Invalid response from statistical test")
            else setResults (λ prev, prev ++ [result]))
         (λ err,
            setError (Some (if truthy_string (message err) then message err
                            else "Statistical test failed"))))
      (setLoading false).

Definition clearResults : H unit :=
  do! _ := setResults (λ _, []) in
  setError None.

End Component.

End StatRun.

(** * MetricBar.tsx *)

Module MetricBar.

(** The handlers call [onChange] with the next selection, or not at all
    ([None]). *)
Definition addMetric (selected : list string) (metric : string) : option (list string) :=
  if negb (truthy_string metric) then None
  else if bool_decide (metric ∈ selected) then None
  else Some (selected ++ [metric]).

Definition removeMetric (selected : list string) (metric : string) : option (list string) :=
  Some (filter (λ m, m ≠ metric) selected).

(** The "Add All to Selection" button. *)
Definition addAll (selected additionalMetrics : list string) : option (list string) :=
  let metricsToAdd := filter (λ m, m ∉ selected) additionalMetrics in
  Some (selected ++ metricsToAdd).

(** The "Clear All Additional" button, as far as the selection goes. *)
Definition clearAllAdditional (selected additionalMetrics : list string)
    : option (list string) :=
  Some (filter (λ m, m ∉ additionalMetrics) selected).

(** What the parent holds after a handler has run. *)
Definition selection_after (selected : list string) (next : option (list string))
    : list string :=
  default selected next.

End MetricBar.

(** * App.tsx: state and handlers *)

Module AppState.
Import Api Handler Handler.Notations.

(** The fields of [FiltersState] that [App] reads. *)
Module Filters.
Record t (DateRange MetricAggregation : Type) := mk {
  pre_period : option DateRange;
  post_period : option DateRange;
  test_cohort : option string;
  control_cohort : option string;
  metric : option string;
  metrics : option (list string);
  confirmed : option string;
  test_confirmed : option string;
  control_confirmed : option string;
  captain_group_by : option string;
  captain_metrics : option (list MetricAggregation)
}.
Arguments mk {DateRange MetricAggregation} _ _ _ _ _ _ _ _ _ _ _.
Arguments pre_period {DateRange MetricAggregation} _.
Arguments post_period {DateRange MetricAggregation} _.
Arguments test_cohort {DateRange MetricAggregation} _.
Arguments control_cohort {DateRange MetricAggregation} _.
Arguments metric {DateRange MetricAggregation} _.
Arguments metrics {DateRange MetricAggregation} _.
Arguments confirmed {DateRange MetricAggregation} _.
Arguments test_confirmed {DateRange MetricAggregation} _.
Arguments control_confirmed {DateRange MetricAggregation} _.
Arguments captain_group_by {DateRange MetricAggregation} _.
Arguments captain_metrics {DateRange MetricAggregation} _.
End Filters.

Module FunnelRequest.
Record t (DateRange : Type) := mk {
  pre_period : option DateRange;
  post_period : option DateRange;
  test_cohort : option string;
  control_cohort : option string;
  metric : option string;
  confirmed : option string;
  test_confirmed : option string;
  control_confirmed : option string;
  agg : option Backend.Aggregation;
  series_breakout : option string
}.
Arguments mk {DateRange} _ _ _ _ _ _ _ _ _ _.
Arguments metric {DateRange} _.
Arguments agg {DateRange} _.
Arguments series_breakout {DateRange} _.
End FunnelRequest.

Module CaptainLevelRequest.
Record t (DateRange MetricAggregation : Type) := mk {
  pre_period : option DateRange;
  post_period : option DateRange;
  test_cohort : string;
  control_cohort : string;
  test_confirmed : option string;
  control_confirmed : option string;
  group_by_column : string;
  metric_aggregations : list MetricAggregation
}.
Arguments mk {DateRange MetricAggregation} _ _ _ _ _ _ _ _.
End CaptainLevelRequest.

(** What [JSON.stringify] is applied to. *)
Inductive Payload (DateRange MetricAggregation : Type) :=
| FunnelPayload (req : FunnelRequest.t DateRange)
| CaptainLevelPayload (req : CaptainLevelRequest.t DateRange MetricAggregation).
Arguments FunnelPayload {DateRange MetricAggregation} req.
Arguments CaptainLevelPayload {DateRange MetricAggregation} req.

(** The state of [App].  [funnels] and [aggByMetric] are objects used as
    dictionaries; [aggByMetric] is read at the names of metrics only, which
    are taken not to name a member of [Object.prototype]. *)
Record State (DateRange MetricAggregation Json : Type) := mkState {
  uploaded : option Json;
  filters : Filters.t DateRange MetricAggregation;
  funnels : ChartBuilder.obj Json;
  cohortAggregation : option Json;
  captainLevelData : option Json;
  selectedMetrics : list string;
  additionalMetrics : list string;
  aggByMetric : gmap string Backend.Aggregation;
  seriesBreakout : string;
  categoricalColumns : list string;
  loading : bool;
  error : option string;
  visibleSummaries : gset string
}.
Arguments mkState {DateRange MetricAggregation Json} _ _ _ _ _ _ _ _ _ _ _ _ _.
Arguments uploaded {DateRange MetricAggregation Json} _.
Arguments filters {DateRange MetricAggregation Json} _.
Arguments funnels {DateRange MetricAggregation Json} _.
Arguments cohortAggregation {DateRange MetricAggregation Json} _.
Arguments captainLevelData {DateRange MetricAggregation Json} _.
Arguments selectedMetrics {DateRange MetricAggregation Json} _.
Arguments additionalMetrics {DateRange MetricAggregation Json} _.
Arguments aggByMetric {DateRange MetricAggregation Json} _.
Arguments seriesBreakout {DateRange MetricAggregation Json} _.
Arguments categoricalColumns {DateRange MetricAggregation Json} _.
Arguments loading {DateRange MetricAggregation Json} _.
Arguments error {DateRange MetricAggregation Json} _.
Arguments visibleSummaries {DateRange MetricAggregation Json} _.

(** [for (const a of l) { s = await body(s, a) }] *)
Fixpoint for_of {File State A S} (l : list A) (body : S → A → H File State S) (s : S)
    : H File State S :=
  match l with
  | [] => ret s
  | a :: rest => do! s' := body s a in for_of rest body s'
  end.

(** [next[m] = res] on an object literal [next]: the name [__proto__]
    reaches the prototype and adds no property. *)
Definition assign {V} (next : ChartBuilder.obj V) (m : string) (res : V)
    : ChartBuilder.obj V :=
  if bool_decide (m = "__proto__") then next else ChartBuilder.obj_set next m res.

Section Component.
(** [categorical_columns] is the field of a [MetaResponse] ([None] when
    it is missing). *)
Variable File : Type.
Variable DateRange : Type.
Variable MetricAggregation : Type.
Variable JSON_stringify : Payload DateRange MetricAggregation → string.
Variable Json : Type.
Variable categorical_columns : Json → option (list string).
Variable syntax_error_message : string.
Variable network_error_message : string.
Variable VITE_API_BASE_URL : option string.
Variable network : Request File → option (Response Json).

Local Abbreviation State := (State DateRange MetricAggregation Json).
Local Abbreviation H := (Handler.H File State).
Local Abbreviation message := (Handler.message syntax_error_message network_error_message).
Local Abbreviation getMeta := (Api.getMeta File Json VITE_API_BASE_URL network).
Local Abbreviation fetchFunnel :=
  (Api.fetchFunnel File (Payload DateRange MetricAggregation) JSON_stringify Json
     VITE_API_BASE_URL network).
Local Abbreviation fetchCohortAggregation :=
  (Api.fetchCohortAggregation File Json VITE_API_BASE_URL network).
Local Abbreviation fetchCaptainLevelAggregation :=
  (ApiCalls.fetchCaptainLevelAggregation File (Payload DateRange MetricAggregation)
     JSON_stringify Json VITE_API_BASE_URL network).

Definition setFunnels (v : ChartBuilder.obj Json) : H unit :=
  set (λ s, mkState (uploaded s) (filters s) v (cohortAggregation s)
              (captainLevelData s) (selectedMetrics s) (additionalMetrics s)
              (aggByMetric s) (seriesBreakout s) (categoricalColumns s) (loading s)
              (error s) (visibleSummaries s)).

Definition setCohortAggregation (v : option Json) : H unit :=
  set (λ s, mkState (uploaded s) (filters s) (funnels s) v
              (captainLevelData s) (selectedMetrics s) (additionalMetrics s)
              (aggByMetric s) (seriesBreakout s) (categoricalColumns s) (loading s)
              (error s) (visibleSummaries s)).

Definition setCaptainLevelData (v : option Json) : H unit :=
  set (λ s, mkState (uploaded s) (filters s) (funnels s) (cohortAggregation s)
              v (selectedMetrics s) (additionalMetrics s)
              (aggByMetric s) (seriesBreakout s) (categoricalColumns s) (loading s)
              (error s) (visibleSummaries s)).

Definition setSelectedMetrics (v : list string) : H unit :=
  set (λ s, mkState (uploaded s) (filters s) (funnels s) (cohortAggregation s)
              (captainLevelData s) v (additionalMetrics s)
              (aggByMetric s) (seriesBreakout s) (categoricalColumns s) (loading s)
              (error s) (visibleSummaries s)).

Definition setAdditionalMetrics (f : list string → list string) : H unit :=
  set (λ s, mkState (uploaded s) (filters s) (funnels s) (cohortAggregation s)
              (captainLevelData s) (selectedMetrics s) (f (additionalMetrics s))
              (aggByMetric s) (seriesBreakout s) (categoricalColumns s) (loading s)
              (error s) (visibleSummaries s)).

Definition setAggByMetric
    (f : gmap string Backend.Aggregation → gmap string Backend.Aggregation) : H unit :=
  set (λ s, mkState (uploaded s) (filters s) (funnels s) (cohortAggregation s)
              (captainLevelData s) (selectedMetrics s) (additionalMetrics s)
              (f (aggByMetric s)) (seriesBreakout s) (categoricalColumns s) (loading s)
              (error s) (visibleSummaries s)).

Definition setCategoricalColumns (v : list string) : H unit :=
  set (λ s, mkState (uploaded s) (filters s) (funnels s) (cohortAggregation s)
              (captainLevelData s) (selectedMetrics s) (additionalMetrics s)
              (aggByMetric s) (seriesBreakout s) v (loading s)
              (error s) (visibleSummaries s)).

Definition setLoading (v : bool) : H unit :=
  set (λ s, mkState (uploaded s) (filters s) (funnels s) (cohortAggregation s)
              (captainLevelData s) (selectedMetrics s) (additionalMetrics s)
              (aggByMetric s) (seriesBreakout s) (categoricalColumns s) v
              (error s) (visibleSummaries s)).

Definition setError (v : option string) : H unit :=
  set (λ s, mkState (uploaded s) (filters s) (funnels s) (cohortAggregation s)
              (captainLevelData s) (selectedMetrics s) (additionalMetrics s)
              (aggByMetric s) (seriesBreakout s) (categoricalColumns s) (loading s)
              v (visibleSummaries s)).

Definition setVisibleSummaries (v : gset string) : H unit :=
  set (λ s, mkState (uploaded s) (filters s) (funnels s) (cohortAggregation s)
              (captainLevelData s) (selectedMetrics s) (additionalMetrics s)
              (aggByMetric s) (seriesBreakout s) (categoricalColumns s) (loading s)
              (error s) v).

Definition handleAddMetricsToSelection (metricsToAdd : list string) : H unit :=
  do! s := render in
  let newMetrics := filter (λ metric, metric ∉ additionalMetrics s) metricsToAdd in
  setAdditionalMetrics (λ prev, prev ++ newMetrics).

Definition handleAggChange (metric : string) (agg : Backend.Aggregation) : H unit :=
  setAggByMetric (λ prev, <[metric := agg]> prev).

(** The effect that follows a change of [uploaded]. *)
Definition loadCategoricalColumns : H unit :=
  do! s := render in
  match uploaded s with
  | Some _ =>
      try_catch
        (do! meta := await getMeta in
         setCategoricalColumns (default [] (categorical_columns meta)))
        (λ _, setCategoricalColumns [])
  | None => setCategoricalColumns []
  end.

Definition loadCohortAggregation : H unit :=
  do! s := render in
  match uploaded s with
  | None => ret tt
  | Some _ =>
      do! _ := setLoading true in
      do! _ := setError None in
      try_finally
        (try_catch
           (do! res := await fetchCohortAggregation in
            setCohortAggregation (Some res))
           (λ e, setError (Some (message e))))
        (setLoading false)
  end.

Definition toggleSummaryVisibility (metric : string) : H unit :=
  do! s := render in
  let newVisible := visibleSummaries s in
  let newVisible :=
    if bool_decide (metric ∈ newVisible) then newVisible ∖ {[metric]}
    else newVisible ∪ {[metric]} in
  setVisibleSummaries newVisible.

(** The metrics [loadFunnel] starts from, before the fallback to
    [ao_days]. *)
Definition metricsToLoad (s : State) : list string :=
  if bool_decide (0 < length (selectedMetrics s)) then selectedMetrics s
  else
    match Filters.metrics (filters s) with
    | Some ms =>
        if bool_decide (0 < length ms) then ms
        else match Filters.metric (filters s) with
             | Some m => if truthy_string m then [m] else []
             | None => []
             end
    | None =>
        match Filters.metric (filters s) with
        | Some m => if truthy_string m then [m] else []
        | None => []
        end
    end.

(** The argument of [fetchFunnel] for the metric [m]. *)
Definition funnel_request (s : State) (m : string) : FunnelRequest.t DateRange :=
  let filters := filters s in
  FunnelRequest.mk (Filters.pre_period filters) (Filters.post_period filters)
    (Filters.test_cohort filters) (Filters.control_cohort filters) (Some m)
    (Filters.confirmed filters) (Filters.test_confirmed filters)
    (Filters.control_confirmed filters)
    (if bool_decide (m ∈ additionalMetrics s)
     then Some (default Backend.Sum (aggByMetric s !! m))
     else None)
    (if truthy_string (seriesBreakout s) then Some (seriesBreakout s) else None).

Definition loadFunnel : H unit :=
  do! s := render in
  if negb (truthy_opt_string (Filters.test_cohort (filters s)))
     || negb (truthy_opt_string (Filters.control_cohort (filters s)))
  then ret tt
  else
    do! _ := setLoading true in
    do! _ := setError None in
    try_finally
      (try_catch
         (do! metricsToLoad :=
            (if bool_decide (length (metricsToLoad s) = 0) then
               do! _ :=
                 (if bool_decide (length (selectedMetrics s) = 0)
                  then setSelectedMetrics ["ao_days"]
                  else ret tt) in
               ret ["ao_days"]
             else ret (metricsToLoad s)) in
          do! next :=
            for_of metricsToLoad
              (λ next m,
                 do! res := await (fetchFunnel (FunnelPayload (funnel_request s m))) in
                 ret (assign next m res))
              [] in
          setFunnels next)
         (λ e, setError (Some (message e))))
      (setLoading false).

Definition loadCaptainLevelAggregation : H unit :=
  do! s := render in
  let filters := filters s in
  if negb (truthy_opt_string (Filters.test_cohort filters))
     || negb (truthy_opt_string (Filters.control_cohort filters))
     || negb (truthy_opt_string (Filters.captain_group_by filters))
     || match Filters.captain_metrics filters with
        | Some captain_metrics => bool_decide (length captain_metrics = 0)
        | None => true
        end
  then
    setError (Some "Please select test cohort, control cohort, group by column, and at least one metric to aggregate")
  else
    do! _ := setLoading true in
    do! _ := setError None in
    try_finally
      (try_catch
         (do! res :=
            await (fetchCaptainLevelAggregation
                     (CaptainLevelPayload
                        (CaptainLevelRequest.mk (Filters.pre_period filters)
                           (Filters.post_period filters)
                           (default "" (Filters.test_cohort filters))
                           (default "" (Filters.control_cohort filters))
                           (Filters.test_confirmed filters)
                           (Filters.control_confirmed filters)
                           (default "" (Filters.captain_group_by filters))
                           (default [] (Filters.captain_metrics filters))))) in
          setCaptainLevelData (Some res))
         (λ e, setError (Some (message e))))
      (setLoading false).

End Component.

End AppState.

(** * ChartBuilder.tsx: legend keys and CSV export *)

Module ChartLines.
Import Js ChartBuilder.

(** [Array.from(new Set(l))]: the distinct elements, in the order of their
    first occurrence. *)
Definition Set_from (l : list string) : list string :=
  foldl (λ seen x, if bool_decide (x ∈ seen) then seen else seen ++ [x]) [] l.

Section Lines.
Variable num_to_string : Q → string.
Variable yAxes : list string.
Variable series : string.

Definition seriesValues (data : list (gmap string jsval)) : list string :=
  if negb (truthy_string series) then []
  else List.filter truthy_string (Set_from (map (series_of num_to_string series) data)).

Definition lineKeys (data : list (gmap string jsval)) : list string :=
  if negb (truthy_string series) then yAxes
  else
    flat_map
      (λ yAxis, map (λ seriesValue, series_key yAxis seriesValue) (seriesValues data))
      yAxes.
End Lines.

Section ExportCsv.
(** [Object.keys] of a row is taken from the platform. *)
Variable num_to_string : Q → string.
Variable Object_keys : gmap string jsval → list string.

(** The callback of [headers.map]: a quoted string, or [value ?? '']. *)
Definition export_value (value : jsval) : jsval :=
  match value with
  | JStr s =>
      if includes "," s || includes (str dquote) s
      then JStr (str dquote +:+ Csv.double_quotes s +:+ str dquote)
      else value
  | JNull | JUndefined => JStr ""
  | _ => value
  end.

(** [values.join(sep)]: [null] and [undefined] elements give the empty
    string. *)
Definition join_values (sep : string) (values : list jsval) : string :=
  join sep (map (λ v, match v with
                      | JNull | JUndefined => ""
                      | _ => ToString num_to_string v
                      end) values).

(** The text handed to the download, [None] when nothing is exported. *)
Definition handleExportCsv (data : list (gmap string jsval)) : option string :=
  match data with
  | [] => None
  | first :: _ =>
      let headers := Object_keys first in
      Some (join (str newline)
              (join "," headers
               :: map (λ row,
                         join_values ","
                           (map (λ header, export_value (row_get row header)) headers))
                    data))
  end.
End ExportCsv.

End ChartLines.

(** * FunnelAnalysis.tsx: the wizard *)

Module FunnelWizard.
Import Api Handler Handler.Notations.

Inductive Step := Upload | CaptainIds | AoFunnel | Complete.

(** [AOFunnelRequest], as the wizard fills it. *)
Record AOFunnelRequest := mkAOFunnelRequest {
  req_username : string;
  start_date : string;
  end_date : string;
  time_level : string;
  tod_level : string
}.

(** What [JSON.stringify] is applied to. *)
Inductive Payload :=
| UsernamePayload (username : string)
| AOFunnelPayload (req : AOFunnelRequest).

(** The state of the component; [delivered] lists what was handed to the
    [onDataReady] prop. *)
Record State (Json : Type) := mkState {
  currentStep : Step;
  loading : bool;
  error : option string;
  uploadData : option Json;
  captainIdData : option Json;
  funnelData : option Json;
  username : string;
  startDate : string;
  endDate : string;
  timeLevel : string;
  todLevel : string;
  delivered : list Json
}.
Arguments mkState {Json} _ _ _ _ _ _ _ _ _ _ _ _.
Arguments currentStep {Json} _.
Arguments loading {Json} _.
Arguments error {Json} _.
Arguments uploadData {Json} _.
Arguments captainIdData {Json} _.
Arguments funnelData {Json} _.
Arguments username {Json} _.
Arguments startDate {Json} _.
Arguments endDate {Json} _.
Arguments timeLevel {Json} _.
Arguments todLevel {Json} _.
Arguments delivered {Json} _.

Section Component.
(** [String.prototype.trim] is taken from the platform; [onDataReady] tells
    whether the prop is given. *)
Variable File : Type.
Variable JSON_stringify : Payload → string.
Variable Json : Type.
Variable session_id : Json → string.
Variable funnel_session_id : Json → string.
Variable trim : string → string.
Variable onDataReady : bool.
Variable syntax_error_message : string.
Variable network_error_message : string.
Variable VITE_API_BASE_URL : option string.
Variable network : Request File → option (Response Json).

Local Abbreviation H := (Handler.H File (State Json)).
Local Abbreviation message := (Handler.message syntax_error_message network_error_message).
Local Abbreviation uploadMobileNumbers :=
  (ApiCalls.uploadMobileNumbers File Json funnel_session_id VITE_API_BASE_URL network).
Local Abbreviation getCaptainIds :=
  (ApiCalls.getCaptainIds File Payload JSON_stringify Json UsernamePayload
     VITE_API_BASE_URL network).
Local Abbreviation getAOFunnel :=
  (ApiCalls.getAOFunnel File Payload JSON_stringify Json VITE_API_BASE_URL network).
Local Abbreviation useFunnelForAnalysis :=
  (ApiCalls.useFunnelForAnalysis File Json session_id VITE_API_BASE_URL network).

Definition setCurrentStep (v : Step) : H unit :=
  set (λ s, mkState v (loading s) (error s) (uploadData s) (captainIdData s)
              (funnelData s) (username s) (startDate s) (endDate s) (timeLevel s)
              (todLevel s) (delivered s)).

Definition setLoading (v : bool) : H unit :=
  set (λ s, mkState (currentStep s) v (error s) (uploadData s) (captainIdData s)
              (funnelData s) (username s) (startDate s) (endDate s) (timeLevel s)
              (todLevel s) (delivered s)).

Definition setError (v : option string) : H unit :=
  set (λ s, mkState (currentStep s) (loading s) v (uploadData s) (captainIdData s)
              (funnelData s) (username s) (startDate s) (endDate s) (timeLevel s)
              (todLevel s) (delivered s)).

Definition setUploadData (v : option Json) : H unit :=
  set (λ s, mkState (currentStep s) (loading s) (error s) v (captainIdData s)
              (funnelData s) (username s) (startDate s) (endDate s) (timeLevel s)
              (todLevel s) (delivered s)).

Definition setCaptainIdData (v : option Json) : H unit :=
  set (λ s, mkState (currentStep s) (loading s) (error s) (uploadData s) v
              (funnelData s) (username s) (startDate s) (endDate s) (timeLevel s)
              (todLevel s) (delivered s)).

Definition setFunnelData (v : option Json) : H unit :=
  set (λ s, mkState (currentStep s) (loading s) (error s) (uploadData s)
              (captainIdData s) v (username s) (startDate s) (endDate s) (timeLevel s)
              (todLevel s) (delivered s)).

(** [onDataReady(uploadResponse)] *)
Definition deliver (v : Json) : H unit :=
  set (λ s, mkState (currentStep s) (loading s) (error s) (uploadData s)
              (captainIdData s) (funnelData s) (username s) (startDate s) (endDate s)
              (timeLevel s) (todLevel s) (delivered s ++ [v])).

(** [files] is the [FileList] of the input, [None] for [null]. *)
Definition handleUpload (files : option (list File)) : H unit :=
  match files with
  | None | Some [] => ret tt
  | Some (file :: _) =>
      do! _ := setLoading true in
      do! _ := setError None in
      try_finally
        (try_catch
           (do! res := await (uploadMobileNumbers file) in
            do! _ := setUploadData (Some res) in
            setCurrentStep CaptainIds)
           (λ e, setError (Some (message e))))
        (setLoading false)
  end.

Definition handleGetCaptainIds : H unit :=
  do! s := render in
  if negb (truthy_string (trim (username s))) then
    setError (Some "Please enter a Presto username")
  else
    do! _ := setLoading true in
    do! _ := setError None in
    try_finally
      (try_catch
         (do! res := await (getCaptainIds (username s)) in
          do! _ := setCaptainIdData (Some res) in
          setCurrentStep AoFunnel)
         (λ e, setError (Some (message e))))
      (setLoading false).

Definition handleGetAOFunnel : H unit :=
  do! s := render in
  if negb (truthy_string (trim (username s))) then
    setError (Some "Please enter a Presto username")
  else
    do! _ := setLoading true in
    do! _ := setError None in
    try_finally
      (try_catch
         (do! res :=
            await (getAOFunnel
                     (AOFunnelPayload
                        (mkAOFunnelRequest (username s) (startDate s) (endDate s)
                           (timeLevel s) (todLevel s)))) in
          do! _ := setFunnelData (Some res) in
          setCurrentStep Complete)
         (λ e, setError (Some (message e))))
      (setLoading false).

Definition resetWizard : H unit :=
  do! _ := setCurrentStep Upload in
  do! _ := setUploadData None in
  do! _ := setCaptainIdData None in
  do! _ := setFunnelData None in
  setError None.

Definition handleUseForAnalysis : H unit :=
  do! _ := setLoading true in
  do! _ := setError None in
  try_finally
    (try_catch
       (do! uploadResponse := await useFunnelForAnalysis in
        if onDataReady then deliver uploadResponse else ret tt)
       (λ e, setError (Some (message e))))
    (setLoading false).

End Component.

End FunnelWizard.

(** * The vocabulary of the properties *)

Module ApiSpec.
Import Api.

(** An operation issues exactly one request, and that request carries the
    session header exactly for a stored, non-empty session id. *)
Definition sends_session_header {File A} (m : M File A) (w : World File) : Prop :=
  ∃ req, sent (m w).2 = sent w ++ [req]
         ∧ ∀ sid, headers req !! "x-session-id" = Some sid
                  ↔ localStorage w !! "session_id" = Some sid ∧ sid ≠ "".

End ApiSpec.

Module SummarySpec.
Local Open Scope Q_scope.

(** The sum and the population variance, as the words have them. *)
Definition total (l : list Q) : Q := foldr Qplus 0 l.

Definition squared_deviations (m : Q) (l : list Q) : list Q :=
  map (λ x, (x - m) ^ 2) l.

End SummarySpec.

Module CsvSpec.

(** The character [c] occurs in [s]. *)
Definition occurs (c : ascii) (s : string) : Prop :=
  In c (String.list_ascii_of_string s).

End CsvSpec.

Module ChartSpec.
Import Js ChartBuilder.
Local Open Scope Q_scope.

(** What a list of (key, amount) contributions adds up to at a key. *)
Definition key_sum (C : list (string * Q)) (k : string) : Q :=
  SummarySpec.total (filter (λ e, e.1 = k) C).*2.

(** The shape shared by the two loops of [chartData]: a record per x-value,
    created by [init] and updated by [upd]; [contrib] lists what a row
    adds, and [R] relates a record to the contributions it has received. *)
Section Grouping.
Variable x_of : gmap string jsval → string.
Variable init : string → obj cellval.
Variable upd : gmap string jsval → obj cellval → option (obj cellval).
Variable contrib : gmap string jsval → list (string * Q).
Variable R : string → list (string * Q) → obj cellval → Prop.

Definition step (grouped : obj (obj cellval)) (row : gmap string jsval)
    : option (obj (obj cellval)) :=
  let xValue := x_of row in
  if inherited xValue then None
  else
    let grouped1 :=
      match obj_get grouped xValue with
      | Some _ => grouped
      | None => obj_set grouped xValue (init xValue)
      end in
    rec ← obj_get grouped1 xValue;
    rec' ← upd row rec;
    Some (obj_set grouped1 xValue rec').

(** The contributions of the rows with x-value [x], in row order. *)
Definition contributions (l : list (gmap string jsval)) (x : string)
    : list (string * Q) :=
  flat_map (λ row, if decide (x_of row = x) then contrib row else []) l.

Record Inv (l : list (gmap string jsval)) (g : obj (obj cellval)) : Prop := {
  inv_nodup : NoDup g.*1;
  inv_keys : ∀ x, x ∈ g.*1 ↔ x ∈ map x_of l;
  inv_rec : ∀ x rec, obj_get g x = Some rec → R x (contributions l x) rec
}.

End Grouping.

(** Without a series column. *)
Section Plain.
Variable num_to_string : Q → string.
Variable str_to_number : string → option Q.
Variable xAxis : string.
Variable yAxes : list string.

Local Abbreviation x_of := (ChartBuilder.x_of num_to_string xAxis).
Local Abbreviation y_of := (ChartBuilder.y_of str_to_number).
Local Abbreviation add_assign := (ChartBuilder.add_assign num_to_string).

Definition plain_upd (row : gmap string jsval) (rec : obj cellval)
    : option (obj cellval) :=
  foldM (λ r y, add_assign r y (y_of y row)) yAxes rec.

Definition plain_contrib (row : gmap string jsval) : list (string * Q) :=
  map (λ y, (y, y_of y row)) yAxes.

(** A record of the plain loop: a total for every metric, nothing but the
    x label besides. *)
Definition plain_record (x : string) (C : list (string * Q)) (rec : obj cellval)
    : Prop :=
  (∀ y, y ∈ yAxes → ∃ q, obj_get rec y = Some (VNum q) ∧ q == key_sum C y)
  ∧ (∀ k, is_Some (obj_get rec k) → k = xAxis ∨ k ∈ yAxes)
  ∧ (xAxis ∉ yAxes → obj_get rec xAxis = Some (VStr x)).

(** The sum of the metric [y], coerced to a number, over the rows with
    x-value [x]. *)
Definition group_total (data : list (gmap string jsval)) (x y : string) : Q :=
  SummarySpec.total (map (y_of y) (filter (λ row, x_of row = x) data)).

End Plain.

(** With a series column. *)
Section Series.
Variable num_to_string : Q → string.
Variable str_to_number : string → option Q.
Variable xAxis : string.
Variable yAxes : list string.
Variable series : string.

Local Abbreviation x_of := (ChartBuilder.x_of num_to_string xAxis).
Local Abbreviation y_of := (ChartBuilder.y_of str_to_number).
Local Abbreviation series_of := (ChartBuilder.series_of num_to_string series).
Local Abbreviation or_zero_plus := (ChartBuilder.or_zero_plus num_to_string).

Definition series_body (row : gmap string jsval) (r : obj cellval) (y : string)
    : option (obj cellval) :=
  let key := series_key y (series_of row) in
  if inherited key then None
  else Some (obj_set r key (or_zero_plus (obj_get r key) (y_of y row))).

Definition series_upd (row : gmap string jsval) (rec : obj cellval)
    : option (obj cellval) :=
  foldM (series_body row) yAxes rec.

Definition series_contrib (row : gmap string jsval) : list (string * Q) :=
  map (λ y, (series_key y (series_of row), y_of y row)) yAxes.

(** No metric × series key of the row is an inherited member or the x
    column itself. *)
Definition series_ok (row : gmap string jsval) : Prop :=
  Forall (λ y, inherited (series_key y (series_of row)) = false
               ∧ series_key y (series_of row) ≠ xAxis) yAxes.

(** A record of the series loop: the x label, and a total under every key
    that received a contribution. *)
Definition series_record (x : string) (C : list (string * Q)) (rec : obj cellval)
    : Prop :=
  obj_get rec xAxis = Some (VStr x)
  ∧ ∀ k, k ≠ xAxis →
      match obj_get rec k with
      | Some (VNum q) => q == key_sum C k ∧ k ∈ C.*1
      | Some (VStr _) => False
      | None => k ∉ C.*1
      end.

(** The sum of the metric [y], coerced to a number, over the rows with
    x-value [x] and series value [s]. *)
Definition series_total (data : list (gmap string jsval)) (x s y : string) : Q :=
  SummarySpec.total
    (map (y_of y) (filter (λ row, x_of row = x ∧ series_of row = s) data)).

(** The key of metric [y] and series value [s] is formed by no other pair
    of a selected metric and a series value of the table. *)
Definition unique_key (data : list (gmap string jsval)) (y s : string) : Prop :=
  ∀ row y', row ∈ data → y' ∈ yAxes →
    series_key y' (series_of row) = series_key y s → y' = y ∧ series_of row = s.

End Series.

End ChartSpec.

Module ApiCallsSpec.
Import Api.

(** An operation issues exactly one request; it carries the funnel session
    header exactly for a stored, non-empty funnel session id, and never the
    header of the analysis session. *)
Definition sends_funnel_header {File A} (m : M File A) (w : World File) : Prop :=
  ∃ req, sent (m w).2 = sent w ++ [req]
         ∧ (∀ fid, headers req !! "x-funnel-session-id" = Some fid
                   ↔ localStorage w !! "funnel_session_id" = Some fid ∧ fid ≠ "")
         ∧ headers req !! "x-session-id" = None.

(** An operation issues exactly one request, with neither session header. *)
Definition sends_no_session {File A} (m : M File A) (w : World File) : Prop :=
  ∃ req, sent (m w).2 = sent w ++ [req]
         ∧ headers req !! "x-session-id" = None
         ∧ headers req !! "x-funnel-session-id" = None.

(** An operation issues exactly one request, with the given report id and
    neither session header. *)
Definition sends_report_id {File A} (reportId : string) (m : M File A)
    (w : World File) : Prop :=
  ∃ req, sent (m w).2 = sent w ++ [req]
         ∧ headers req !! "x-report-id" = Some reportId
         ∧ headers req !! "x-session-id" = None
         ∧ headers req !! "x-funnel-session-id" = None.

(** An operation leaves every entry of the store but the one under [key]. *)
Definition keeps_but {File A} (key : string) (m : M File A) (w : World File) : Prop :=
  ∀ k, k ≠ key → localStorage (m w).2 !! k = localStorage w !! k.

Definition keeps_store {File A} (m : M File A) (w : World File) : Prop :=
  localStorage (m w).2 = localStorage w.

End ApiCallsSpec.

Module ReportSpec.
Import Api ReportContext.

Section Requests.
Context {File Payload Json : Type}.
Variable JSON_stringify : Payload → string.
Variable base : option string.
Variable network : Request File → option (Response Json).

(** The requests of the provider. *)
Definition create_request : Request File :=
  mkRequest (BASE_URL base +:+ "/report/create") POST ∅ (NoBody File).

Definition add_request (item : Payload) (reportId : string) : Request File :=
  mkRequest (BASE_URL base +:+ "/report/add-item") POST
    (<["x-report-id" := reportId]> (<["content-type" := "application/json"]> ∅))
    (JsonBody File (JSON_stringify item)).

Definition list_request (reportId : string) : Request File :=
  mkRequest (BASE_URL base +:+ "/report/list") GET (<["x-report-id" := reportId]> ∅)
    (NoBody File).

(** The parsed body of an accepted answer to [req], if there is one. *)
Definition accepted (req : Request File) : option Json :=
  match network req with
  | Some r => if ok r then json r else None
  | None => None
  end.

(** A call returns the accepted body, or throws. *)
Definition outcome {A} (r : result A) (o : option A) : Prop :=
  match o with
  | Some v => r = Return v
  | None => ∃ e, r = Throw e
  end.

Variable ReportItem : Type.
Variable report_id : Json → string.
Variable response_items : Json → option (list ReportItem).

(** The server names a report other than [id]. *)
Definition renamed (v : Json) (id : string) : bool :=
  truthy_string (report_id v) && negb (bool_decide (report_id v = id)).

(** What a refresh of the report [id] leaves behind. *)
Definition refreshed (id : string) (st : State ReportItem) : State ReportItem :=
  match accepted (list_request id) with
  | Some v =>
      mkState (if renamed v id then Some (report_id v) else reportId st)
        (default [] (response_items v)) false (showReportBuilder st)
  | None => mkState (reportId st) [] false (showReportBuilder st)
  end.

Definition refreshed_store (id : string) (store : gmap string string)
    : gmap string string :=
  match accepted (list_request id) with
  | Some v => if renamed v id then <["report_id" := report_id v]> store else store
  | None => store
  end.

(** The report id the provider shows is the one kept in the store. *)
Definition in_sync (st : State ReportItem) (store : gmap string string) : Prop :=
  ∀ id, reportId st = Some id → store !! "report_id" = Some id.

End Requests.

End ReportSpec.

Module AppSpec.
Import Api AppState.

(** The headers built by [sessionHeaders] over a store. *)
Definition session_headers (store : gmap string string) : gmap string string :=
  match store !! "session_id" with
  | Some s => if truthy_string s then <["x-session-id" := s]> ∅ else ∅
  | None => ∅
  end.

Section Answers.
Context {File Json : Type}.
Variable network : Request File → option (Response Json).

(** What a call that sends [req] comes back with: the parsed body of an
    accepted answer, or what is thrown; [refused] turns the body text of an
    answer that is not ok into the message of the error. *)
Definition answer_of (refused : string → string) (req : Request File) : Exn + Json :=
  match network req with
  | Some res =>
      if ok res then
        match json res with
        | Some v => inr v
        | None => inl SyntaxError
        end
      else inl (Error (refused (text res)))
  | None => inl NetworkError
  end.

(** The answers to a sequence of requests issued one after the other, up
    to the first that fails; and the number of requests issued. *)
Fixpoint answers (refused : string → string) (reqs : list (Request File))
    : Exn + list Json :=
  match reqs with
  | [] => inr []
  | req :: rest =>
      match answer_of refused req with
      | inl e => inl e
      | inr v =>
          match answers refused rest with
          | inl e => inl e
          | inr vs => inr (v :: vs)
          end
      end
  end.

Fixpoint attempts (refused : string → string) (reqs : list (Request File)) : nat :=
  match reqs with
  | [] => 0
  | req :: rest =>
      match answer_of refused req with
      | inl _ => 1
      | inr _ => S (attempts refused rest)
      end
  end.

(** The outcome of a call as a result. *)
Definition to_result (a : Exn + Json) : result Json :=
  match a with
  | inl e => Throw e
  | inr v => Return v
  end.

End Answers.

Section Requests.
Context {File DateRange MetricAggregation Json : Type}.
Variable JSON_stringify : Payload DateRange MetricAggregation → string.
Variable base : option string.

Definition get (path : string) (store : gmap string string) : Request File :=
  mkRequest (BASE_URL base +:+ path) GET (session_headers store) (NoBody File).

Definition json_post (path : string) (store : gmap string string)
    (payload : Payload DateRange MetricAggregation) : Request File :=
  mkRequest (BASE_URL base +:+ path) POST (content_json (session_headers store))
    (JsonBody File (JSON_stringify payload)).

(** The request of [loadFunnel] for the metric [m]. *)
Definition funnel_post (s : State DateRange MetricAggregation Json)
    (store : gmap string string) (m : string) : Request File :=
  json_post "/funnel" store (FunnelPayload (funnel_request DateRange MetricAggregation Json s m)).

(** The metrics [loadFunnel] asks for. *)
Definition requested (s : State DateRange MetricAggregation Json) : list string :=
  if bool_decide (length (metricsToLoad DateRange MetricAggregation Json s) = 0)
  then ["ao_days"]
  else metricsToLoad DateRange MetricAggregation Json s.

(** The dictionary built from the metrics and their answers. *)
Definition collected (ms : list string) (vs : list Json) : ChartBuilder.obj Json :=
  foldl (λ next mv, assign next mv.1 mv.2) [] (zip ms vs).

End Requests.

End AppSpec.

Module CsvReader.
Import Js.

(** Reading CSV text back: the text is cut at every separator that stands
    outside double quotes; a double quote opens or closes a quoted
    stretch. *)
Definition cons_head (c : ascii) (fields : list string) : list string :=
  match fields with
  | f :: rest => String c f :: rest
  | [] => [String c ""]
  end.

Fixpoint split_outside (sep : ascii) (quoted : bool) (s : string) : list string :=
  match s with
  | "" => [""]
  | String c rest =>
      if decide (c = dquote) then cons_head c (split_outside sep (negb quoted) rest)
      else if negb quoted && bool_decide (c = sep) then "" :: split_outside sep quoted rest
      else cons_head c (split_outside sep quoted rest)
  end.

Definition prepend (t : string) (fields : list string) : list string :=
  match fields with
  | f :: rest => (t +:+ f) :: rest
  | [] => [t]
  end.

(** The rows of a CSV text, each as its list of fields read back. *)
Definition read_csv (text : string) : list (list string) :=
  map (λ line, map Csv.unescape_field (split_outside ","%char false line))
    (split_outside newline false text).

(** Where a scan of [s] that starts inside or outside quotes ends, if it
    meets no separator outside quotes. *)
Fixpoint scan (sep : ascii) (quoted : bool) (s : string) : option bool :=
  match s with
  | "" => Some quoted
  | String c rest =>
      if decide (c = dquote) then scan sep (negb quoted) rest
      else if negb quoted && bool_decide (c = sep) then None
      else scan sep quoted rest
  end.

(** A name that needs no escaping. *)
Definition plain (s : string) : Prop :=
  ¬ CsvSpec.occurs ","%char s ∧ ¬ CsvSpec.occurs dquote s ∧ ¬ CsvSpec.occurs newline s.

(** The text of a cell: the empty string for [null] and [undefined]. *)
Definition cell_text (num_to_string : Q → string) (value : jsval) : string :=
  match value with
  | JNull | JUndefined => ""
  | _ => ToString num_to_string value
  end.

End CsvReader.

Module ChartLinesSpec.
Import Js.

(** What a cell must be for the two exporters to agree on it: a string
    without a newline, a number that prints without a character to quote. *)
Definition export_safe (num_to_string : Q → string) (value : jsval) : Prop :=
  match value with
  | JStr s => ¬ CsvSpec.occurs newline s
  | JNum q => Csv.needs_quoting (num_to_string q) = false
  | _ => True
  end.

End ChartLinesSpec.

Module WizardSpec.
Import Api Handler FunnelWizard.

(** The step shown has the data of the step before it. *)
Definition step_has_data {Json} (st : State Json) : Prop :=
  match currentStep st with
  | Upload => True
  | CaptainIds => is_Some (uploadData st)
  | AoFunnel => is_Some (captainIdData st)
  | Complete => is_Some (funnelData st)
  end.

(** What a handler of the wizard leaves behind: it returns, after at most
    one request; the step shown has its data; and the step has changed only
    if the error is cleared. *)
Definition settles {File Json} (h : H File (State Json) unit) (st : State Json)
    (w : World File) : Prop :=
  ∃ st' w' reqs, h (st, w) = (Return tt, (st', w'))
    ∧ sent w' = sent w ++ reqs ∧ (length reqs ≤ 1)%nat
    ∧ step_has_data st'
    ∧ (currentStep st' = currentStep st ∨ error st' = None).

End WizardSpec.

(** * Sample data *)

Module Fixtures.
Import Api Js.
Local Open Scope Q_scope.

Definition stringify : unit → string := λ _, "{}".
Definition sid_of : string → string := λ body, body.
Definition answer (r : Response string) : Request unit → option (Response string) :=
  λ _, Some r.
Definition refused : Response string := mkResponse false "session not found" None.
Definition refused_empty : Response string := mkResponse false "" None.
Definition accepted : Response string := mkResponse true "s-42" (Some "s-42").
Definition fresh_world : World unit := mkWorld ∅ [].
Definition stale_world : World unit := mkWorld {[ "session_id" := "s-41" ]} [].
Definition blank_world : World unit := mkWorld {[ "session_id" := "" ]} [].

Definition independent_power : StatTests.TestConfig :=
  StatTests.mkTest "Independent t-test power"
    [StatTests.effect_size_param; StatTests.alpha_param; StatTests.nobs1_param].

Definition show_number : Q → string := λ _, "n".
Definition parse_number : string → option Q := λ _, None.

Definition ride (day city : string) (rides : Q) : gmap string jsval :=
  {[ "day" := JStr day; "city" := JStr city; "rides" := JNum rides ]}.

Definition rides_table : list (gmap string jsval) :=
  [ ride "mon" "a" 1; ride "tue" "a" 5; ride "mon" "b" 2 ].

End Fixtures.

(** * More sample data *)

Module Samples.
Import Api Js Fixtures.
Local Open Scope Q_scope.

Definition username_only : string → unit := λ _, tt.

(** A report provider with a report, and one without. *)
Definition no_items : string → option (list string) := λ _, None.
Definition with_report : ReportContext.State string :=
  ReportContext.mkState (Some "r-1") [] false false.
Definition without_report : ReportContext.State string :=
  ReportContext.mkState None [] false false.

(** A test component with a selection, and its series. *)
Definition stringify_test : StatRun.StatTestRequest unit → string := λ _, "{}".
Definition any_object : string → bool := λ _, true.
Definition paired_selected : StatRun.State unit string :=
  StatRun.mkState "paired_tests" "Paired t-test" tt [] false None.
Definition one_test_point : list StatTests.SeriesPoint :=
  [StatTests.mkSeriesPoint "2024-01-01" "TEST: a" 1].

(** The state of [App] with both cohorts chosen and one metric selected. *)
Definition stringify_payload : AppState.Payload unit unit → string := λ _, "{}".
Definition cohorts_chosen : AppState.Filters.t unit unit :=
  AppState.Filters.mk None None (Some "a") (Some "b") None None None None None None None.
Definition ready : AppState.State unit unit string :=
  AppState.mkState None cohorts_chosen [] None None ["ao_days"] [] ∅ "" [] false None ∅.

(** A test cohort whose name holds the marker of the control group. *)
Definition test_named_control : App.FiltersState :=
  App.mkFilters (Some "control_a") (Some "b").
Definition one_funnel : App.FunnelResponse :=
  App.mkFunnel [App.mkFunnelPoint "2024-01-01" "TEST: control_a" "ao_days" 1 None] [].

(** The wizard as it starts. *)
Definition stringify_wizard : FunnelWizard.Payload → string := λ _, "{}".
Definition wizard_start : FunnelWizard.State string :=
  FunnelWizard.mkState FunnelWizard.Upload false None None None None
    "krishna.poddar@rapido.bike" "20250801" "20251031" "daily" "daily" [].

Definition rides_frame : Csv.DataFrameJSON :=
  Csv.mkDataFrame ["day"; "rides"] rides_table.

End Samples.

(** * Properties *)

(** ** The HTTP client *)

Module ApiProps.
Import Api ApiSpec.

Lemma truthy_string_true (s : string) : truthy_string s = true ↔ s ≠ "".
Proof. unfold truthy_string. case_decide; split; congruence. Qed.

Section Facts.
Context {File Payload Json : Type}.
Variable JSON_stringify : Payload → string.
Variable session_id : Json → string.
Variable base : option string.
Variable network : Request File → option (Response Json).

Local Abbreviation uploadCsv := (uploadCsv File Json session_id base network).
Local Abbreviation getMeta := (getMeta File Json base network).
Local Abbreviation fetchMetrics := (fetchMetrics File Payload JSON_stringify Json base network).
Local Abbreviation fetchFunnel := (fetchFunnel File Payload JSON_stringify Json base network).
Local Abbreviation clearSession := (clearSession File Json base network).
Local Abbreviation fetchCohortAggregation := (fetchCohortAggregation File Json base network).
Local Abbreviation runStatisticalTest :=
  (runStatisticalTest File Payload JSON_stringify Json base network).

(** Running [sessionHeaders] never fails and leaves the world alone. *)
Lemma sessionHeaders_run (w : World File) :
  ∃ h, sessionHeaders File w = (Return h, w)
       ∧ ∀ sid, h !! "x-session-id" = Some sid
                ↔ localStorage w !! "session_id" = Some sid ∧ sid ≠ "".
Proof.
  unfold sessionHeaders, bind, getSessionId, ret.
  destruct (localStorage w !! "session_id") as [s|] eqn:E.
  - destruct (truthy_string s) eqn:T.
    + eexists; split; [reflexivity|]. intros sid.
      apply truthy_string_true in T.
      rewrite lookup_insert. case_decide; [|done].
      split; [intros [= <-]; done | intros [[= <-] _]; done].
    + eexists; split; [reflexivity|]. intros sid.
      rewrite lookup_empty. split; [done|].
      intros [[= <-] Hne]. apply truthy_string_true in Hne. congruence.
  - eexists; split; [reflexivity|]. intros sid.
    rewrite lookup_empty. split; [done | intros [? _]; done].
Qed.

Lemma content_json_session (h : gmap string string) (sid : string) :
  content_json h !! "x-session-id" = Some sid ↔ h !! "x-session-id" = Some sid.
Proof. unfold content_json. by rewrite lookup_insert_ne. Qed.

Ltac run_headers w :=
  let h := fresh "h" in
  let Hh := fresh "Hh" in
  let Hsid := fresh "Hsid" in
  destruct (sessionHeaders_run w) as (h & Hh & Hsid);
  unfold bind; rewrite ?Hh; cbn [fst snd].

Ltac run_fetch Hnet :=
  unfold fetch; rewrite ?Hnet; cbn [fst snd ok text json sent localStorage].




End Facts.
End ApiProps.

Module ApiExamples.
Import Api Fixtures.





End ApiExamples.

(** ** The summary roll-up *)

Module BackendProps.
Import Backend.

Lemma pct_change_summarize (agg : Aggregation) (test control : Q) :
  (pct_change (summarize agg test control) = None ↔ control == 0)
  ∧ (¬ control == 0 →
     pct_change (summarize agg test control)
     = Some ((test - control) / control * 100)%Q).
Proof.
  unfold summarize; cbn [pct_change].
  destruct (Qeq_bool control 0) eqn:E.
  - apply Qeq_bool_iff in E. split; [done|]. intros H; contradiction.
  - split.
    + split; [discriminate|]. intros H. apply Qeq_bool_iff in H. congruence.
    + reflexivity.
Qed.

(** C2: in every summary produced for a requested aggregation kind,
    [pct_change] is null exactly when the control value is zero, and is the
    percent difference (a number) otherwise; the roll-up is a total
    function, so a zero control value raises nothing. *)
Theorem pct_change_null_policy (requested : list Aggregation)
    (test_of control_of : Aggregation → Q) (s : SummaryStats) :
  s ∈ summaries requested test_of control_of →
  (pct_change s = None ↔ control_value s == 0)
  ∧ (¬ control_value s == 0 →
     pct_change s
     = Some ((test_value s - control_value s) / control_value s * 100)%Q).
Proof.
  unfold summaries. intros Hs.
  apply list_elem_of_fmap in Hs as (agg & -> & _).
  apply pct_change_summarize.
Qed.

Lemma pct_change_null_policy_witness :
  let s := summarize Sum 14 0 in
  s ∈ summaries [Sum; Mean] (λ _, 14%Q) (λ agg, match agg with Sum => 0 | _ => 7 end)%Q
  ∧ (pct_change s = None ↔ control_value s == 0).
Proof.
  intros s. assert (Hin : s ∈ summaries [Sum; Mean] (λ _, 14%Q)
                        (λ agg, match agg with Sum => 0 | _ => 7 end)%Q).
  { apply list_elem_of_here. }
  split; [exact Hin|].
  exact (proj1 (pct_change_null_policy _ _ _ s Hin)).
Defined.

End BackendProps.

(** ** Sample extraction *)

Module ExtractProps.
Import StatTests.

Lemma filter_skip (label : option string) (d : SeriesPoint) (l1 l2 : list SeriesPoint) :
  Some (cohort d) ≠ label →
  filter (cohort_is label) (l1 ++ d :: l2) = filter (cohort_is label) (l1 ++ l2).
Proof.
  intros Hd. rewrite !filter_app, filter_cons_False; done.
Qed.

Lemma series_props_filter (label : string) (series : list App.FunnelPoint) :
  map value (filter (cohort_is (Some label)) (App.series_props series))
  = map App.value (filter (λ p, App.cohort p = label) series).
Proof.
  unfold App.series_props.
  induction series as [|p series IH]; [done|].
  cbn [map]. destruct (decide (App.cohort p = label)) as [E|E].
  - rewrite !filter_cons_True by (unfold cohort_is; cbn; congruence).
    cbn. by rewrite IH.
  - rewrite !filter_cons_False by (unfold cohort_is; cbn; congruence).
    exact IH.
Qed.

Lemma testLabel_spec (filters : App.FiltersState) (l : string) :
  App.testLabel filters = Some l
  ↔ ∃ t, App.test_cohort filters = Some t ∧ t ≠ "" ∧ l = "TEST: " +:+ t.
Proof.
  unfold App.testLabel, truthy_opt_string.
  destruct (App.test_cohort filters) as [t|]; cbn.
  - destruct (truthy_string t) eqn:T.
    + apply ApiProps.truthy_string_true in T. split.
      * intros [= <-]. eauto.
      * intros (? & [= <-] & _ & ->). done.
    + split; [done|]. intros (? & [= <-] & Hne & _).
      apply ApiProps.truthy_string_true in Hne. congruence.
  - split; [done|]. intros (? & ? & _); done.
Qed.

Lemma controlLabel_spec (filters : App.FiltersState) (l : string) :
  App.controlLabel filters = Some l
  ↔ ∃ c, App.control_cohort filters = Some c ∧ c ≠ "" ∧ l = "CONTROL: " +:+ c.
Proof.
  unfold App.controlLabel, truthy_opt_string.
  destruct (App.control_cohort filters) as [t|]; cbn.
  - destruct (truthy_string t) eqn:T.
    + apply ApiProps.truthy_string_true in T. split.
      * intros [= <-]. eauto.
      * intros (? & [= <-] & _ & ->). done.
    + split; [done|]. intros (? & [= <-] & Hne & _).
      apply ApiProps.truthy_string_true in Hne. congruence.
  - split; [done|]. intros (? & ? & _); done.
Qed.

(** C3: the four samples are the values of the points whose cohort is
    exactly the test (resp. control) label; a point whose cohort is neither
    label contributes to none of them; the labels [App] passes are
    [TEST: <cohort>] and [CONTROL: <cohort>]; and a label left undefined
    selects no point. *)
Theorem extractData_exact_labels :
  (∀ (pre post : list SeriesPoint) (test control : option string),
     let s := extractData pre post test control in
     (∀ d, d ∈ filter (cohort_is test) pre ↔ d ∈ pre ∧ Some (cohort d) = test)
     ∧ (∀ d, d ∈ filter (cohort_is control) pre ↔ d ∈ pre ∧ Some (cohort d) = control)
     ∧ preTest s = map value (filter (cohort_is test) pre)
     ∧ postTest s = map value (filter (cohort_is test) post)
     ∧ preControl s = map value (filter (cohort_is control) pre)
     ∧ postControl s = map value (filter (cohort_is control) post))
  ∧ (∀ (d : SeriesPoint) (l1 l2 m1 m2 : list SeriesPoint) (test control : option string),
       Some (cohort d) ≠ test → Some (cohort d) ≠ control →
       extractData (l1 ++ d :: l2) (m1 ++ d :: m2) test control
       = extractData (l1 ++ l2) (m1 ++ m2) test control)
  ∧ (∀ (filters : App.FiltersState) (funnel : App.FunnelResponse) (t c : string),
       App.test_cohort filters = Some t → t ≠ "" →
       App.control_cohort filters = Some c → c ≠ "" →
       let s := App.statistical_samples filters funnel in
       preTest s = map App.value
                     (filter (λ p, App.cohort p = "TEST: " +:+ t) (App.pre_series funnel))
       ∧ postTest s = map App.value
                     (filter (λ p, App.cohort p = "TEST: " +:+ t) (App.post_series funnel))
       ∧ preControl s = map App.value
                     (filter (λ p, App.cohort p = "CONTROL: " +:+ c) (App.pre_series funnel))
       ∧ postControl s = map App.value
                     (filter (λ p, App.cohort p = "CONTROL: " +:+ c) (App.post_series funnel)))
  ∧ (∀ (pre post : list SeriesPoint) (control : option string),
       preTest (extractData pre post None control) = []
       ∧ postTest (extractData pre post None control) = []).
Proof.
  split; [|split; [|split]].
  - intros pre post test control s.
    split; [|split];
      [intros d; rewrite list_elem_of_filter; unfold cohort_is; tauto ..|].
    repeat split.
  - intros d l1 l2 m1 m2 test control Ht Hc. unfold extractData.
    by rewrite !filter_skip.
  - intros filters funnel t c Ht Hne Hc Hnc s.
    assert (Lt : App.testLabel filters = Some ("TEST: " +:+ t)).
    { apply testLabel_spec. eauto. }
    assert (Lc : App.controlLabel filters = Some ("CONTROL: " +:+ c)).
    { apply controlLabel_spec. eauto. }
    subst s. unfold App.statistical_samples, extractData. rewrite Lt, Lc.
    cbn [preTest postTest preControl postControl].
    rewrite !series_props_filter. done.
  - intros pre post control. unfold extractData. cbn [preTest postTest].
    assert (Hnone : ∀ l, filter (cohort_is None) l = []).
    { induction l as [|d l IH]; [done|]. by rewrite filter_cons_False. }
    by rewrite !Hnone.
Qed.

End ExtractProps.

(** ** The result view *)

Module ViewProps.
Import StatTests.

Lemma is_present_true {A} (f : field A) : is_present f = true ↔ ∃ v, f = Present v.
Proof.
  destruct f; cbn; split; try discriminate; try (intros (? & ?); discriminate); eauto.
Qed.

Section Facts.
Variable toFixed : Q → nat → string.
Variable num_to_string : Q → string.
Variable stringify : gmap string Js.jsval → string.

Local Abbreviation render_result := (render_result toFixed num_to_string stringify).

(** The labels of the rendered rows, one optional label per field. *)
Lemma row_labels (index : nat) (result : StatTestResult) :
  (rows (render_result index result)).*1
  = (if is_present (statistic result) then ["Test Statistic"] else [])
    ++ (if is_present (p_value result) then ["P-value"] else [])
    ++ (if is_present (effect_size result) then ["Effect Size"] else [])
    ++ (match confidence_interval result with
        | Present ci => if bool_decide (length ci = 2) then ["95% CI"] else []
        | _ => []
        end)
    ++ (if is_present (sample_size result) then ["Required Sample Size"] else [])
    ++ (if is_present (power result) then ["Statistical Power"] else []).
Proof.
  unfold StatTests.render_result; cbn [rows].
  rewrite !fmap_app.
  unfold statistic_row, p_value_row, effect_size_row, confidence_interval_row,
    sample_size_row, power_row, row_when.
  repeat f_equal.
  - by destruct (is_present _).
  - by destruct (is_present _).
  - by destruct (is_present _).
  - destruct (confidence_interval result); try done. by destruct (bool_decide _).
  - by destruct (sample_size result).
  - by destruct (power result).
Qed.

Ltac decide_label :=
  match goal with
  | |- _ ∈ _ ↔ true = true =>
      split; [done | intros _; apply (bool_decide_unpack _); vm_compute; exact I]
  | |- _ ∈ _ ↔ false = true =>
      let H := fresh "H" in
      split; [intros H; apply (bool_decide_pack _) in H; vm_compute in H; done | done]
  end.


End Facts.
End ViewProps.

(** ** The numeric parameter controls *)

Module ControlProps.
Import StatTests.
Local Open Scope Q_scope.

Lemma round2_le_1 (v : Q) : v <= 1 → round2 v <= 1.
Proof.
  intros Hv. unfold round2.
  assert (H : (Qfloor (v * 100 + (1 # 2)) <= 100)%Z).
  { change 100%Z with (Qfloor (1 * 100 + (1 # 2))).
    apply Qfloor_resp_le. apply Qplus_le_l. apply Qmult_le_compat_r; [exact Hv|done]. }
  apply Qle_shift_div_r; [done|].
  change (1 * 100)%Q with (inject_Z 100). rewrite <- Zle_Qle. exact H.
Qed.

Lemma round2_ge_0 (v : Q) : 0 <= v → 0 <= round2 v.
Proof.
  intros Hv. unfold round2.
  assert (H : (0 <= Qfloor (v * 100 + (1 # 2)))%Z).
  { change 0%Z with (Qfloor (0 * 100 + (1 # 2))).
    apply Qfloor_resp_le. apply Qplus_le_l. apply Qmult_le_compat_r; [exact Hv|done]. }
  apply Qle_shift_div_l; [done|].
  change (0 * 100)%Q with (inject_Z 0). rewrite <- Zle_Qle. exact H.
Qed.

(** [round2] lands on a multiple of 1/100 within 1/200 of its argument. *)
Lemma round2_nearest (v : Q) :
  (∃ k : Z, round2 v = (inject_Z k / 100)%Q)
  ∧ v - (1 # 200) < round2 v ∧ round2 v <= v + (1 # 200).
Proof.
  split; [eexists; reflexivity|].
  unfold round2.
  pose proof (Qfloor_le (v * 100 + (1 # 2))) as Hle.
  pose proof (Qlt_floor (v * 100 + (1 # 2))) as Hlt.
  rewrite inject_Z_plus in Hlt.
  set (f := inject_Z (Qfloor (v * 100 + (1 # 2)))) in *.
  change (inject_Z 1) with 1 in Hlt.
  split.
  - apply Qlt_shift_div_l; [done|]. lra.
  - apply Qle_shift_div_r; [done|]. lra.
Qed.

Lemma press_lookup (c : Control) (params : gmap string Q) (param : ParamConfig) :
  press c params param !! name param
  = Some (match c with
          | PlusButton | ArrowUp => round2 (Qmin 1 (currentValue params param + 0.05))
          | MinusButton | ArrowDown => round2 (Qmax 0 (currentValue params param - 0.05))
          end).
Proof. destruct c; cbn; unfold increase, decrease; apply lookup_insert_eq. Qed.

Lemma presses_snoc (cs : list Control) (c : Control) (params : gmap string Q)
    (param : ParamConfig) :
  presses (cs ++ [c]) params param = press c (presses cs params param) param.
Proof. unfold presses. by rewrite foldl_snoc. Qed.


End ControlProps.

Module ControlExamples.
Import StatTests Fixtures.
Local Open Scope Q_scope.


End ControlExamples.

(** ** Summary statistics *)

Module SummaryProps.
Import App SummarySpec.
Local Open Scope Q_scope.

Lemma foldl_plus_total (f : Q → Q) (l : list Q) (a : Q) :
  foldl (λ sum val, sum + f val) a l == a + total (map f l).
Proof.
  revert a. induction l as [|x l IH]; intros a.
  - unfold total. cbn [foldl map foldr]. ring.
  - cbn [foldl map]. rewrite IH. unfold total. cbn [foldr]. ring.
Qed.

Lemma insert_sorted_perm (x : Q) (l : list Q) : insert_sorted x l ≡ₚ x :: l.
Proof.
  induction l as [|y l IH]; cbn; [done|].
  destruct (Qle_bool x y); [done|].
  rewrite IH. apply Permutation_swap.
Qed.

Lemma sort_ascending_perm (l : list Q) : sort_ascending l ≡ₚ l.
Proof.
  induction l as [|x l IH]; cbn; [done|].
  rewrite insert_sorted_perm. by rewrite IH.
Qed.

Lemma insert_sorted_sorted (x : Q) (l : list Q) :
  StronglySorted Qle l → StronglySorted Qle (insert_sorted x l).
Proof.
  induction 1 as [|y l Hs IH Hall]; cbn.
  - repeat constructor.
  - destruct (Qle_bool x y) eqn:E.
    + apply Qle_bool_iff in E. constructor; [by constructor|].
      constructor; [exact E|].
      eapply Forall_impl; [exact Hall|]. intros z Hz. by eapply Qle_trans.
    + assert (Hyx : y <= x).
      { apply Qlt_le_weak, Qnot_le_lt. intros H. apply Qle_bool_iff in H. congruence. }
      constructor; [exact IH|].
      rewrite insert_sorted_perm. by constructor.
Qed.

Lemma sort_ascending_sorted (l : list Q) : StronglySorted Qle (sort_ascending l).
Proof.
  induction l as [|x l IH]; cbn; [constructor|].
  by apply insert_sorted_sorted.
Qed.

Lemma sort_ascending_length (l : list Q) : length (sort_ascending l) = length l.
Proof. apply Permutation_length, sort_ascending_perm. Qed.

(** Reading an array at a number that is a natural number. *)
Lemma at_index_nat (arr : list Q) (i : Q) (k : nat) :
  i == inject_Z (Z.of_nat k) → at_index arr i = arr !! k.
Proof.
  intros Hi. unfold at_index, floor.
  assert (Hf : Qfloor i = Z.of_nat k).
  { rewrite (Qfloor_comp _ _ Hi). apply Qfloor_Z. }
  rewrite Hf.
  assert (Hb : Qeq_bool i (inject_Z (Z.of_nat k)) = true) by by apply Qeq_bool_iff.
  rewrite Hb. cbn.
  assert (Hz : (0 <=? Z.of_nat k)%Z = true) by (apply Z.leb_le; lia).
  rewrite Hz. by rewrite Nat2Z.id.
Qed.

Lemma len_nat (arr : list Q) : len arr = inject_Z (Z.of_nat (length arr)).
Proof. reflexivity. Qed.

Lemma floor_quarter (n : nat) :
  floor (inject_Z (Z.of_nat n) * 0.25) = inject_Z (Z.of_nat (n / 4)).
Proof.
  unfold floor. f_equal.
  rewrite Nat2Z.inj_div. change (Z.of_nat 4) with 4%Z.
  rewrite (Zdiv_Qdiv (Z.of_nat n) 4).
  apply Qfloor_comp. unfold Qeq; cbn. lia.
Qed.

Lemma floor_three_quarters (n : nat) :
  floor (inject_Z (Z.of_nat n) * 0.75) = inject_Z (Z.of_nat (3 * n / 4)).
Proof.
  unfold floor. f_equal.
  rewrite Nat2Z.inj_div, Nat2Z.inj_mul. change (Z.of_nat 4) with 4%Z.
  change (Z.of_nat 3) with 3%Z.
  rewrite (Zdiv_Qdiv (3 * Z.of_nat n) 4).
  apply Qfloor_comp. unfold Qeq; cbn. lia.
Qed.

Lemma floor_half (n : nat) :
  floor (inject_Z (Z.of_nat n) / 2) = inject_Z (Z.of_nat (n / 2)).
Proof.
  unfold floor. f_equal.
  rewrite Nat2Z.inj_div. change (Z.of_nat 2) with 2%Z.
  by rewrite (Zdiv_Qdiv (Z.of_nat n) 2).
Qed.

Lemma half_even (n : nat) :
  n mod 2 = 0%nat →
  inject_Z (Z.of_nat n) / 2 == inject_Z (Z.of_nat (n / 2)).
Proof.
  intros He.
  assert (Hn : n = (2 * (n / 2))%nat).
  { pose proof (Nat.div_mod_eq n 2). lia. }
  rewrite Hn at 1. rewrite Nat2Z.inj_mul, inject_Z_mult.
  change (inject_Z (Z.of_nat 2)) with 2. field.
Qed.

Lemma half_even_pred (n : nat) :
  n mod 2 = 0%nat → n ≠ 0%nat →
  inject_Z (Z.of_nat n) / 2 - 1 == inject_Z (Z.of_nat (n / 2 - 1)).
Proof.
  intros He Hn. rewrite (half_even n He).
  assert (Hk : (1 <= n / 2)%nat).
  { pose proof (Nat.div_mod_eq n 2). lia. }
  rewrite Nat2Z.inj_sub by exact Hk.
  unfold Z.sub. rewrite inject_Z_plus, inject_Z_opp. reflexivity.
Qed.

Lemma quarter_index (n : nat) :
  Z.to_nat (Qfloor (inject_Z (Z.of_nat n) * 0.25)) = (n / 4)%nat.
Proof.
  pose proof (floor_quarter n) as H. unfold floor in H.
  apply (f_equal Qfloor) in H. rewrite !Qfloor_Z in H. rewrite H. apply Nat2Z.id.
Qed.

Lemma three_quarters_index (n : nat) :
  Z.to_nat (Qfloor (inject_Z (Z.of_nat n) * 0.75)) = (3 * n / 4)%nat.
Proof.
  pose proof (floor_three_quarters n) as H. unfold floor in H.
  apply (f_equal Qfloor) in H. rewrite !Qfloor_Z in H. rewrite H. apply Nat2Z.id.
Qed.

Section Facts.
Variable sqrt : Q → Q.


End Facts.
End SummaryProps.

(** ** CSV export *)

Module CsvProps.
Import Js Csv CsvSpec.

Lemma prefix_single (c c' : ascii) (rest : string) :
  String.prefix (str c) (String c' rest) = bool_decide (c = c').
Proof.
  unfold str. cbn. destruct (ascii_dec c c') as [E|E].
  - rewrite bool_decide_eq_true_2 by exact E. by destruct rest.
  - by rewrite bool_decide_eq_false_2.
Qed.

Lemma includes_single (c : ascii) (s : string) :
  includes (str c) s = true ↔ occurs c s.
Proof.
  unfold occurs. induction s as [|c' rest IH].
  - cbn. split; [discriminate | intros []].
  - cbn [includes String.list_ascii_of_string In]. rewrite prefix_single.
    destruct (bool_decide (c = c')) eqn:E.
    + apply bool_decide_eq_true in E. split; [auto | done].
    + apply bool_decide_eq_false in E. rewrite IH.
      split; [auto | intros [H|H]; [congruence | done]].
Qed.

Lemma double_quotes_chars (s : string) :
  String.list_ascii_of_string (double_quotes s)
  = flat_map (λ c, if decide (c = dquote) then [dquote; dquote] else [c])
      (String.list_ascii_of_string s).
Proof.
  induction s as [|c rest IH]; [done|].
  cbn [double_quotes String.list_ascii_of_string flat_map].
  destruct (decide (c = dquote)); cbn; by rewrite IH.
Qed.

Lemma double_quotes_empty (s : string) : double_quotes s = "" → s = "".
Proof. destruct s as [|c rest]; [done|]. cbn. by destruct (decide _). Qed.

Lemma halve_quotes_cons (c1 c2 : ascii) (rest : string) :
  halve_quotes (String c1 (String c2 rest))
  = if decide (c1 = dquote ∧ c2 = dquote) then String dquote (halve_quotes rest)
    else String c1 (halve_quotes (String c2 rest)).
Proof. reflexivity. Qed.

Lemma halve_double (s : string) : halve_quotes (double_quotes s) = s.
Proof.
  induction s as [|c rest IH]; [done|].
  cbn [double_quotes]. destruct (decide (c = dquote)) as [->|Hc].
  - rewrite halve_quotes_cons, decide_True by done. by rewrite IH.
  - destruct (double_quotes rest) as [|c2 r] eqn:E.
    + apply double_quotes_empty in E. by subst.
    + rewrite halve_quotes_cons, decide_False by (intros [? _]; done).
      by rewrite IH.
Qed.

Lemma snoc_nonempty (s : string) (c : ascii) : s +:+ str c ≠ "".
Proof. by destruct s. Qed.

Lemma last_char_cons (c : ascii) (s : string) :
  s ≠ "" → last_char (String c s) = last_char s.
Proof. by destruct s. Qed.

Lemma drop_last_cons (c : ascii) (s : string) :
  s ≠ "" → drop_last (String c s) = String c (drop_last s).
Proof. by destruct s. Qed.

Lemma last_char_snoc (s : string) (c : ascii) : last_char (s +:+ str c) = Some c.
Proof.
  induction s as [|c' rest IH]; [done|].
  change (String c' rest +:+ str c) with (String c' (rest +:+ str c)).
  rewrite last_char_cons by apply snoc_nonempty. exact IH.
Qed.

Lemma drop_last_snoc (s : string) (c : ascii) : drop_last (s +:+ str c) = s.
Proof.
  induction s as [|c' rest IH]; [done|].
  change (String c' rest +:+ str c) with (String c' (rest +:+ str c)).
  rewrite drop_last_cons by apply snoc_nonempty. by rewrite IH.
Qed.

Lemma unescape_quoted (s : string) :
  unescape_field (str dquote +:+ double_quotes s +:+ str dquote) = s.
Proof.
  unfold unescape_field. change (str dquote +:+ ?x) with (String dquote x).
  assert (Hq : is_quoted (String dquote (double_quotes s +:+ str dquote)) = true).
  { cbn [is_quoted]. destruct (double_quotes s +:+ str dquote) eqn:E.
    - destruct (double_quotes s); discriminate.
    - rewrite <- E, last_char_snoc. by rewrite !bool_decide_eq_true_2. }
  rewrite Hq, drop_last_snoc. apply halve_double.
Qed.

Lemma unescape_plain (s : string) : ¬ occurs dquote s → unescape_field s = s.
Proof.
  intros Hs. unfold unescape_field.
  destruct s as [|c rest]; [done|].
  assert (Hc : c ≠ dquote).
  { intros ->. apply Hs. unfold occurs. cbn. auto. }
  cbn [is_quoted]. destruct rest; [done|].
  by rewrite (bool_decide_eq_false_2 _ Hc).
Qed.

Section Facts.
Variable num_to_string : Q → string.

Local Abbreviation ToString := (ToString num_to_string).
Local Abbreviation csv_cell := (csv_cell num_to_string).
Local Abbreviation convertToCSV := (convertToCSV num_to_string).

Lemma needs_quoting_true (s : string) :
  needs_quoting s = true
  ↔ occurs ","%char s ∨ occurs dquote s ∨ occurs newline s.
Proof.
  unfold needs_quoting. rewrite !orb_true_iff.
  change "," with (str ","%char). rewrite !includes_single. tauto.
Qed.


End Facts.
End CsvProps.

(** ** The chart-builder grouping *)

Module ChartProps.
Import Js ChartBuilder SummarySpec ChartSpec.
Local Open Scope Q_scope.

(** *** Dictionaries *)

Section Objects.
Context {V : Type}.
Implicit Types (o : obj V) (k : string) (v : V).

Lemma obj_get_set o k v k' :
  obj_get (obj_set o k v) k' = if decide (k = k') then Some v else obj_get o k'.
Proof.
  induction o as [|[k0 v0] o IH]; cbn.
  - destruct (decide (k = k')); done.
  - destruct (decide (k0 = k)) as [->|Hk]; cbn.
    + destruct (decide (k = k')); done.
    + destruct (decide (k0 = k')) as [->|Hk'].
      * by rewrite decide_False by done.
      * exact IH.
Qed.

Lemma obj_get_set_eq o k v : obj_get (obj_set o k v) k = Some v.
Proof. rewrite obj_get_set. by rewrite decide_True. Qed.

Lemma obj_get_set_ne o k v k' : k ≠ k' → obj_get (obj_set o k v) k' = obj_get o k'.
Proof. intros. rewrite obj_get_set. by rewrite decide_False. Qed.

Lemma obj_set_set o k v v' : obj_set (obj_set o k v) k v' = obj_set o k v'.
Proof.
  induction o as [|[k0 v0] o IH]; cbn.
  - by rewrite decide_True.
  - destruct (decide (k0 = k)) as [->|Hk]; cbn.
    + by rewrite decide_True.
    + rewrite decide_False by done. by rewrite IH.
Qed.

Lemma obj_set_same o k v : obj_get o k = Some v → obj_set o k v = o.
Proof.
  induction o as [|[k0 v0] o IH]; cbn; [done|].
  destruct (decide (k0 = k)) as [->|Hk].
  - by intros [= ->].
  - intros H. by rewrite IH.
Qed.

Lemma obj_get_keys o k : is_Some (obj_get o k) ↔ k ∈ o.*1.
Proof.
  induction o as [|[k0 v0] o IH]; cbn.
  - split; [intros [? ?]; done | intros H; inversion H].
  - rewrite elem_of_cons. destruct (decide (k0 = k)) as [->|Hk].
    + split; [auto | eauto].
    + rewrite IH. split; [auto | intros [?|?]; [congruence | done]].
Qed.

Lemma obj_get_elem o k v : obj_get o k = Some v → (k, v) ∈ o.
Proof.
  induction o as [|[k0 v0] o IH]; cbn; [done|].
  destruct (decide (k0 = k)) as [->|Hk].
  - intros [= ->]. apply list_elem_of_here.
  - intros H. apply list_elem_of_further. auto.
Qed.

Lemma obj_elem_get o k v : NoDup o.*1 → (k, v) ∈ o → obj_get o k = Some v.
Proof.
  induction o as [|[k0 v0] o IH]; cbn; [intros _ H; inversion H|].
  intros Hnd Hin. apply NoDup_cons in Hnd as [Hk0 Hnd].
  apply elem_of_cons in Hin as [[= -> ->]|Hin].
  - by rewrite decide_True.
  - destruct (decide (k0 = k)) as [->|Hk]; [|auto].
    exfalso. apply Hk0. apply list_elem_of_fmap. by exists (k, v).
Qed.

Lemma obj_set_keys o k v :
  (obj_set o k v).*1 = if decide (k ∈ o.*1) then o.*1 else o.*1 ++ [k].
Proof.
  induction o as [|[k0 v0] o IH]; cbn.
  - rewrite decide_False; [done | intros H; inversion H].
  - destruct (decide (k0 = k)) as [->|Hk]; cbn.
    + rewrite decide_True; [done | apply list_elem_of_here].
    + rewrite IH. destruct (decide (k ∈ o.*1)) as [Hin|Hin].
      * rewrite decide_True; [done | by apply list_elem_of_further].
      * rewrite decide_False; [done|]. rewrite elem_of_cons. intros [?|?]; congruence.
Qed.

Lemma obj_set_NoDup o k v : NoDup o.*1 → NoDup (obj_set o k v).*1.
Proof.
  intros Hnd. rewrite obj_set_keys. destruct (decide (k ∈ o.*1)); [done|].
  apply NoDup_app. split; [done|]. split; [|apply NoDup_singleton].
  intros x Hx Hx'. apply list_elem_of_singleton in Hx'. by subst.
Qed.

Lemma insert_by_index_perm (e : N * V) (l : list (N * V)) :
  insert_by_index e l ≡ₚ e :: l.
Proof.
  induction l as [|e' l IH]; cbn; [done|].
  destruct (e.1 <=? e'.1)%N; [done|]. rewrite IH. apply Permutation_swap.
Qed.

(** [Object.values] only rearranges the values. *)
Lemma Object_values_perm o : Object_values o ≡ₚ o.*2.
Proof.
  unfold Object_values.
  assert (Hs : ∀ l : list (N * V), foldr insert_by_index [] l ≡ₚ l).
  { induction l as [|e l IH]; cbn; [done|]. by rewrite insert_by_index_perm, IH. }
  rewrite Hs. clear Hs.
  induction o as [|[k v] o IH]; [done|].
  unfold indexed_entries, named_entries in *. cbn.
  destruct (array_index k) as [n|] eqn:E; cbn.
  - by rewrite IH.
  - rewrite <- IH. by rewrite Permutation_middle.
Qed.

End Objects.

Lemma foldM_snoc {A S} (f : S → A → option S) (l : list A) (a : A) (s : S) :
  foldM f (l ++ [a]) s = foldM f l s ≫= λ s', f s' a.
Proof.
  revert s. induction l as [|b l IH]; intros s; cbn.
  - by destruct (f s a).
  - destruct (f s b); cbn; [apply IH | done].
Qed.

Lemma foldM_ext {A S} (f g : S → A → option S) (l : list A) (s : S) :
  (∀ s a, f s a = g s a) → foldM f l s = foldM g l s.
Proof.
  intros Hfg. revert s. induction l as [|a l IH]; intros s; cbn; [done|].
  rewrite Hfg. destruct (g s a); cbn; [apply IH | done].
Qed.

(** *** Sums of contributions *)

Lemma total_app (l1 l2 : list Q) :
  total (l1 ++ l2) == total l1 + total l2.
Proof.
  unfold total. induction l1 as [|x l1 IH]; cbn.
  - ring.
  - rewrite IH. ring.
Qed.

Lemma key_sum_app (C1 C2 : list (string * Q)) (k : string) :
  key_sum (C1 ++ C2) k == key_sum C1 k + key_sum C2 k.
Proof. unfold key_sum. rewrite filter_app, fmap_app. apply total_app. Qed.

Lemma key_sum_nil (k : string) : key_sum [] k == 0.
Proof. reflexivity. Qed.

Lemma key_sum_cons (k' : string) (v : Q) (C : list (string * Q)) (k : string) :
  key_sum ((k', v) :: C) k == (if decide (k' = k) then v else 0) + key_sum C k.
Proof.
  unfold key_sum. destruct (decide (k' = k)) as [E|E].
  - rewrite filter_cons_True by exact E. reflexivity.
  - rewrite filter_cons_False by exact E. ring.
Qed.

Lemma key_sum_absent (C : list (string * Q)) (k : string) :
  k ∉ C.*1 → key_sum C k == 0.
Proof.
  induction C as [|[k' v] C IH]; intros Hk; [reflexivity|].
  cbn in Hk. apply not_elem_of_cons in Hk as [Hne Hk].
  rewrite key_sum_cons, decide_False by done. rewrite IH by done. ring.
Qed.

Lemma key_sum_unique (f : string → string) (v : string → Q) (ys : list string)
    (y k : string) :
  NoDup ys → (∀ y', y' ∈ ys → f y' = k → y' = y) →
  key_sum (map (λ y', (f y', v y')) ys) k
  == if decide (y ∈ ys ∧ f y = k) then v y else 0.
Proof.
  induction ys as [|y0 ys IH]; intros Hnd Huniq.
  - rewrite decide_False; [reflexivity|]. intros [H _]. inversion H.
  - apply NoDup_cons in Hnd as [Hy0 Hnd]. cbn [map]. rewrite key_sum_cons.
    rewrite IH; [|done|intros y' Hy'; apply Huniq; by apply list_elem_of_further].
    destruct (decide (f y0 = k)) as [E|E].
    + assert (y0 = y) as -> by (apply Huniq; [apply list_elem_of_here | done]).
      rewrite decide_False by (intros [? _]; contradiction).
      rewrite decide_True by (split; [apply list_elem_of_here | done]). ring.
    + destruct (decide (y ∈ ys ∧ f y = k)) as [[Hin Hk]|Hno].
      * rewrite decide_True by (split; [by apply list_elem_of_further | done]). ring.
      * rewrite decide_False; [ring|]. intros [Hin Hk]. apply Hno. split; [|done].
        apply elem_of_cons in Hin as [->|Hin]; [contradiction | done].
Qed.

(** *** The shape shared by the two loops *)

Section Grouping.
Variable x_of : gmap string jsval → string.
Variable init : string → obj cellval.
Variable upd : gmap string jsval → obj cellval → option (obj cellval).
Variable contrib : gmap string jsval → list (string * Q).
Variable R : string → list (string * Q) → obj cellval → Prop.
Variable ok : gmap string jsval → Prop.

Hypothesis R_init : ∀ x, R x [] (init x).
Hypothesis R_upd : ∀ row C rec,
  ok row → R (x_of row) C rec →
  ∃ rec', upd row rec = Some rec' ∧ R (x_of row) (C ++ contrib row) rec'.

Local Abbreviation step := (ChartSpec.step x_of init upd).
Local Abbreviation contributions := (ChartSpec.contributions x_of contrib).
Local Abbreviation Inv := (ChartSpec.Inv x_of contrib R).

Lemma contributions_snoc (l : list (gmap string jsval)) (row : gmap string jsval)
    (x : string) :
  contributions (l ++ [row]) x
  = contributions l x ++ (if decide (x_of row = x) then contrib row else []).
Proof. unfold ChartSpec.contributions. rewrite flat_map_app. cbn. by rewrite app_nil_r. Qed.

Lemma contributions_absent (l : list (gmap string jsval)) (x : string) :
  x ∉ map x_of l → contributions l x = [].
Proof.
  induction l as [|row l IH]; cbn; [done|].
  intros Hx. apply not_elem_of_cons in Hx as [Hne Hx].
  rewrite decide_False by done. by apply IH.
Qed.

Lemma step_inv (l : list (gmap string jsval)) (g : obj (obj cellval))
    (row : gmap string jsval) :
  Inv l g → inherited (x_of row) = false → ok row →
  ∃ g', step g row = Some g' ∧ Inv (l ++ [row]) g'.
Proof.
  intros [Hnd Hkeys Hrec] Hinh Hok. unfold ChartSpec.step. rewrite Hinh.
  set (x := x_of row).
  assert (Hg : ∃ rec g1,
             match obj_get g x with
             | Some _ => g
             | None => obj_set g x (init x)
             end = g1
             ∧ obj_get g1 x = Some rec ∧ R x (contributions l x) rec
             ∧ ∀ rec', obj_set g1 x rec' = obj_set g x rec').
  { destruct (obj_get g x) as [rec|] eqn:E.
    - exists rec, g. eauto.
    - exists (init x), (obj_set g x (init x)).
      split; [done|]. split; [apply obj_get_set_eq|]. split.
      + rewrite contributions_absent; [apply R_init|].
        rewrite <- Hkeys, <- obj_get_keys, E. by intros [? ?].
      + intros rec'. apply obj_set_set. }
  destruct Hg as (rec & g1 & -> & Hget & HR & Hset).
  rewrite Hget. cbn.
  destruct (R_upd row _ rec Hok HR) as (rec' & Hupd & HR').
  rewrite Hupd. cbn. rewrite Hset.
  eexists. split; [reflexivity|]. split.
  - by apply obj_set_NoDup.
  - intros x'. rewrite obj_set_keys, map_app, elem_of_app. cbn.
    rewrite list_elem_of_singleton. fold x.
    destruct (decide (x ∈ g.*1)) as [Hin|Hin].
    + rewrite Hkeys. split; [auto|]. intros [?| ->]; [done | by apply Hkeys].
    + rewrite elem_of_app, list_elem_of_singleton, Hkeys. done.
  - intros x' r. rewrite obj_get_set, contributions_snoc. fold x.
    destruct (decide (x = x')) as [<-|Hne].
    + by intros [= <-].
    + rewrite app_nil_r. apply Hrec.
Qed.

Lemma loop_inv (data : list (gmap string jsval)) :
  (∀ row, row ∈ data → inherited (x_of row) = false ∧ ok row) →
  ∃ g, foldM step data [] = Some g ∧ Inv data g.
Proof.
  induction data as [|row data IH] using rev_ind; intros Hrows.
  - exists []. split; [done|]. split.
    + constructor.
    + done.
    + intros x rec H. discriminate.
  - destruct IH as (g & Hg & Hinv).
    { intros r Hr. apply Hrows. apply elem_of_app. by left. }
    destruct (Hrows row) as [Hinh Hok].
    { apply elem_of_app. right. apply list_elem_of_here. }
    destruct (step_inv data g row Hinv Hinh Hok) as (g' & Hstep & Hinv').
    exists g'. split; [|done]. rewrite foldM_snoc, Hg. exact Hstep.
Qed.

End Grouping.

(** A loop over the metrics that updates the record of one x-value is an
    update of that record. *)
Lemma foldM_lift (b : obj cellval → string → option (obj cellval)) (x : string)
    (ys : list string) (g : obj (obj cellval)) (rec : obj cellval) :
  obj_get g x = Some rec →
  foldM (λ g y, rec ← obj_get g x; rec' ← b rec y; Some (obj_set g x rec')) ys g
  = rec' ← foldM b ys rec; Some (obj_set g x rec').
Proof.
  revert g rec. induction ys as [|y ys IH]; intros g rec Hget; cbn.
  - by rewrite obj_set_same.
  - rewrite Hget. cbn. destruct (b rec y) as [r1|]; cbn; [|done].
    rewrite (IH _ r1) by apply obj_get_set_eq.
    destruct (foldM b ys r1); cbn; [|done]. by rewrite obj_set_set.
Qed.

(** *** No series column *)

Section Plain.
Variable num_to_string : Q → string.
Variable str_to_number : string → option Q.
Variable xAxis : string.
Variable yAxes : list string.

Local Abbreviation x_of := (ChartBuilder.x_of num_to_string xAxis).
Local Abbreviation y_of := (ChartBuilder.y_of str_to_number).
Local Abbreviation init_record := (ChartBuilder.init_record xAxis yAxes).
Local Abbreviation add_assign := (ChartBuilder.add_assign num_to_string).
Local Abbreviation plain_upd := (ChartSpec.plain_upd num_to_string str_to_number yAxes).
Local Abbreviation plain_contrib := (ChartSpec.plain_contrib str_to_number yAxes).
Local Abbreviation plain_record := (ChartSpec.plain_record xAxis yAxes).
Local Abbreviation group_total :=
  (ChartSpec.group_total num_to_string str_to_number xAxis).

Hypothesis no_proto_metric : "__proto__" ∉ yAxes.

Lemma plain_step_eq (g : obj (obj cellval)) (row : gmap string jsval) :
  plain_step num_to_string str_to_number xAxis yAxes g row
  = step x_of init_record plain_upd g row.
Proof.
  unfold plain_step, ChartSpec.step. destruct (inherited (x_of row)); [done|].
  set (g1 := match obj_get g (x_of row) with
             | Some _ => g
             | None => obj_set g (x_of row) (init_record (x_of row))
             end).
  assert (Hget : ∃ rec, obj_get g1 (x_of row) = Some rec).
  { subst g1. destruct (obj_get g (x_of row)) eqn:E; [eauto|].
    eexists. apply obj_get_set_eq. }
  destruct Hget as [rec Hget]. rewrite Hget. cbn.
  apply (foldM_lift (λ r y, add_assign r y (y_of y row)) _ _ _ _ Hget).
Qed.

Lemma init_record_get (ys : list string) (rec0 : obj cellval) (k : string) :
  obj_get (foldl (λ rec yAxis, obj_set rec yAxis (VNum 0)) rec0 ys) k
  = if decide (k ∈ ys) then Some (VNum 0) else obj_get rec0 k.
Proof.
  revert rec0. induction ys as [|y ys IH]; intros rec0; cbn.
  - rewrite decide_False; [done | intros H; inversion H].
  - rewrite IH. destruct (decide (k ∈ ys)) as [Hin|Hin].
    + rewrite decide_True; [done | by apply list_elem_of_further].
    + rewrite obj_get_set. destruct (decide (y = k)) as [->|Hne].
      * rewrite decide_True; [done | apply list_elem_of_here].
      * rewrite decide_False; [done|]. rewrite elem_of_cons. intros [?|?]; congruence.
Qed.

Lemma plain_record_init (x : string) : plain_record x [] (init_record x).
Proof.
  unfold ChartSpec.plain_record, ChartBuilder.init_record. split; [|split].
  - intros y Hy. exists 0. rewrite init_record_get, decide_True by done.
    split; [done | reflexivity].
  - intros k. rewrite init_record_get.
    destruct (decide (k ∈ yAxes)); [intros _; by right|].
    cbn. destruct (decide (xAxis = k)); [intros _; by left | intros [? ?]; done].
  - intros Hx. rewrite init_record_get, decide_False by done. cbn.
    by rewrite decide_True.
Qed.

Lemma plain_record_add (x : string) (C : list (string * Q)) (rec : obj cellval)
    (y : string) (v : Q) :
  y ∈ yAxes → plain_record x C rec →
  ∃ rec', add_assign rec y v = Some rec' ∧ plain_record x (C ++ [(y, v)]) rec'.
Proof.
  intros Hy (Hsum & Hkeys & Hx). unfold ChartBuilder.add_assign.
  rewrite bool_decide_eq_false_2 by (intros ->; contradiction).
  destruct (Hsum y Hy) as (q & Hq & Eq). rewrite Hq.
  eexists. split; [reflexivity|]. split; [|split].
  - intros y' Hy'. rewrite obj_get_set. destruct (decide (y = y')) as [<-|Hne].
    + eexists. split; [reflexivity|].
      rewrite key_sum_app, Eq, key_sum_cons, decide_True by done.
      rewrite key_sum_nil. ring.
    + destruct (Hsum y' Hy') as (q' & Hq' & Eq'). exists q'. split; [done|].
      rewrite key_sum_app, Eq', key_sum_cons, decide_False by done.
      rewrite key_sum_nil. ring.
  - intros k. rewrite obj_get_set.
    destruct (decide (y = k)) as [<-|Hne]; [intros _; by right|]. apply Hkeys.
  - intros Hx'. rewrite obj_get_set_ne; [auto|]. intros ->. contradiction.
Qed.

Lemma plain_record_adds (row : gmap string jsval) (ys : list string)
    (C : list (string * Q)) (rec : obj cellval) :
  (∀ y, y ∈ ys → y ∈ yAxes) → plain_record (x_of row) C rec →
  ∃ rec', foldM (λ r y, add_assign r y (y_of y row)) ys rec = Some rec'
          ∧ plain_record (x_of row) (C ++ map (λ y, (y, y_of y row)) ys) rec'.
Proof.
  revert C rec. induction ys as [|y ys IH]; intros C rec Hsub HP; cbn.
  - exists rec. split; [done|]. by rewrite app_nil_r.
  - destruct (plain_record_add (x_of row) C rec y (y_of y row)) as (r1 & Hr1 & HP1).
    { apply Hsub, list_elem_of_here. }
    { exact HP. }
    rewrite Hr1. cbn.
    destruct (IH (C ++ [(y, y_of y row)]) r1) as (rec' & Hrec' & HP').
    { intros y' Hy'. by apply Hsub, list_elem_of_further. }
    { exact HP1. }
    exists rec'. split; [done|]. by rewrite <- app_assoc in HP'.
Qed.

Lemma plain_record_upd (row : gmap string jsval) (C : list (string * Q))
    (rec : obj cellval) :
  True → plain_record (x_of row) C rec →
  ∃ rec', plain_upd row rec = Some rec'
          ∧ plain_record (x_of row) (C ++ plain_contrib row) rec'.
Proof. intros _. by apply plain_record_adds. Qed.

Lemma plain_contrib_sum (row : gmap string jsval) (y : string) :
  NoDup yAxes → y ∈ yAxes → key_sum (plain_contrib row) y == y_of y row.
Proof.
  clear no_proto_metric.
  unfold ChartSpec.plain_contrib. induction yAxes as [|y' ys IH]; intros Hnd Hy.
  - inversion Hy.
  - apply NoDup_cons in Hnd as [Hy' Hnd]. cbn [map]. rewrite key_sum_cons.
    apply elem_of_cons in Hy as [->|Hy].
    + rewrite decide_True by done. rewrite key_sum_absent; [ring|].
      rewrite <- list_fmap_compose. cbn. by rewrite list_fmap_id.
    + rewrite decide_False by (intros ->; contradiction).
      rewrite IH by done. ring.
Qed.

Lemma contributions_total (data : list (gmap string jsval)) (x y : string) :
  NoDup yAxes → y ∈ yAxes →
  key_sum (contributions x_of plain_contrib data x) y == group_total data x y.
Proof.
  intros Hnd Hy. unfold ChartSpec.group_total, ChartSpec.contributions.
  induction data as [|row data IH]; [reflexivity|].
  cbn [flat_map]. rewrite key_sum_app, IH.
  destruct (decide (x_of row = x)) as [E|E].
  - rewrite filter_cons_True by exact E. cbn. by rewrite plain_contrib_sum.
  - rewrite filter_cons_False by exact E. rewrite key_sum_nil. ring.
Qed.

End Plain.

(** *** A series column *)

Section Series.
Variable num_to_string : Q → string.
Variable str_to_number : string → option Q.
Variable xAxis : string.
Variable yAxes : list string.
Variable series : string.

Local Abbreviation x_of := (ChartBuilder.x_of num_to_string xAxis).
Local Abbreviation y_of := (ChartBuilder.y_of str_to_number).
Local Abbreviation series_of := (ChartBuilder.series_of num_to_string series).
Local Abbreviation or_zero_plus := (ChartBuilder.or_zero_plus num_to_string).
Local Abbreviation series_body :=
  (ChartSpec.series_body num_to_string str_to_number series).
Local Abbreviation series_upd :=
  (ChartSpec.series_upd num_to_string str_to_number yAxes series).
Local Abbreviation series_contrib :=
  (ChartSpec.series_contrib num_to_string str_to_number yAxes series).
Local Abbreviation series_ok := (ChartSpec.series_ok num_to_string xAxis yAxes series).
Local Abbreviation series_record := (ChartSpec.series_record xAxis).
Local Abbreviation series_total :=
  (ChartSpec.series_total num_to_string str_to_number xAxis series).
Local Abbreviation unique_key := (ChartSpec.unique_key num_to_string yAxes series).

Lemma series_step_eq (g : obj (obj cellval)) (row : gmap string jsval) :
  series_step num_to_string str_to_number xAxis yAxes series g row
  = step x_of (λ x, [(xAxis, VStr x)]) series_upd g row.
Proof.
  unfold series_step, ChartSpec.step. destruct (inherited (x_of row)); [done|].
  set (g1 := match obj_get g (x_of row) with
             | Some _ => g
             | None => obj_set g (x_of row) [(xAxis, VStr (x_of row))]
             end).
  assert (Hget : ∃ rec, obj_get g1 (x_of row) = Some rec).
  { subst g1. destruct (obj_get g (x_of row)) eqn:E; [eauto|].
    eexists. apply obj_get_set_eq. }
  destruct Hget as [rec Hget]. rewrite Hget. cbn.
  unfold ChartSpec.series_upd. rewrite <- (foldM_lift (series_body row) _ _ _ _ Hget).
  apply foldM_ext. intros g' y. unfold ChartSpec.series_body.
  destruct (inherited (series_key y (series_of row))).
  - by destruct (obj_get g' (x_of row)).
  - by destruct (obj_get g' (x_of row)).
Qed.

Lemma series_record_init (x : string) : series_record x [] [(xAxis, VStr x)].
Proof.
  split; cbn.
  - by rewrite decide_True.
  - intros k Hk. rewrite decide_False by done. intros H; inversion H.
Qed.

Lemma series_record_add (x : string) (C : list (string * Q)) (rec : obj cellval)
    (k : string) (v : Q) :
  k ≠ xAxis → series_record x C rec →
  series_record x (C ++ [(k, v)]) (obj_set rec k (or_zero_plus (obj_get rec k) v)).
Proof.
  intros Hk [Hx Hrec]. split.
  - by rewrite obj_get_set_ne.
  - intros k' Hk'. rewrite obj_get_set, fmap_app. cbn.
    specialize (Hrec k' Hk').
    assert (Hsum : key_sum (C ++ [(k, v)]) k'
                   == key_sum C k' + (if decide (k = k') then v else 0)).
    { rewrite key_sum_app, key_sum_cons, key_sum_nil. ring. }
    destruct (decide (k = k')) as [<-|Hne].
    + assert (Hin : k ∈ C.*1 ++ [k]).
      { apply elem_of_app. right. apply list_elem_of_here. }
      destruct (obj_get rec k) as [[s|q]|]; cbn; [done| |].
      * destruct Hrec as [Eq _]. destruct (truthy_num q) eqn:T; (split; [|done]).
        -- rewrite Hsum, Eq. reflexivity.
        -- unfold truthy_num in T. apply negb_false_iff, Qeq_bool_iff in T.
           rewrite Hsum, <- Eq, T. reflexivity.
      * split; [|done]. rewrite Hsum, (key_sum_absent C k Hrec). reflexivity.
    + assert (Hmem : k' ∈ C.*1 ++ [k] ↔ k' ∈ C.*1).
      { rewrite elem_of_app, list_elem_of_singleton. split; [|auto].
        intros [?|?]; [done | congruence]. }
      destruct (obj_get rec k') as [[s|q]|]; [done| |].
      * destruct Hrec as [Eq Hin]. split; [|by apply Hmem].
        rewrite Hsum, Eq. ring.
      * by rewrite Hmem.
Qed.

Lemma series_record_adds (row : gmap string jsval) (ys : list string)
    (C : list (string * Q)) (rec : obj cellval) :
  Forall (λ y, inherited (series_key y (series_of row)) = false
               ∧ series_key y (series_of row) ≠ xAxis) ys →
  series_record (x_of row) C rec →
  ∃ rec', foldM (series_body row) ys rec = Some rec'
          ∧ series_record (x_of row)
              (C ++ map (λ y, (series_key y (series_of row), y_of y row)) ys) rec'.
Proof.
  revert C rec. induction ys as [|y ys IH]; intros C rec Hok HS; cbn [foldM map].
  - exists rec. split; [done|]. by rewrite app_nil_r.
  - apply Forall_cons in Hok as [[Hinh Hne] Hok].
    unfold ChartSpec.series_body. cbv zeta. rewrite Hinh. cbn [mbind option_bind].
    destruct (IH _ _ Hok (series_record_add _ _ _ _ (y_of y row) Hne HS))
      as (rec' & Hrec' & HS').
    exists rec'. split; [done|]. by rewrite <- app_assoc in HS'.
Qed.

Lemma series_record_upd (row : gmap string jsval) (C : list (string * Q))
    (rec : obj cellval) :
  series_ok row → series_record (x_of row) C rec →
  ∃ rec', series_upd row rec = Some rec'
          ∧ series_record (x_of row) (C ++ series_contrib row) rec'.
Proof. apply series_record_adds. Qed.

(** The keys that received a contribution. *)
Lemma contributions_keys (data : list (gmap string jsval)) (x k : string) :
  k ∈ (contributions x_of series_contrib data x).*1
  ↔ ∃ row y, row ∈ data ∧ x_of row = x ∧ y ∈ yAxes
             ∧ series_key y (series_of row) = k.
Proof.
  unfold ChartSpec.contributions. induction data as [|row data IH]; cbn [flat_map].
  - split; [intros H; inversion H | intros (? & ? & H & _); inversion H].
  - rewrite fmap_app, elem_of_app, IH. split.
    + intros [H|(r & y & Hr & ?)].
      * destruct (decide (x_of row = x)) as [E|E]; [|inversion H].
        unfold ChartSpec.series_contrib in H. rewrite <- list_fmap_compose in H.
        apply list_elem_of_fmap in H as (y & -> & Hy).
        exists row, y. split; [apply list_elem_of_here | done].
      * exists r, y. split; [by apply list_elem_of_further | done].
    + intros (r & y & Hr & Hx & Hy & Hk).
      apply elem_of_cons in Hr as [->|Hr].
      * left. rewrite decide_True by done. unfold ChartSpec.series_contrib.
        rewrite <- list_fmap_compose. apply list_elem_of_fmap. by exists y.
      * right. by exists r, y.
Qed.

(** When a key is formed by one metric and one series value only, what it
    receives is the sum of that metric over the rows with that x-value and
    that series value. *)
Lemma series_contributions_total (data : list (gmap string jsval)) (x y s : string) :
  NoDup yAxes → y ∈ yAxes → unique_key data y s →
  key_sum (contributions x_of series_contrib data x) (series_key y s)
  == series_total data x s y.
Proof.
  intros Hnd Hy. unfold ChartSpec.series_total, ChartSpec.contributions.
  induction data as [|row data IH]; intros Huniq; [reflexivity|].
  assert (Hrest : unique_key data y s).
  { intros r y' Hr. apply Huniq. by apply list_elem_of_further. }
  assert (Hrow : key_sum (series_contrib row) (series_key y s)
                 == if decide (series_of row = s) then y_of y row else 0).
  { unfold ChartSpec.series_contrib.
    rewrite (key_sum_unique (λ y', series_key y' (series_of row))
               (λ y', y_of y' row) yAxes y).
    - destruct (decide (series_of row = s)) as [->|Hs].
      + by rewrite decide_True.
      + rewrite decide_False; [reflexivity|]. intros [_ Hk]. apply Hs.
        by apply (Huniq row y (list_elem_of_here _ _) Hy).
    - exact Hnd.
    - intros y' Hy' Hk. by apply (Huniq row y' (list_elem_of_here _ _) Hy'). }
  cbn [flat_map]. rewrite key_sum_app, (IH Hrest).
  destruct (decide (x_of row = x)) as [Ex|Ex].
  - rewrite Hrow. destruct (decide (series_of row = s)) as [Es|Es].
    + rewrite filter_cons_True by done. cbn. reflexivity.
    + rewrite filter_cons_False by (intros [_ ?]; contradiction). ring.
  - rewrite filter_cons_False by (intros [? _]; contradiction).
    rewrite key_sum_nil. ring.
Qed.

End Series.

(** *** The grouping as a whole *)

Section Claim.
Variable num_to_string : Q → string.
Variable str_to_number : string → option Q.
Variable xAxis : string.
Variable yAxes : list string.
Variable series : string.

Local Abbreviation x_of := (ChartBuilder.x_of num_to_string xAxis).
Local Abbreviation series_of := (ChartBuilder.series_of num_to_string series).
Local Abbreviation chartGroups :=
  (ChartBuilder.chartGroups num_to_string str_to_number xAxis yAxes series).
Local Abbreviation chartData :=
  (ChartBuilder.chartData num_to_string str_to_number xAxis yAxes series).
Local Abbreviation group_total :=
  (ChartSpec.group_total num_to_string str_to_number xAxis).
Local Abbreviation series_ok := (ChartSpec.series_ok num_to_string xAxis yAxes series).
Local Abbreviation series_contrib :=
  (ChartSpec.series_contrib num_to_string str_to_number yAxes series).
Local Abbreviation series_total :=
  (ChartSpec.series_total num_to_string str_to_number xAxis series).
Local Abbreviation unique_key := (ChartSpec.unique_key num_to_string yAxes series).

Lemma x_values (data : list (gmap string jsval)) (x : string) :
  x ∈ map x_of data ↔ ∃ row, row ∈ data ∧ x_of row = x.
Proof.
  rewrite list_elem_of_fmap. split; intros (row & ? & ?); exists row; done.
Qed.


End Claim.

End ChartProps.

Module ChartExamples.
Import Js ChartBuilder ChartSpec Fixtures.
Local Open Scope Q_scope.

(** The Y-axis pills never select a column twice. *)
Lemma toggleYAxis_NoDup (yAxes : list string) (col : string) :
  NoDup yAxes → NoDup (toggleYAxis yAxes col).
Proof.
  intros Hnd. unfold toggleYAxis. case_bool_decide as Hin.
  - by apply NoDup_filter.
  - apply NoDup_app. split; [done|]. split; [|apply NoDup_singleton].
    intros y Hy Hy'. apply list_elem_of_singleton in Hy'. by subst.
Qed.



End ChartExamples.

(** ** The funnel-analysis, dashboard and report calls *)

Module ApiCallsProps.
Import Api ApiCalls ApiCallsSpec.

Section Facts.
Context {File Payload Json : Type}.
Variable JSON_stringify : Payload → string.
Variable session_id : Json → string.
Variable funnel_session_id : Json → string.
Variable username_object : string → Payload.
Variable base : option string.
Variable network : Request File → option (Response Json).

Local Abbreviation fetchCaptainLevelAggregation :=
  (fetchCaptainLevelAggregation File Payload JSON_stringify Json base network).
Local Abbreviation uploadMobileNumbers :=
  (uploadMobileNumbers File Json funnel_session_id base network).
Local Abbreviation getCaptainIds :=
  (getCaptainIds File Payload JSON_stringify Json username_object base network).
Local Abbreviation getAOFunnel :=
  (getAOFunnel File Payload JSON_stringify Json base network).
Local Abbreviation clearFunnelSession := (clearFunnelSession File Json base network).
Local Abbreviation useFunnelForAnalysis :=
  (useFunnelForAnalysis File Json session_id base network).
Local Abbreviation getDaprBucket :=
  (getDaprBucket File Payload JSON_stringify Json base network).
Local Abbreviation getFe2Net := (getFe2Net File Payload JSON_stringify Json base network).
Local Abbreviation getRtuPerformance :=
  (getRtuPerformance File Payload JSON_stringify Json base network).
Local Abbreviation getR2A := (getR2A File Payload JSON_stringify Json base network).
Local Abbreviation getR2APercentage :=
  (getR2APercentage File Payload JSON_stringify Json base network).
Local Abbreviation getA2PhhSummary :=
  (getA2PhhSummary File Payload JSON_stringify Json base network).
Local Abbreviation createReport := (createReport File Json base network).
Local Abbreviation addReportItem :=
  (addReportItem File Payload JSON_stringify Json base network).
Local Abbreviation deleteReportItem := (deleteReportItem File Json base network).
Local Abbreviation listReportItems := (listReportItems File Json base network).
Local Abbreviation exportReport := (exportReport File Json base network).
Local Abbreviation clearReport := (clearReport File Json base network).
Local Abbreviation uploadCsv := (Api.uploadCsv File Json session_id base network).
Local Abbreviation clearSession := (Api.clearSession File Json base network).

(** Running [funnelSessionHeaders] never fails and leaves the world alone. *)
Lemma funnelSessionHeaders_run (w : World File) :
  ∃ h, funnelSessionHeaders File w = (Return h, w)
       ∧ (∀ fid, h !! "x-funnel-session-id" = Some fid
                 ↔ localStorage w !! "funnel_session_id" = Some fid ∧ fid ≠ "")
       ∧ h !! "x-session-id" = None.
Proof.
  unfold funnelSessionHeaders, bind, getFunnelSessionId, ret.
  destruct (localStorage w !! "funnel_session_id") as [s|] eqn:E.
  - destruct (truthy_string s) eqn:T.
    + eexists; split; [reflexivity|]. split; [|done]. intros fid.
      apply ApiProps.truthy_string_true in T.
      rewrite lookup_insert. case_decide; [|done].
      split; [intros [= <-]; done | intros [[= <-] _]; done].
    + eexists; split; [reflexivity|]. split; [|done]. intros fid.
      rewrite lookup_empty. split; [done|].
      intros [[= <-] Hne]. apply ApiProps.truthy_string_true in Hne. congruence.
  - eexists; split; [reflexivity|]. split; [|done]. intros fid.
    rewrite lookup_empty. split; [done | intros [? _]; done].
Qed.

Lemma sessionHeaders_no_funnel (w : World File) :
  ∃ h, sessionHeaders File w = (Return h, w) ∧ h !! "x-funnel-session-id" = None.
Proof.
  unfold sessionHeaders, bind, getSessionId, ret.
  destruct (localStorage w !! "session_id") as [s|]; [destruct (truthy_string s)|];
    eexists; (split; [reflexivity | done]).
Qed.

(** One step of an operation after its request has been built: whatever the
    answer, the request is the only one added. *)
Ltac one_request :=
  unfold fetch, bind;
  match goal with
  | |- context [network ?q] =>
      destruct (network q) as [res|]; cbn [fst snd sent];
      [ destruct (negb (ok res)); unfold res_text, res_json, removeSessionId,
          removeFunnelSessionId, setSessionId, setFunnelSessionId, bind, ret, throw;
        cbn [fst snd sent]; try reflexivity;
        destruct (json res); reflexivity
      | reflexivity ]
  end.




Ltac run_fetch Hnet :=
  unfold fetch, bind; rewrite ?Hnet; cbn [fst snd ok text json sent localStorage].

(** On a response that is not ok, the captain-level, funnel and dashboard
    calls throw an [Error] whose message is the body text, or the fixed
    message of the call when the body is empty: the message is never empty.
    [clearFunnelSession] alone passes the body text on as it is. *)
Theorem failure_messages (r : Response Json) (w : World File) (file : File)
    (username : string) (payload : Payload) :
  (∀ q, network q = Some r) → ok r = false →
  let message fallback := Error (if decide (text r = "") then fallback else text r) in
  (fetchCaptainLevelAggregation payload w).1
    = Throw (message "Captain-level aggregation failed")
  ∧ (uploadMobileNumbers file w).1 = Throw (message "Mobile numbers upload failed")
  ∧ (getCaptainIds username w).1 = Throw (message "Failed to fetch captain IDs")
  ∧ (getAOFunnel payload w).1 = Throw (message "Failed to fetch AO funnel data")
  ∧ (useFunnelForAnalysis w).1
    = Throw (message "Failed to transfer funnel data to analysis session")
  ∧ (getDaprBucket payload w).1 = Throw (message "Failed to fetch DAPR bucket data")
  ∧ (getFe2Net payload w).1 = Throw (message "Failed to fetch FE2Net data")
  ∧ (getRtuPerformance payload w).1
    = Throw (message "Failed to fetch RTU Performance data")
  ∧ (getR2A payload w).1 = Throw (message "Failed to fetch R2A data")
  ∧ (getR2APercentage payload w).1 = Throw (message "Failed to fetch R2A% data")
  ∧ (getA2PhhSummary payload w).1
    = Throw (message "Failed to fetch A2PHH Summary data")
  ∧ (clearFunnelSession w).1 = Throw (Error (text r)).
Proof.
  intros Hnet Hok message. subst message.
  repeat match goal with |- _ ∧ _ => split end.
  all: unfold ApiCalls.fetchCaptainLevelAggregation, ApiCalls.uploadMobileNumbers,
         ApiCalls.getCaptainIds, ApiCalls.getAOFunnel, ApiCalls.useFunnelForAnalysis,
         ApiCalls.getDaprBucket, ApiCalls.getFe2Net, ApiCalls.getRtuPerformance,
         ApiCalls.getR2A, ApiCalls.getR2APercentage, ApiCalls.getA2PhhSummary,
         ApiCalls.clearFunnelSession.
  all: try (destruct (funnelSessionHeaders_run w) as (h & Hh & _);
            unfold bind at 1; rewrite Hh; cbn [fst snd]).
  all: try (destruct (ApiProps.sessionHeaders_run w) as (h & Hh & _);
            unfold bind at 1; rewrite Hh; cbn [fst snd]).
  all: run_fetch Hnet; rewrite Hok; cbn [negb].
  all: unfold res_text, ret, throw, or_message, truthy_string; cbn [fst].
  all: try case_decide; reflexivity.
Qed.

(** On a response that is not ok the report calls throw an [Error] with a
    message fixed per call: the body text of the response never reaches the
    caller. *)
Theorem report_errors_fixed (r : Response Json) (w : World File)
    (payload : Payload) (itemId reportId : string) :
  (∀ q, network q = Some r) → ok r = false →
  (createReport w).1 = Throw (Error "Failed to create report")
  ∧ (addReportItem payload reportId w).1 = Throw (Error "Failed to add report item")
  ∧ (deleteReportItem itemId reportId w).1 = Throw (Error "Failed to delete report item")
  ∧ (listReportItems reportId w).1 = Throw (Error "Failed to list report items")
  ∧ (exportReport reportId w).1 = Throw (Error "Failed to export report")
  ∧ (clearReport reportId w).1 = Throw (Error "Failed to clear report").
Proof.
  intros Hnet Hok.
  repeat match goal with |- _ ∧ _ => split end.
  all: unfold ApiCalls.createReport, ApiCalls.addReportItem, ApiCalls.deleteReportItem,
         ApiCalls.listReportItems, ApiCalls.exportReport, ApiCalls.clearReport.
  all: run_fetch Hnet; rewrite Hok; reflexivity.
Qed.


(** The two sessions are kept apart: whatever the server answers, the
    funnel calls that write the store touch no entry but
    [funnel_session_id], the upload of a CSV file and [clearSession] no
    entry but [session_id] (as does the transfer of funnel data), and every
    other call leaves the store as it is. *)
Theorem session_stores_independent (w : World File) (file : File)
    (username : string) (payload : Payload) (itemId reportId : string) :
  (keeps_but "funnel_session_id" (uploadMobileNumbers file) w
   ∧ keeps_but "funnel_session_id" clearFunnelSession w)
  ∧ (keeps_but "session_id" (uploadCsv file) w
     ∧ keeps_but "session_id" clearSession w
     ∧ keeps_but "session_id" useFunnelForAnalysis w)
  ∧ (keeps_store (fetchCaptainLevelAggregation payload) w
     ∧ keeps_store (getCaptainIds username) w
     ∧ keeps_store (getAOFunnel payload) w
     ∧ keeps_store (getDaprBucket payload) w
     ∧ keeps_store (getFe2Net payload) w
     ∧ keeps_store (getRtuPerformance payload) w
     ∧ keeps_store (getR2A payload) w
     ∧ keeps_store (getR2APercentage payload) w
     ∧ keeps_store (getA2PhhSummary payload) w
     ∧ keeps_store createReport w
     ∧ keeps_store (addReportItem payload reportId) w
     ∧ keeps_store (deleteReportItem itemId reportId) w
     ∧ keeps_store (listReportItems reportId) w
     ∧ keeps_store (exportReport reportId) w
     ∧ keeps_store (clearReport reportId) w).
Proof.
  unfold keeps_but, keeps_store.
  repeat match goal with
         | |- _ ∧ _ => split
         | |- ∀ _, _ => intro
         end.
  all: unfold ApiCalls.uploadMobileNumbers, ApiCalls.clearFunnelSession,
         Api.uploadCsv, Api.clearSession, ApiCalls.useFunnelForAnalysis,
         ApiCalls.fetchCaptainLevelAggregation, ApiCalls.getCaptainIds,
         ApiCalls.getAOFunnel, ApiCalls.getDaprBucket, ApiCalls.getFe2Net,
         ApiCalls.getRtuPerformance, ApiCalls.getR2A, ApiCalls.getR2APercentage,
         ApiCalls.getA2PhhSummary, ApiCalls.createReport, ApiCalls.addReportItem,
         ApiCalls.deleteReportItem, ApiCalls.listReportItems, ApiCalls.exportReport,
         ApiCalls.clearReport.
  all: try (destruct (funnelSessionHeaders_run w) as (h & Hh & _);
            unfold bind at 1; rewrite Hh; cbn [fst snd]).
  all: try (destruct (ApiProps.sessionHeaders_run w) as (h & Hh & _);
            unfold bind at 1; rewrite Hh; cbn [fst snd]).
  all: unfold fetch, bind.
  all: match goal with
       | |- context [network ?q] => destruct (network q) as [res|]
       end; cbn [fst snd localStorage]; try reflexivity.
  all: destruct (negb (ok res)); unfold res_text, res_json, removeSessionId,
         removeFunnelSessionId, setSessionId, setFunnelSessionId, bind, ret, throw;
       cbn [fst snd localStorage]; try reflexivity.
  all: try (destruct (json res); cbn [fst snd localStorage]; try reflexivity).
  all: rewrite ?lookup_insert_ne, ?lookup_delete_ne by done; reflexivity.
Qed.

End Facts.
End ApiCallsProps.

(** ** The report provider *)

Module ReportProps.
Import Api Handler ReportContext ReportSpec.

Section Facts.
Context {File Payload Json ReportItem : Type}.
Variable JSON_stringify : Payload → string.
Variable report_id : Json → string.
Variable response_items : Json → option (list ReportItem).
Variable base : option string.
Variable network : Request File → option (Response Json).

Local Abbreviation createReport := (ApiCalls.createReport File Json base network).
Local Abbreviation addReportItem :=
  (ApiCalls.addReportItem File Payload JSON_stringify Json base network).
Local Abbreviation listReportItems := (ApiCalls.listReportItems File Json base network).
Local Abbreviation refreshItemsInternal :=
  (refreshItemsInternal File Json ReportItem report_id response_items base network).
Local Abbreviation refreshItems :=
  (refreshItems File Json ReportItem report_id response_items base network).
Local Abbreviation mount :=
  (mount File Json ReportItem report_id response_items base network).
Local Abbreviation addItem :=
  (addItem File Payload JSON_stringify Json ReportItem report_id response_items base
     network).
Local Abbreviation create_request := (@create_request File base).
Local Abbreviation add_request := (add_request (File := File) JSON_stringify base).
Local Abbreviation list_request := (@list_request File base).
Local Abbreviation accepted := (accepted network).
Local Abbreviation renamed := (renamed report_id).
Local Abbreviation refreshed :=
  (refreshed base network ReportItem report_id response_items).
Local Abbreviation refreshed_store := (refreshed_store base network report_id).

Implicit Types (st : State ReportItem) (w : World File).

Lemma report_call_run (req : Request File) (msg : string) w :
  ∃ r, Api.bind File (Api.fetch File Json network req)
         (λ res, if negb (ok res) then Api.throw File (Error msg)
                 else Api.res_json File Json res) w
       = (r, mkWorld (localStorage w) (sent w ++ [req]))
       ∧ outcome r (accepted req)
       ∧ (∀ res, network req = Some res → ok res = false → r = Throw (Error msg)).
Proof.
  unfold Api.bind, Api.fetch, ReportSpec.accepted.
  destruct (network req) as [res|]; cbn.
  - destruct (ok res) eqn:Hok; cbn.
    + unfold res_json. destruct (json res); cbn.
      * eexists. split; [reflexivity|]. split; [reflexivity|]. intros ? [= <-]. congruence.
      * eexists. split; [reflexivity|]. split; [eauto|]. intros ? [= <-]. congruence.
    + eexists. split; [reflexivity|]. split; [eauto|]. done.
  - eexists. split; [reflexivity|]. split; [eauto|]. done.
Qed.

Lemma createReport_run w :
  ∃ r, createReport w = (r, mkWorld (localStorage w) (sent w ++ [create_request]))
       ∧ outcome r (accepted create_request).
Proof.
  destruct (report_call_run create_request "Failed to create report" w) as (r & Hr & Ho & _).
  exists r. split; [exact Hr | exact Ho].
Qed.

Lemma addReportItem_run (item : Payload) (id : string) w :
  ∃ r, addReportItem item id w
       = (r, mkWorld (localStorage w) (sent w ++ [add_request item id]))
       ∧ outcome r (accepted (add_request item id))
       ∧ (∀ res, network (add_request item id) = Some res → ok res = false →
            r = Throw (Error "Failed to add report item")).
Proof. apply (report_call_run (add_request item id)). Qed.

Lemma listReportItems_run (id : string) w :
  ∃ r, listReportItems id w
       = (r, mkWorld (localStorage w) (sent w ++ [list_request id]))
       ∧ outcome r (accepted (list_request id)).
Proof.
  destruct (report_call_run (list_request id) "Failed to list report items" w)
    as (r & Hr & Ho & _).
  exists r. split; [exact Hr | exact Ho].
Qed.

Lemma refreshItemsInternal_run (id : string) st w :
  refreshItemsInternal id (st, w)
  = (Return tt, (refreshed id st,
                 mkWorld (refreshed_store id (localStorage w))
                   (sent w ++ [list_request id]))).
Proof.
  unfold ReportContext.refreshItemsInternal, try_finally, try_catch, bind,
    setIsLoading, set, await. cbn [fst snd].
  destruct (listReportItems_run id w) as (r & Hr & Ho). rewrite Hr.
  unfold ReportSpec.refreshed, ReportSpec.refreshed_store, outcome in *.
  destruct (accepted (list_request id)) as [v|].
  - subst r. fold (renamed v id). cbn [fst snd].
    destruct (renamed v id); reflexivity.
  - destruct Ho as [e ->]. reflexivity.
Qed.

Local Abbreviation in_sync := (@in_sync ReportItem).
Local Abbreviation setIsLoading := (setIsLoading File ReportItem).
Local Abbreviation setReportId := (setReportId File ReportItem).
Local Abbreviation store_report_id := (store_report_id File ReportItem).
Local Abbreviation initReport :=
  (initReport File Json ReportItem report_id base network).

(** The part of [addItem] that follows the choice of the report id. *)
Local Abbreviation add_phase item currentReportId :=
  (try_finally
     (try_catch
        (bind (setIsLoading true) (λ _,
         bind (await (addReportItem item currentReportId)) (λ response,
         bind (if truthy_string (report_id response)
                  && negb (bool_decide (report_id response = currentReportId))
               then bind (setReportId (report_id response))
                      (λ _, store_report_id (report_id response))
               else ret tt) (λ _,
         refreshItemsInternal
           (if truthy_string currentReportId then currentReportId
            else report_id response)))))
        (λ error, throw error))
     (setIsLoading false)).

Lemma refreshed_in_sync (id : string) st (store : gmap string string) :
  in_sync st store → in_sync (refreshed id st) (refreshed_store id store).
Proof.
  unfold ReportSpec.in_sync, ReportSpec.refreshed, ReportSpec.refreshed_store.
  intros Hs id'. destruct (accepted (list_request id)) as [v|]; cbn; [|apply Hs].
  destruct (renamed v id); [|apply Hs].
  intros [= <-]. apply lookup_insert_eq.
Qed.

Lemma add_phase_run (item : Payload) (cur : string) st w :
  ∃ r st' w', add_phase item cur (st, w) = (r, (st', w'))
    ∧ isLoading st' = false
    ∧ showReportBuilder st' = showReportBuilder st
    ∧ (in_sync st (localStorage w) → in_sync st' (localStorage w'))
    ∧ match accepted (add_request item cur) with
      | Some v =>
          let id := if truthy_string cur then cur else report_id v in
          r = Return tt
          ∧ sent w' = sent w ++ [add_request item cur; list_request id]
          ∧ items st'
            = match accepted (list_request id) with
              | Some l => default [] (response_items l)
              | None => []
              end
      | None =>
          (∃ e, r = Throw e)
          ∧ sent w' = sent w ++ [add_request item cur]
          ∧ items st' = items st ∧ reportId st' = reportId st
          ∧ localStorage w' = localStorage w
      end
    ∧ (∀ res, network (add_request item cur) = Some res → ok res = false →
         r = Throw (Error "Failed to add report item")).
Proof.
  unfold try_finally, try_catch, bind, setIsLoading, set, await. cbn [fst snd].
  destruct (addReportItem_run item cur w) as (r & Hr & Ho & Hno). rewrite Hr.
  unfold outcome in Ho.
  destruct (accepted (add_request item cur)) as [v|].
  - subst r. cbn [fst snd]. fold (renamed v cur).
    set (id := if truthy_string cur then cur else report_id v).
    assert (Hno' : ∀ res, network (add_request item cur) = Some res →
                          ok res = false → False).
    { intros res H1 H2. specialize (Hno res H1 H2). discriminate. }
    destruct (renamed v cur) eqn:Hren;
      unfold setReportId, store_report_id, set, ret; cbn [fst snd];
      rewrite refreshItemsInternal_run; cbn [fst snd].
    all: do 3 eexists; split; [reflexivity|].
    all: split; [unfold ReportSpec.refreshed;
                 destruct (accepted (list_request id)); reflexivity|].
    all: split; [unfold ReportSpec.refreshed;
                 destruct (accepted (list_request id)); reflexivity|].
    all: split; [|split;
                  [split; [reflexivity|]; split;
                     [cbn [sent]; by rewrite <- app_assoc|];
                   unfold ReportSpec.refreshed;
                   destruct (accepted (list_request id)); reflexivity
                  |intros res H1 H2; destruct (Hno' res H1 H2)]].
    + intros _. cbn [localStorage]. apply refreshed_in_sync.
      intros id' [= <-]. apply lookup_insert_eq.
    + intros Hs. cbn [localStorage]. apply refreshed_in_sync. exact Hs.
  - destruct Ho as [e ->]. unfold throw. cbn.
    do 3 eexists. split; [reflexivity|]. split; [reflexivity|]. split; [reflexivity|].
    split; [intros Hs; exact Hs|]. split.
    + split; [eauto|]. repeat split.
    + intros res H1 H2. specialize (Hno res H1 H2). by injection Hno as ->.
Qed.

(** The creation of a report at the start of [addItem]. *)
Lemma create_block_run st w :
  try_catch
    (bind (await createReport) (λ r,
     bind (setReportId (report_id r)) (λ _,
     bind (store_report_id (report_id r)) (λ _, ret (report_id r)))))
    (λ error, throw (Error "Failed to create report session")) (st, w)
  = match accepted create_request with
    | Some c =>
        (Return (report_id c),
         (mkState (Some (report_id c)) (items st) (isLoading st) (showReportBuilder st),
          mkWorld (<["report_id" := report_id c]> (localStorage w))
            (sent w ++ [create_request])))
    | None =>
        (Throw (Error "Failed to create report session"),
         (st, mkWorld (localStorage w) (sent w ++ [create_request])))
    end.
Proof.
  unfold try_catch, bind, await. cbn [fst snd].
  destruct (createReport_run w) as (r & Hr & Ho). rewrite Hr.
  unfold outcome in Ho. destruct (accepted create_request) as [c|].
  - subst r. reflexivity.
  - destruct Ho as [e ->]. reflexivity.
Qed.

Lemma initReport_run st w :
  ∃ st' w', initReport (st, w) = (Return tt, (st', w'))
    ∧ sent w' = sent w ++ [create_request]
    ∧ match accepted create_request with
      | Some c => reportId st' = Some (report_id c)
                  ∧ localStorage w' = <["report_id" := report_id c]> (localStorage w)
      | None => st' = st ∧ localStorage w' = localStorage w
      end
    ∧ (in_sync st (localStorage w) → in_sync st' (localStorage w')).
Proof.
  unfold ReportContext.initReport, try_catch, bind, await. cbn [fst snd].
  destruct (createReport_run w) as (r & Hr & Ho). rewrite Hr.
  unfold outcome in Ho. destruct (accepted create_request) as [c|].
  - subst r. unfold setReportId, store_report_id, set. cbn [fst snd].
    do 2 eexists. split; [reflexivity|]. split; [reflexivity|].
    split; [by split|]. intros _ id' [= <-]. apply lookup_insert_eq.
  - destruct Ho as [e ->]. unfold ret. do 2 eexists. split; [reflexivity|].
    split; [reflexivity|]. split; [by split|]. done.
Qed.






End Facts.
End ReportProps.

(** ** Running a statistical test *)

Module StatRunProps.
Import Api Handler StatRun.

Section Facts.
Context {File Params Json : Type}.
Variable JSON_stringify : StatTestRequest Params → string.
Variable is_object : Json → bool.
Variable syntax_error_message : string.
Variable network_error_message : string.
Variable base : option string.
Variable network : Request File → option (Response Json).
Variable preData postData : list StatTests.SeriesPoint.
Variable testCohort controlCohort : option string.

Local Abbreviation runTest :=
  (runTest File Params JSON_stringify Json is_object syntax_error_message
     network_error_message base network preData postData testCohort controlCohort).
Local Abbreviation extractData :=
  (StatTests.extractData preData postData testCohort controlCohort).
Local Abbreviation runStatisticalTest :=
  (Api.runStatisticalTest File (StatTestRequest Params) JSON_stringify Json base network).

Implicit Types (st : State Params Json) (w : World File).

Lemma no_points_no_sample (label : option string) (l : list StatTests.SeriesPoint) :
  Forall (λ d, ¬ StatTests.cohort_is label d) l →
  map StatTests.value (filter (StatTests.cohort_is label) l) = [].
Proof.
  induction 1 as [|d l Hd _ IH]; [done|].
  by rewrite filter_cons_False.
Qed.

(** The request of [runStatisticalTest], and what comes back. *)
Lemma runStatisticalTest_run (request : StatTestRequest Params) w :
  ∃ h r,
    let req := mkRequest (BASE_URL base +:+ "/statistical-test") POST (content_json h)
                 (JsonBody File (JSON_stringify request)) in
    runStatisticalTest request w
    = (r, mkWorld (localStorage w) (sent w ++ [req]))
    ∧ match network req with
      | Some res =>
          if ok res then
            match json res with
            | Some v => r = Return v
            | None => r = Throw SyntaxError
            end
          else r = Throw (Error (if decide (text res = "") then "Statistical test failed"
                                 else text res))
      | None => r = Throw NetworkError
      end.
Proof.
  unfold Api.runStatisticalTest.
  destruct (ApiProps.sessionHeaders_run w) as (h & Hh & _).
  unfold Api.bind at 1. rewrite Hh. cbn [fst snd].
  exists h. unfold Api.bind, fetch.
  destruct (network _) as [res|]; cbn [fst snd].
  - destruct (ok res); cbn [negb].
    + unfold res_json. destruct (json res); eexists; split; reflexivity.
    + unfold res_text, Api.ret, Api.throw, truthy_string. cbn [fst snd].
      eexists. split; [reflexivity|]. by case_decide.
  - eexists. split; reflexivity.
Qed.

(** Nothing happens unless a category and a test are selected; and with
    both selected but no point of either series carrying the test cohort
    label, no request is sent: the run ends with the error
    'No valid data found for the test cohort', the loading flag down and
    the results as they were. *)
Theorem runTest_guards st w :
  (selectedCategory st = "" ∨ selectedTest st = "" →
   runTest (st, w) = (Return tt, (st, w)))
  ∧ (selectedCategory st ≠ "" → selectedTest st ≠ "" →
     Forall (λ d, ¬ StatTests.cohort_is testCohort d) (preData ++ postData) →
     runTest (st, w)
     = (Return tt,
        (mkState (selectedCategory st) (selectedTest st) (current_parameters st)
           (results st) false (Some "No valid data found for the test cohort"), w))).
Proof.
  split.
  - intros Hsel. unfold StatRun.runTest, bind, render. cbn [fst snd].
    assert (negb (truthy_string (selectedCategory st))
            || negb (truthy_string (selectedTest st)) = true) as ->; [|reflexivity].
    unfold truthy_string. destruct Hsel as [-> | ->]; [done|].
    by destruct (decide (selectedCategory st = "")).
  - intros Hc Ht Hnone. apply ApiProps.truthy_string_true in Hc, Ht.
    apply Forall_app in Hnone as [Hpre Hpost].
    unfold StatRun.runTest, bind at 1, render. cbn [fst snd]. rewrite Hc, Ht. cbn [negb orb].
    unfold StatRun.extractData, StatTests.extractData. cbn [StatTests.preTest StatTests.postTest].
    rewrite !no_points_no_sample by assumption.
    reflexivity.
Qed.


End Facts.

(** As rendered by [App]: when no test cohort is chosen the label handed to
    the component is [undefined], and a run stops before any request,
    whatever the funnel holds. *)
Theorem runTest_unset_cohort {File Params Json : Type}
    (JSON_stringify : StatTestRequest Params → string) (is_object : Json → bool)
    (syntax_error_message network_error_message : string) (base : option string)
    (network : Request File → option (Response Json))
    (filters : App.FiltersState) (funnel : App.FunnelResponse)
    (st : State Params Json) (w : World File) :
  truthy_opt_string (App.test_cohort filters) = false →
  selectedCategory st ≠ "" → selectedTest st ≠ "" →
  StatRun.runTest File Params JSON_stringify Json is_object syntax_error_message
    network_error_message base network
    (App.series_props (App.pre_series funnel)) (App.series_props (App.post_series funnel))
    (App.testLabel filters) (App.controlLabel filters) (st, w)
  = (Return tt,
     (mkState (selectedCategory st) (selectedTest st) (current_parameters st)
        (results st) false (Some "No valid data found for the test cohort"), w)).
Proof.
  intros Hunset Hc Ht.
  apply ApiProps.truthy_string_true in Hc, Ht.
  unfold StatRun.runTest, bind at 1, render. cbn [fst snd]. rewrite Hc, Ht. cbn [negb orb].
  unfold StatRun.extractData, StatTests.extractData, App.testLabel.
  rewrite Hunset. cbn [StatTests.preTest StatTests.postTest].
  assert (Hnone : ∀ l, map StatTests.value (filter (StatTests.cohort_is None) l) = []).
  { intros l. apply no_points_no_sample, Forall_forall. intros d _.
    unfold StatTests.cohort_is. discriminate. }
  rewrite !Hnone. reflexivity.
Qed.

End StatRunProps.

(** ** The handlers of [App] *)

Module AppProps.
Import Api Handler AppState AppSpec.

Lemma sessionHeaders_eq {File} (w : World File) :
  sessionHeaders File w = (Return (session_headers (localStorage w)), w).
Proof.
  unfold sessionHeaders, Api.bind, getSessionId, session_headers, Api.ret.
  destruct (localStorage w !! "session_id") as [s|]; [destruct (truthy_string s)|];
    reflexivity.
Qed.

Section Facts.
Context {File DateRange MetricAggregation Json : Type}.
Variable JSON_stringify : Payload DateRange MetricAggregation → string.
Variable categorical_columns : Json → option (list string).
Variable syntax_error_message : string.
Variable network_error_message : string.
Variable base : option string.
Variable network : Request File → option (Response Json).

Local Abbreviation State := (State DateRange MetricAggregation Json).
Local Abbreviation message := (Handler.message syntax_error_message network_error_message).
Local Abbreviation getMeta := (Api.getMeta File Json base network).
Local Abbreviation fetchFunnel :=
  (Api.fetchFunnel File (Payload DateRange MetricAggregation) JSON_stringify Json base
     network).
Local Abbreviation fetchCohortAggregation :=
  (Api.fetchCohortAggregation File Json base network).
Local Abbreviation fetchCaptainLevelAggregation :=
  (ApiCalls.fetchCaptainLevelAggregation File (Payload DateRange MetricAggregation)
     JSON_stringify Json base network).
Local Abbreviation loadFunnel :=
  (loadFunnel File DateRange MetricAggregation JSON_stringify Json syntax_error_message
     network_error_message base network).
Local Abbreviation loadCohortAggregation :=
  (loadCohortAggregation File DateRange MetricAggregation Json syntax_error_message
     network_error_message base network).
Local Abbreviation loadCaptainLevelAggregation :=
  (loadCaptainLevelAggregation File DateRange MetricAggregation JSON_stringify Json
     syntax_error_message network_error_message base network).
Local Abbreviation loadCategoricalColumns :=
  (loadCategoricalColumns File DateRange MetricAggregation Json categorical_columns base
     network).
Local Abbreviation funnel_request := (funnel_request DateRange MetricAggregation Json).
Local Abbreviation metricsToLoad := (metricsToLoad DateRange MetricAggregation Json).
Local Abbreviation answer_of := (answer_of network).
Local Abbreviation answers := (answers network).
Local Abbreviation attempts := (attempts network).
Local Abbreviation get := (@get File base).
Local Abbreviation json_post := (json_post (File := File) JSON_stringify base).
Local Abbreviation funnel_post := (funnel_post (File := File) (Json := Json) JSON_stringify base).

Implicit Types (st : State) (w : World File).

Lemma api_call_run (req : Request File) (refused : string → string) w :
  Api.bind File (Api.fetch File Json network req)
    (λ res, if negb (ok res)
            then Api.bind File (Api.res_text File Json res)
                   (λ error, Api.throw File (Error (refused error)))
            else Api.res_json File Json res) w
  = (to_result (answer_of refused req),
     mkWorld (localStorage w) (sent w ++ [req])).
Proof.
  unfold Api.bind, Api.fetch, AppSpec.answer_of.
  destruct (network req) as [res|]; cbn; [|reflexivity].
  destruct (ok res); cbn; [|reflexivity].
  unfold Api.res_json. destruct (json res); reflexivity.
Qed.

Lemma getMeta_run w :
  getMeta w = (to_result (answer_of id (get "/meta" (localStorage w))),
               mkWorld (localStorage w) (sent w ++ [get "/meta" (localStorage w)])).
Proof.
  unfold Api.getMeta, Api.bind at 1. rewrite sessionHeaders_eq. cbn [fst snd].
  apply (api_call_run _ id).
Qed.

Lemma fetchCohortAggregation_run w :
  fetchCohortAggregation w
  = (to_result (answer_of id (get "/cohort-aggregation" (localStorage w))),
     mkWorld (localStorage w) (sent w ++ [get "/cohort-aggregation" (localStorage w)])).
Proof.
  unfold Api.fetchCohortAggregation, Api.bind at 1. rewrite sessionHeaders_eq.
  cbn [fst snd]. apply (api_call_run _ id).
Qed.

Lemma fetchFunnel_run (payload : Payload DateRange MetricAggregation) w :
  fetchFunnel payload w
  = (to_result (answer_of id (json_post "/funnel" (localStorage w) payload)),
     mkWorld (localStorage w) (sent w ++ [json_post "/funnel" (localStorage w) payload])).
Proof.
  unfold Api.fetchFunnel, Api.bind at 1. rewrite sessionHeaders_eq. cbn [fst snd].
  apply (api_call_run _ id).
Qed.

Lemma fetchCaptainLevelAggregation_run (payload : Payload DateRange MetricAggregation) w :
  let req := json_post "/captain-level-aggregation" (localStorage w) payload in
  fetchCaptainLevelAggregation payload w
  = (to_result
       (answer_of (λ t, ApiCalls.or_message t "Captain-level aggregation failed") req),
     mkWorld (localStorage w) (sent w ++ [req])).
Proof.
  unfold ApiCalls.fetchCaptainLevelAggregation, Api.bind at 1.
  rewrite sessionHeaders_eq. cbn [fst snd].
  apply (api_call_run _ (λ t, ApiCalls.or_message t "Captain-level aggregation failed")).
Qed.

(** The loop of [loadFunnel]. *)
Lemma load_loop (s : State) (ms : list string) (next : ChartBuilder.obj Json) st w :
  let reqs := map (funnel_post s (localStorage w)) ms in
  for_of ms
    (λ next m,
       bind (await (fetchFunnel (FunnelPayload (funnel_request s m))))
         (λ res, ret (assign next m res)))
    next (st, w)
  = (match answers id reqs with
     | inr vs => Return (foldl (λ next mv, assign next mv.1 mv.2) next (zip ms vs))
     | inl e => Throw e
     end,
     (st, mkWorld (localStorage w) (sent w ++ take (attempts id reqs) reqs))).
Proof.
  cbv zeta. revert next w. induction ms as [|m ms IH]; intros next w.
  - cbn. unfold ret. rewrite app_nil_r. by destruct w.
  - cbn [for_of map AppSpec.answers AppSpec.attempts].
    unfold bind at 1. unfold bind at 1, await. cbn [fst snd].
    rewrite fetchFunnel_run. fold (funnel_post s (localStorage w) m).
    destruct (answer_of id (funnel_post s (localStorage w) m)) as [e|v]; cbn [to_result].
    + reflexivity.
    + unfold ret at 1. rewrite IH. cbn [localStorage sent].
      rewrite <- app_assoc. cbn [app take].
      destruct (answers id (map (funnel_post s (localStorage w)) ms)); reflexivity.
Qed.

Lemma answers_length (refused : string → string) (reqs : list (Request File))
    (vs : list Json) :
  answers refused reqs = inr vs →
  length vs = length reqs ∧ attempts refused reqs = length reqs
  ∧ ∀ i req, reqs !! i = Some req → inr <$> vs !! i = Some (answer_of refused req).
Proof.
  revert vs. induction reqs as [|req reqs IH]; intros vs; cbn.
  - intros [= <-]. repeat split. intros i req H. by rewrite lookup_nil in H.
  - destruct (answer_of refused req) as [e|v] eqn:E; [done|].
    destruct (answers refused reqs) as [e|vs'] eqn:E'; [done|].
    intros [= <-]. destruct (IH vs' eq_refl) as (Hl & Ha & Hi).
    cbn. rewrite Hl, Ha. repeat split.
    intros [|i] req'; cbn.
    + intros [= <-]. by rewrite E.
    + apply Hi.
Qed.

Lemma attempts_pos (refused : string → string) (reqs : list (Request File)) :
  reqs ≠ [] → 0 < attempts refused reqs ≤ length reqs.
Proof.
  induction reqs as [|req reqs IH]; [done|]. intros _. cbn.
  destruct (answer_of refused req); [lia|].
  destruct reqs as [|req' reqs]; [cbn; lia|].
  specialize (IH ltac:(done)). cbn in *. lia.
Qed.

(** The dictionary collected from distinct metrics holds them in order,
    each with its answer. *)
Lemma collect_distinct (ms : list string) (vs : list Json) (next : ChartBuilder.obj Json) :
  length vs = length ms → NoDup ms → "__proto__" ∉ ms →
  (∀ m, m ∈ ms → m ∉ next.*1) →
  (foldl (λ next mv, assign next mv.1 mv.2) next (zip ms vs)).*1 = next.*1 ++ ms
  ∧ ∀ i m, ms !! i = Some m →
      ChartBuilder.obj_get (foldl (λ next mv, assign next mv.1 mv.2) next (zip ms vs)) m
      = vs !! i.
Proof.
  revert vs next. induction ms as [|m ms IH]; intros vs next Hlen Hnd Hproto Hfresh.
  - destruct vs; [|done]. cbn. rewrite app_nil_r. split; [done|].
    intros i m H. by rewrite lookup_nil in H.
  - destruct vs as [|v vs]; [done|]. cbn in Hlen.
    apply NoDup_cons in Hnd as [Hm Hnd].
    apply not_elem_of_cons in Hproto as [Hne Hproto].
    cbn [zip zip_with foldl fst snd]. unfold assign at 2 4.
    rewrite bool_decide_eq_false_2 by done.
    assert (Hmnext : m ∉ next.*1) by (apply Hfresh, list_elem_of_here).
    assert (Hkeys : (ChartBuilder.obj_set next m v).*1 = next.*1 ++ [m]).
    { rewrite ChartProps.obj_set_keys. by rewrite decide_False. }
    destruct (IH vs (ChartBuilder.obj_set next m v)) as [Hk Hget]; [lia|done|done| |].
    { intros m' Hm'. rewrite Hkeys, elem_of_app, list_elem_of_singleton.
      intros [H| ->]; [|done]. revert H. apply Hfresh. by apply list_elem_of_further. }
    split.
    + rewrite Hk, Hkeys, <- app_assoc. reflexivity.
    + intros [|i] m'; cbn; [|apply Hget].
      intros [= <-].
      assert (Hstay : ∀ (l : list (string * Json)) (o : ChartBuilder.obj Json),
                 m ∉ l.*1 → ChartBuilder.obj_get o m = Some v →
                 ChartBuilder.obj_get (foldl (λ next mv, assign next mv.1 mv.2) o l) m
                 = Some v).
      { induction l as [|[m' v'] l IHl]; intros o Hl Ho; [done|].
        cbn in Hl. apply not_elem_of_cons in Hl as [Hmm Hl]. cbn.
        apply IHl; [done|]. unfold assign. case_bool_decide; [done|].
        by rewrite ChartProps.obj_get_set_ne. }
      apply Hstay; [|apply ChartProps.obj_get_set_eq].
      rewrite fst_zip by lia. done.
Qed.

(** Each load is refused before any request while its selections are
    incomplete: [loadFunnel] without a test or a control cohort and
    [loadCohortAggregation] without an upload do nothing at all;
    [loadCaptainLevelAggregation] without cohorts, a group-by column or a
    metric only sets its error message. *)
Theorem loads_need_selections st w :
  (truthy_opt_string (Filters.test_cohort (filters st)) = false
   ∨ truthy_opt_string (Filters.control_cohort (filters st)) = false →
   loadFunnel (st, w) = (Return tt, (st, w)))
  ∧ (uploaded st = None → loadCohortAggregation (st, w) = (Return tt, (st, w)))
  ∧ (truthy_opt_string (Filters.test_cohort (filters st)) = false
     ∨ truthy_opt_string (Filters.control_cohort (filters st)) = false
     ∨ truthy_opt_string (Filters.captain_group_by (filters st)) = false
     ∨ Filters.captain_metrics (filters st) = None
     ∨ Filters.captain_metrics (filters st) = Some [] →
     ∃ st', loadCaptainLevelAggregation (st, w) = (Return tt, (st', w))
       ∧ error st'
         = Some "Please select test cohort, control cohort, group by column, and at least one metric to aggregate"
       ∧ loading st' = loading st
       ∧ captainLevelData st' = captainLevelData st).
Proof.
  split; [|split].
  - intros H. unfold AppState.loadFunnel, bind, render. cbn [fst snd].
    assert (negb (truthy_opt_string (Filters.test_cohort (filters st)))
            || negb (truthy_opt_string (Filters.control_cohort (filters st))) = true)
      as ->; [|reflexivity].
    destruct H as [-> | ->]; [done|]. apply orb_true_r.
  - intros H. unfold AppState.loadCohortAggregation, bind, render. cbn [fst snd].
    by rewrite H.
  - intros H. unfold AppState.loadCaptainLevelAggregation, bind, render. cbn [fst snd].
    match goal with
    | |- context [if ?c then _ else _] => assert (c = true) as ->
    end.
    { destruct H as [-> | [-> | [-> | [-> | ->]]]]; cbn;
        rewrite ?orb_true_r; reflexivity. }
    unfold setError, set. cbn [fst snd]. eexists. split; [reflexivity|]. by repeat split.
Qed.



(** Adding metrics to the additional ones keeps the present ones in place
    and appends those, and only those, to add that are not present yet; a
    list free of repetitions stays so when the metrics to add are distinct,
    and adding the same metrics again changes nothing. *)
Theorem add_metrics_no_repeat (metricsToAdd : list string) st w :
  ∃ st', handleAddMetricsToSelection File DateRange MetricAggregation Json metricsToAdd
           (st, w) = (Return tt, (st', w))
    ∧ additionalMetrics st `prefix_of` additionalMetrics st'
    ∧ (∀ m, m ∈ additionalMetrics st'
            ↔ m ∈ additionalMetrics st ∨ m ∈ metricsToAdd)
    ∧ (NoDup (additionalMetrics st) → NoDup metricsToAdd →
       NoDup (additionalMetrics st'))
    ∧ handleAddMetricsToSelection File DateRange MetricAggregation Json metricsToAdd
        (st', w) = (Return tt, (st', w)).
Proof.
  unfold handleAddMetricsToSelection, bind, render, setAdditionalMetrics, set.
  cbn [fst snd]. eexists. split; [reflexivity|]. cbn [additionalMetrics].
  split; [by eexists|]. split; [|split].
  - intros m. rewrite elem_of_app, list_elem_of_filter.
    destruct (decide (m ∈ additionalMetrics st)); tauto.
  - intros Hnd Hadd. apply NoDup_app. split; [done|]. split.
    + intros m Hm Hm'. apply list_elem_of_filter in Hm' as [Hm' _]. contradiction.
    + by apply NoDup_filter.
  - assert (Hall : ∀ A l : list string,
              (∀ m, m ∈ l → m ∈ A) → filter (λ m, m ∉ A) l = []).
    { intros A l. induction l as [|m l IH]; intros H; [done|].
      rewrite filter_cons_False.
      - apply IH. intros m' Hm'. apply H. by apply list_elem_of_further.
      - intros Hn. apply Hn, H, list_elem_of_here. }
    rewrite (Hall (additionalMetrics st
                   ++ filter (λ metric, metric ∉ additionalMetrics st) metricsToAdd)
               metricsToAdd); [by rewrite app_nil_r|].
    intros m Hm. rewrite elem_of_app, list_elem_of_filter.
    destruct (decide (m ∈ additionalMetrics st)); tauto.
Qed.

(** Toggling the summary of a metric flips its visibility and no other,
    and toggling it twice restores the set of visible summaries. *)
Theorem toggle_summary_twice (metric : string) st w :
  ∃ st1 st2,
    toggleSummaryVisibility File DateRange MetricAggregation Json metric (st, w)
    = (Return tt, (st1, w))
    ∧ toggleSummaryVisibility File DateRange MetricAggregation Json metric (st1, w)
      = (Return tt, (st2, w))
    ∧ (metric ∈ visibleSummaries st1 ↔ metric ∉ visibleSummaries st)
    ∧ (∀ m, m ≠ metric → m ∈ visibleSummaries st1 ↔ m ∈ visibleSummaries st)
    ∧ visibleSummaries st2 = visibleSummaries st.
Proof.
  unfold toggleSummaryVisibility, bind, render, setVisibleSummaries, set.
  cbn [fst snd]. do 2 eexists. split; [reflexivity|]. split; [reflexivity|].
  cbn [visibleSummaries].
  destruct (decide (metric ∈ visibleSummaries st)) as [Hin|Hin].
  - rewrite (bool_decide_eq_true_2 _ Hin).
    rewrite bool_decide_eq_false_2 by set_solver.
    split; [set_solver|]. split; [set_solver|].
    apply set_eq. intros x. destruct (decide (x = metric)); set_solver.
  - rewrite (bool_decide_eq_false_2 _ Hin).
    rewrite bool_decide_eq_true_2 by set_solver.
    split; [set_solver|]. split; [set_solver|]. set_solver.
Qed.

End Facts.

(** *** Summary groups and statistical samples *)

Lemma includes_prefix (needle s : string) :
  String.prefix needle s = true → Js.includes needle s = true.
Proof. intros H. destruct s; cbn [Js.includes]; by rewrite H. Qed.

Lemma includes_app_r (needle p s : string) :
  Js.includes needle s = true → Js.includes needle (p +:+ s) = true.
Proof.
  intros H. induction p as [|c p IH]; [done|].
  change (String c p +:+ s) with (String c (p +:+ s)). cbn [Js.includes].
  destruct (String.prefix needle (String c (p +:+ s))); [done | exact IH].
Qed.

Lemma filter_true {A} (l : list A) : List.filter (λ _, true) l = l.
Proof. induction l as [|x l IH]; [done|]. cbn. by rewrite IH. Qed.

Lemma sample_sublist (label : option string) (upper lower : string)
    (series : list App.FunnelPoint) :
  (∀ c, label = Some c → Js.includes upper c || Js.includes lower c = true) →
  sublist
    (map StatTests.value (filter (StatTests.cohort_is label) (App.series_props series)))
    (App.group_sample upper lower series).
Proof.
  intros Hlabel. unfold App.group_sample, App.isNaN. cbn [negb].
  rewrite filter_true. unfold App.series_props.
  induction series as [|p series IH]; [done|]. cbn [map List.filter].
  destruct (decide (StatTests.cohort_is label
                      (StatTests.mkSeriesPoint (App.date p) (App.cohort p) (App.value p))))
    as [Hp|Hp].
  - rewrite filter_cons_True by exact Hp. unfold StatTests.cohort_is in Hp. cbn in Hp.
    rewrite (Hlabel _ (eq_sym Hp)). cbn [map StatTests.value]. by apply sublist_skip.
  - rewrite filter_cons_False by exact Hp.
    destruct (Js.includes upper (App.cohort p) || Js.includes lower (App.cohort p));
      [cbn [map]; by apply sublist_cons | exact IH].
Qed.

(** The four samples handed to a statistical test are drawn from the
    groups summarised in the table: the values of the points labelled with
    the test (control) cohort appear, in order, among the values of the
    summary's test (control) group of the same period. *)
Theorem samples_within_summary_groups (filters : App.FiltersState)
    (funnel : App.FunnelResponse) :
  let samples := App.statistical_samples filters funnel in
  sublist (StatTests.preTest samples)
    (App.group_sample "TEST" "test" (App.pre_series funnel))
  ∧ sublist (StatTests.postTest samples)
      (App.group_sample "TEST" "test" (App.post_series funnel))
  ∧ sublist (StatTests.preControl samples)
      (App.group_sample "CONTROL" "control" (App.pre_series funnel))
  ∧ sublist (StatTests.postControl samples)
      (App.group_sample "CONTROL" "control" (App.post_series funnel)).
Proof.
  cbv zeta. unfold App.statistical_samples, StatTests.extractData.
  cbn [StatTests.preTest StatTests.postTest StatTests.preControl StatTests.postControl].
  assert (Htest : ∀ c, App.testLabel filters = Some c →
                       Js.includes "TEST" c || Js.includes "test" c = true).
  { unfold App.testLabel. destruct (truthy_opt_string _); [|done].
    intros c [= <-]. apply orb_true_iff. left. by apply includes_prefix. }
  assert (Hcontrol : ∀ c, App.controlLabel filters = Some c →
                          Js.includes "CONTROL" c || Js.includes "control" c = true).
  { unfold App.controlLabel. destruct (truthy_opt_string _); [|done].
    intros c [= <-]. apply orb_true_iff. left. by apply includes_prefix. }
  repeat split; by apply sample_sublist.
Qed.

(** The summary groups are told apart by a substring of the label, so they
    can overlap: when the name of the test cohort contains [control] or
    [CONTROL], every point of the test sample is also counted in the
    control group of the summary. *)
Theorem summary_groups_overlap (filters : App.FiltersState)
    (funnel : App.FunnelResponse) (c : string) :
  App.test_cohort filters = Some c → c ≠ "" →
  Js.includes "CONTROL" c || Js.includes "control" c = true →
  let samples := App.statistical_samples filters funnel in
  sublist (StatTests.preTest samples)
    (App.group_sample "CONTROL" "control" (App.pre_series funnel))
  ∧ sublist (StatTests.postTest samples)
      (App.group_sample "CONTROL" "control" (App.post_series funnel)).
Proof.
  intros Hc Hne Hin. cbv zeta. unfold App.statistical_samples, StatTests.extractData.
  cbn [StatTests.preTest StatTests.postTest].
  assert (Hlabel : ∀ l, App.testLabel filters = Some l →
                        Js.includes "CONTROL" l || Js.includes "control" l = true).
  { unfold App.testLabel. rewrite Hc. cbn [truthy_opt_string default].
    apply ApiProps.truthy_string_true in Hne. rewrite Hne. intros l [= <-].
    apply orb_true_iff in Hin as [H|H]; apply orb_true_iff; [left|right];
      by apply includes_app_r. }
  split; by apply sample_sublist.
Qed.

End AppProps.

(** ** Reading an exported table back *)

Module CsvReaderProps.
Import Js Csv CsvSpec CsvReader.

Lemma append_nil_r (s : string) : s +:+ "" = s.
Proof.
  induction s as [|c s IH]; [done|].
  change (String c s +:+ "") with (String c (s +:+ "")). by rewrite IH.
Qed.

Lemma append_assoc (a b c : string) : (a +:+ b) +:+ c = a +:+ (b +:+ c).
Proof.
  induction a as [|x a IH]; [done|].
  change ((String x a +:+ b) +:+ c) with (String x ((a +:+ b) +:+ c)).
  by rewrite IH.
Qed.

Lemma occurs_cons (c x : ascii) (s : string) :
  occurs c (String x s) ↔ x = c ∨ occurs c s.
Proof. unfold occurs. cbn. tauto. Qed.

Lemma split_outside_nonempty (sep : ascii) (quoted : bool) (s : string) :
  split_outside sep quoted s ≠ [].
Proof.
  destruct s as [|x u]; cbn; [done|].
  destruct (decide (x = dquote)); [|destruct (negb quoted && bool_decide (x = sep))];
    try done; by destruct (split_outside sep _ u).
Qed.

Lemma split_scan (sep : ascii) (t s : string) (quoted quoted' : bool) :
  scan sep quoted t = Some quoted' →
  split_outside sep quoted (t +:+ s) = prepend t (split_outside sep quoted' s).
Proof.
  revert quoted. induction t as [|c t IH]; intros quoted.
  - change ("" +:+ s) with s. cbn. intros [= <-]. pose proof (split_outside_nonempty sep quoted s).
    destruct (split_outside sep quoted s); [congruence | reflexivity].
  - change (String c t +:+ s) with (String c (t +:+ s)).
    cbn [scan split_outside].
    assert (Hhead : ∀ fields, fields ≠ [] →
                      cons_head c (prepend t fields) = prepend (String c t) fields).
    { intros [|f fields]; done. }
    pose proof (split_outside_nonempty sep) as Hne.
    destruct (decide (c = dquote)).
    + intros H. rewrite (IH _ H). by apply Hhead.
    + destruct (negb quoted && bool_decide (c = sep)); [done|].
      intros H. rewrite (IH _ H). by apply Hhead.
Qed.

Lemma scan_app (sep : ascii) (t s : string) (quoted : bool) :
  scan sep quoted (t +:+ s) = scan sep quoted t ≫= λ q, scan sep q s.
Proof.
  revert quoted. induction t as [|c t IH]; intros quoted; [done|].
  change (String c t +:+ s) with (String c (t +:+ s)). cbn [scan].
  destruct (decide (c = dquote)); [apply IH|].
  destruct (negb quoted && bool_decide (c = sep)); [done | apply IH].
Qed.

Lemma scan_plain (sep : ascii) (t : string) (quoted : bool) :
  ¬ occurs dquote t → ¬ occurs sep t → scan sep quoted t = Some quoted.
Proof.
  induction t as [|c t IH]; [done|]. rewrite !occurs_cons. intros Hq Hs.
  cbn [scan]. rewrite decide_False by tauto.
  rewrite (bool_decide_eq_false_2 (c = sep)) by tauto.
  rewrite andb_false_r. apply IH; tauto.
Qed.

Lemma scan_double_quotes (sep : ascii) (s t : string) :
  scan sep true (double_quotes s +:+ t) = scan sep true t.
Proof.
  induction s as [|c s IH]; [done|]. cbn [double_quotes].
  destruct (decide (c = dquote)) as [->|Hc].
  - change (String dquote (String dquote (double_quotes s)) +:+ t)
      with (String dquote (String dquote (double_quotes s +:+ t))).
    cbn [scan]. rewrite !decide_True by done. exact IH.
  - change (String c (double_quotes s) +:+ t) with (String c (double_quotes s +:+ t)).
    cbn [scan]. rewrite decide_False by done. exact IH.
Qed.

Section Facts.
Variable num_to_string : Q → string.

Local Abbreviation ToString := (ToString num_to_string).
Local Abbreviation csv_cell := (csv_cell num_to_string).
Local Abbreviation csv_row := (csv_row num_to_string).
Local Abbreviation convertToCSV := (convertToCSV num_to_string).
Local Abbreviation cell_text := (cell_text num_to_string).

(** A cell is a whole field: a scan of it ends outside quotes and meets
    neither a comma nor a newline outside quotes. *)
Lemma scan_cell (sep : ascii) (value : jsval) :
  sep = ","%char ∨ sep = newline → scan sep false (csv_cell value) = Some false.
Proof.
  intros Hsep.
  assert (Hstr : ∀ s, scan sep false
                        (if needs_quoting s
                         then str dquote +:+ double_quotes s +:+ str dquote else s)
                      = Some false).
  { intros s. destruct (needs_quoting s) eqn:E.
    - change (str dquote +:+ ?x) with (String dquote x). cbn [scan].
      rewrite decide_True by done. cbn [negb]. rewrite scan_double_quotes.
      cbn. by rewrite decide_True.
    - assert (Hno : ¬ (occurs ","%char s ∨ occurs dquote s ∨ occurs newline s)).
      { intros H. apply CsvProps.needs_quoting_true in H. congruence. }
      apply scan_plain; [tauto|]. destruct Hsep as [-> | ->]; tauto. }
  destruct value; try apply Hstr; reflexivity.
Qed.

Lemma cell_round_trip (value : jsval) : unescape_field (csv_cell value) = cell_text value.
Proof.
  assert (Hstr : ∀ s, unescape_field
                        (if needs_quoting s
                         then str dquote +:+ double_quotes s +:+ str dquote else s)
                      = s).
  { intros s. destruct (needs_quoting s) eqn:E; [apply CsvProps.unescape_quoted|].
    apply CsvProps.unescape_plain. intros H.
    assert (needs_quoting s = true); [|congruence].
    apply CsvProps.needs_quoting_true. tauto. }
  destruct value; try apply Hstr; reflexivity.
Qed.

End Facts.

(** Joined fields that are whole are read back one by one. *)
Lemma split_join (sep : ascii) (fields : list string) :
  sep ≠ dquote → fields ≠ [] →
  Forall (λ t, scan sep false t = Some false) fields →
  split_outside sep false (join (str sep) fields) = fields.
Proof.
  intros Hsep Hne Hall. unfold join.
  induction Hall as [|f fields Hf Hall IH]; [done|].
  destruct fields as [|g fields].
  - cbn [String.concat]. rewrite <- (append_nil_r f) at 1.
    rewrite (split_scan _ _ _ _ _ Hf). cbn. by rewrite append_nil_r.
  - change (String.concat (str sep) (f :: g :: fields))
      with (f +:+ (String sep (String.concat (str sep) (g :: fields)))).
    rewrite (split_scan _ _ _ _ _ Hf). cbn [split_outside].
    rewrite decide_False by done. rewrite bool_decide_eq_true_2 by done.
    cbn [negb andb prepend]. rewrite append_nil_r. f_equal. by apply IH.
Qed.

(** Joining whole fields with commas gives a whole line. *)
Lemma scan_join (fields : list string) :
  Forall (λ t, scan newline false t = Some false) fields →
  scan newline false (join "," fields) = Some false.
Proof.
  unfold join. induction 1 as [|f fields Hf Hall IH]; [done|].
  destruct fields as [|g fields]; [exact Hf|].
  change (String.concat "," (f :: g :: fields))
    with (f +:+ (String ","%char (String.concat "," (g :: fields)))).
  rewrite scan_app, Hf. cbn [mbind option_bind scan].
  rewrite decide_False by done. rewrite bool_decide_eq_false_2 by done.
  cbn [negb andb]. exact IH.
Qed.


End CsvReaderProps.

(** ** Legend keys and the chart-builder export *)

Module ChartLinesProps.
Import Js ChartBuilder ChartSpec ChartLines.

Lemma Set_from_spec (l : list string) :
  NoDup (Set_from l) ∧ ∀ x, x ∈ Set_from l ↔ x ∈ l.
Proof.
  unfold Set_from.
  assert (H : ∀ seen, NoDup seen →
            NoDup (foldl (λ seen x, if bool_decide (x ∈ seen) then seen else seen ++ [x])
                     seen l)
            ∧ ∀ x, x ∈ foldl (λ seen x, if bool_decide (x ∈ seen) then seen
                                         else seen ++ [x]) seen l
                   ↔ x ∈ seen ∨ x ∈ l).
  { induction l as [|a l IH]; intros seen Hnd; cbn [foldl].
    - split; [done|]. intros x. rewrite elem_of_nil. tauto.
    - case_bool_decide as Ha.
      + destruct (IH seen Hnd) as [H1 H2]. split; [done|].
        intros x. rewrite H2, elem_of_cons. split; [tauto|].
        intros [?|[->|?]]; tauto.
      + destruct (IH (seen ++ [a])) as [H1 H2].
        { apply NoDup_app. split; [done|]. split; [|apply NoDup_singleton].
          intros x Hx Hx'. apply list_elem_of_singleton in Hx'. by subst. }
        split; [done|]. intros x.
        rewrite H2, elem_of_app, list_elem_of_singleton, elem_of_cons. tauto. }
  destruct (H [] (NoDup_nil_2)) as [H1 H2]. split; [done|].
  intros x. rewrite H2, elem_of_nil. tauto.
Qed.

Lemma NoDup_List_filter {A} (f : A → bool) (l : list A) : NoDup l → NoDup (List.filter f l).
Proof.
  induction 1 as [|x l Hx Hnd IH]; cbn; [constructor|].
  destruct (f x); [|done]. constructor; [|done].
  intros H. apply Hx. apply list_elem_of_In, filter_In in H as [H _].
  by apply list_elem_of_In.
Qed.

Section Facts.
Variable num_to_string : Q → string.
Variable str_to_number : string → option Q.
Variable xAxis : string.
Variable yAxes : list string.
Variable series : string.

Local Abbreviation x_of := (ChartBuilder.x_of num_to_string xAxis).
Local Abbreviation series_of := (ChartBuilder.series_of num_to_string series).
Local Abbreviation chartData :=
  (ChartBuilder.chartData num_to_string str_to_number xAxis yAxes series).
Local Abbreviation seriesValues := (seriesValues num_to_string series).
Local Abbreviation lineKeys := (lineKeys num_to_string yAxes series).
Local Abbreviation series_ok := (ChartSpec.series_ok num_to_string xAxis yAxes series).
Local Abbreviation series_contrib :=
  (ChartSpec.series_contrib num_to_string str_to_number yAxes series).

Lemma seriesValues_spec (data : list (gmap string jsval)) :
  series ≠ "" →
  NoDup (seriesValues data)
  ∧ ∀ s, s ∈ seriesValues data ↔ s ≠ "" ∧ ∃ row, row ∈ data ∧ series_of row = s.
Proof.
  intros Hs. apply ApiProps.truthy_string_true in Hs.
  unfold ChartLines.seriesValues. rewrite Hs. cbn [negb].
  destruct (Set_from_spec (map series_of data)) as [Hnd Hin]. split.
  - by apply NoDup_List_filter.
  - intros s. rewrite list_elem_of_In, filter_In, <- list_elem_of_In, Hin.
    rewrite ApiProps.truthy_string_true, list_elem_of_fmap.
    split.
    + intros [(row & ? & ?) H2]. split; [done|]. by exists row.
    + intros [H1 (row & ? & ?)]. split; [|done]. by exists row.
Qed.

Lemma lineKeys_spec (data : list (gmap string jsval)) (k : string) :
  series ≠ "" →
  k ∈ lineKeys data
  ↔ ∃ row y, row ∈ data ∧ y ∈ yAxes ∧ series_of row ≠ ""
             ∧ k = series_key y (series_of row).
Proof.
  intros Hs. destruct (seriesValues_spec data Hs) as [_ Hin].
  apply ApiProps.truthy_string_true in Hs.
  unfold ChartLines.lineKeys. rewrite Hs. cbn [negb].
  rewrite list_elem_of_In, in_flat_map. split.
  - intros (y & Hy & Hk). apply list_elem_of_In, list_elem_of_fmap in Hk as (s & -> & Hsv).
    apply Hin in Hsv as (Hne & row & Hrow & <-).
    exists row, y. apply list_elem_of_In in Hy. done.
  - intros (row & y & Hrow & Hy & Hne & ->). exists y.
    split; [by apply list_elem_of_In|].
    apply list_elem_of_In, list_elem_of_fmap. exists (series_of row). split; [done|].
    apply Hin. eauto.
Qed.


End Facts.

(** A press on a Y-axis pill selects a column that was not selected and
    drops one that was, leaving the other columns as they are and never
    selecting a column twice; pressing the pill of an unselected column
    twice restores the selection. *)
Theorem toggleYAxis_flips (yAxes : list string) (col : string) :
  NoDup yAxes →
  NoDup (toggleYAxis yAxes col)
  ∧ (col ∈ toggleYAxis yAxes col ↔ col ∉ yAxes)
  ∧ (∀ y, y ≠ col → y ∈ toggleYAxis yAxes col ↔ y ∈ yAxes)
  ∧ (col ∉ yAxes → toggleYAxis (toggleYAxis yAxes col) col = yAxes).
Proof.
  intros Hnd. unfold toggleYAxis at 1 2 3. case_bool_decide as Hin.
  - split; [by apply NoDup_filter|]. split; [|split].
    + rewrite list_elem_of_filter. tauto.
    + intros y Hy. rewrite list_elem_of_filter. tauto.
    + intros H. contradiction.
  - split; [|split; [|split]].
    + apply NoDup_app. split; [done|]. split; [|apply NoDup_singleton].
      intros y Hy Hy'. apply list_elem_of_singleton in Hy'. by subst.
    + rewrite elem_of_app, list_elem_of_singleton. tauto.
    + intros y Hy. rewrite elem_of_app, list_elem_of_singleton. tauto.
    + intros _. unfold toggleYAxis.
      rewrite (bool_decide_eq_false_2 (col ∈ yAxes)) by done.
      rewrite bool_decide_eq_true_2
        by (rewrite elem_of_app, list_elem_of_singleton; tauto).
      rewrite filter_app. rewrite (filter_cons_False _ col) by (intros H; by apply H).
      rewrite filter_nil, app_nil_r.
      clear Hnd. induction yAxes as [|y l IH]; [done|].
      apply not_elem_of_cons in Hin as [Hne Hin].
      rewrite filter_cons_True by done. by rewrite IH.
Qed.

Section ExportCsv.
Variable num_to_string : Q → string.
Variable Object_keys : gmap string jsval → list string.

Local Abbreviation handleExportCsv := (handleExportCsv num_to_string Object_keys).
Local Abbreviation export_value := ChartLines.export_value.
Local Abbreviation join_values := (join_values num_to_string).
Local Abbreviation csv_cell := (Csv.csv_cell num_to_string).
Local Abbreviation export_safe := ChartLinesSpec.export_safe.

Lemma export_cell_agrees (value : jsval) :
  export_safe num_to_string value →
  match export_value value with
  | JNull | JUndefined => ""
  | v => ToString num_to_string v
  end = csv_cell value.
Proof.
  destruct value as [| |[]|q|s]; cbn; try done.
  - intros Hq. by rewrite Hq.
  - intros Hs. unfold Csv.needs_quoting.
    destruct (includes "," s || includes (str dquote) s) eqn:E; cbn [ToString]; [done|].
    cbn [orb].
    destruct (includes (str newline) s) eqn:En; [|done].
    apply CsvProps.includes_single in En. contradiction.
Qed.


End ExportCsv.

End ChartLinesProps.

(** ** The metric selection *)

Module MetricBarProps.
Import MetricBar.

(** The selection handed back by the metric bar stays free of repetitions
    (for "Add All", when the additional metrics are distinct); adding a
    metric that is empty or already selected changes nothing; and removing
    a metric just added restores the selection. *)
Theorem selection_stays_distinct (selected additionalMetrics : list string)
    (metric : string) :
  NoDup selected →
  NoDup (selection_after selected (addMetric selected metric))
  ∧ NoDup (selection_after selected (removeMetric selected metric))
  ∧ NoDup (selection_after selected (clearAllAdditional selected additionalMetrics))
  ∧ (NoDup additionalMetrics →
     NoDup (selection_after selected (addAll selected additionalMetrics)))
  ∧ (metric = "" ∨ metric ∈ selected → addMetric selected metric = None)
  ∧ (metric ≠ "" → metric ∉ selected →
     addMetric selected metric = Some (selected ++ [metric])
     ∧ removeMetric (selected ++ [metric]) metric = Some selected).
Proof.
  intros Hnd. unfold selection_after, addMetric, removeMetric, clearAllAdditional, addAll.
  cbn [default from_option id].
  assert (Hadd : ∀ m, m ∉ selected → NoDup (selected ++ [m])).
  { intros m Hm. apply NoDup_app. split; [done|]. split; [|apply NoDup_singleton].
    intros y Hy Hy'. apply list_elem_of_singleton in Hy'. by subst. }
  repeat match goal with |- _ ∧ _ => split end.
  - destruct (truthy_string metric); cbn; [|done].
    case_bool_decide; cbn; [done | by apply Hadd].
  - by apply NoDup_filter.
  - by apply NoDup_filter.
  - intros Hndadd. apply NoDup_app. split; [done|]. split; [|by apply NoDup_filter].
    intros m Hm Hm'. apply list_elem_of_filter in Hm' as [Hm' _]. contradiction.
  - intros [-> | Hin]; [done|]. destruct (truthy_string metric); cbn; [|done].
    by rewrite bool_decide_eq_true_2.
  - intros Hne Hnin. split.
    + apply ApiProps.truthy_string_true in Hne. rewrite Hne. cbn.
      by rewrite bool_decide_eq_false_2.
    + f_equal. rewrite filter_app.
      rewrite (filter_cons_False _ metric) by (intros H; by apply H).
      rewrite filter_nil, app_nil_r.
      clear Hnd Hadd. induction selected as [|y l IH]; [done|].
      apply not_elem_of_cons in Hnin as [Hy Hin].
      rewrite filter_cons_True by done. by rewrite IH.
Qed.

End MetricBarProps.

(** ** The controls on the unit interval *)

Module UnitIntervalProps.
Import StatTests.
Local Open Scope Q_scope.

Lemma currentValue_unit (params : gmap string Q) (param : ParamConfig) :
  0 <= numeric_default param <= 1 →
  (∀ v, params !! name param = Some v → 0 <= v <= 1) →
  0 <= currentValue params param <= 1.
Proof.
  intros Hd Hv. unfold currentValue, or_num.
  assert (H0 : 0 <= (if Js.truthy_num (numeric_default param)
                     then numeric_default param else 0) <= 1).
  { destruct (Js.truthy_num _); [done | lra]. }
  destruct (params !! name param) as [v|] eqn:E; [|exact H0].
  destruct (Js.truthy_num v); [by apply Hv | exact H0].
Qed.

Lemma round2_fixed (k : Z) : Qfloor (inject_Z k / 100 * 100 + (1 # 2)) = k.
Proof.
  assert (E : inject_Z k / 100 * 100 + (1 # 2) == inject_Z k + (1 # 2)) by (field; done).
  rewrite E. clear E.
  pose proof (Qfloor_le (inject_Z k + (1 # 2))) as Hle.
  pose proof (Qlt_floor (inject_Z k + (1 # 2))) as Hlt.
  set (f := Qfloor (inject_Z k + (1 # 2))) in *.
  rewrite inject_Z_plus in Hlt. change (inject_Z 1) with 1 in Hlt.
  assert (H1 : inject_Z f < inject_Z (k + 1)).
  { rewrite inject_Z_plus. change (inject_Z 1) with 1. lra. }
  assert (H2 : inject_Z k < inject_Z (f + 1)).
  { rewrite inject_Z_plus. change (inject_Z 1) with 1. lra. }
  rewrite <- Zlt_Qlt in H1, H2. lia.
Qed.



End UnitIntervalProps.

(** ** The funnel wizard *)

Module WizardProps.
Import Api Handler FunnelWizard WizardSpec.

Section Facts.
Context {File Json : Type}.
Variable JSON_stringify : Payload → string.
Variable session_id : Json → string.
Variable funnel_session_id : Json → string.
Variable trim : string → string.
Variable onDataReady : bool.
Variable syntax_error_message : string.
Variable network_error_message : string.
Variable base : option string.
Variable network : Request File → option (Response Json).

Local Abbreviation uploadMobileNumbers :=
  (ApiCalls.uploadMobileNumbers File Json funnel_session_id base network).
Local Abbreviation getCaptainIds :=
  (ApiCalls.getCaptainIds File Payload JSON_stringify Json UsernamePayload base network).
Local Abbreviation getAOFunnel :=
  (ApiCalls.getAOFunnel File Payload JSON_stringify Json base network).
Local Abbreviation useFunnelForAnalysis :=
  (ApiCalls.useFunnelForAnalysis File Json session_id base network).
Local Abbreviation handleUpload :=
  (handleUpload File Json funnel_session_id syntax_error_message network_error_message
     base network).
Local Abbreviation handleGetCaptainIds :=
  (handleGetCaptainIds File JSON_stringify Json trim syntax_error_message
     network_error_message base network).
Local Abbreviation handleGetAOFunnel :=
  (handleGetAOFunnel File JSON_stringify Json trim syntax_error_message
     network_error_message base network).
Local Abbreviation resetWizard := (resetWizard File Json).
Local Abbreviation handleUseForAnalysis :=
  (handleUseForAnalysis File Json session_id onDataReady syntax_error_message
     network_error_message base network).

Implicit Types (st : State Json) (w : World File).

(** Each call of the wizard adds one request. *)
Ltac sends_one w :=
  unfold ApiCalls.uploadMobileNumbers, ApiCalls.getCaptainIds,
    ApiCalls.getAOFunnel, ApiCalls.useFunnelForAnalysis;
  try (let h := fresh "h" in
       let Hh := fresh "Hh" in
       destruct (ApiCallsProps.funnelSessionHeaders_run w) as (h & Hh & _);
       unfold Api.bind at 1; rewrite Hh; cbn [fst snd]);
  eexists; unfold Api.fetch, Api.bind;
  match goal with
  | |- context [network ?q] =>
      destruct (network q) as [res|]; cbn [fst snd sent];
      [ destruct (negb (ok res)); unfold Api.res_text, Api.res_json,
          Api.setSessionId, ApiCalls.setFunnelSessionId, Api.bind, Api.ret,
          Api.throw;
        cbn [fst snd sent]; try reflexivity;
        destruct (json res); reflexivity
      | reflexivity ]
  end.

Lemma uploadMobileNumbers_sends_one (file : File) w :
  ∃ req, sent (uploadMobileNumbers file w).2 = sent w ++ [req].
Proof. sends_one w. Qed.

Lemma getCaptainIds_sends_one (name : string) w :
  ∃ req, sent (getCaptainIds name w).2 = sent w ++ [req].
Proof. sends_one w. Qed.

Lemma getAOFunnel_sends_one (payload : Payload) w :
  ∃ req, sent (getAOFunnel payload w).2 = sent w ++ [req].
Proof. sends_one w. Qed.

Lemma useFunnelForAnalysis_sends_one w :
  ∃ req, sent (useFunnelForAnalysis w).2 = sent w ++ [req].
Proof. sends_one w. Qed.

(** The body shared by the steps of the wizard: a call, then the updates
    of a success. *)
Lemma step_run (call : Api.M File Json) (success : Json → H File (State Json) unit)
    (req : Request File) st w :
  sent (call w).2 = sent w ++ [req] →
  (∀ v st1 w1, step_has_data st1 →
     ∃ st2, success v (st1, w1) = (Return tt, (st2, w1))
            ∧ step_has_data st2 ∧ error st2 = error st1) →
  step_has_data st →
  settles
    (bind (setLoading File Json true) (λ _,
     bind (setError File Json None) (λ _,
     try_finally
       (try_catch (bind (await call) success)
          (λ e, setError File Json
                  (Some (message syntax_error_message network_error_message e))))
       (setLoading File Json false))))
    st w.
Proof.
  intros Hsent Hsuccess Hinv. unfold settles.
  unfold try_finally, try_catch, bind, setLoading, setError, set, await. cbn [fst snd].
  destruct (call w) as [r w1] eqn:Ecall. cbn [snd] in Hsent.
  destruct r as [v|e].
  - match goal with
    | |- context [success v (?s1, w1)] =>
        destruct (Hsuccess v s1 w1) as (st2 & -> & Hdata & Herr); [exact Hinv|]
    end.
    cbn [fst snd]. do 2 eexists. exists [req]. split; [reflexivity|].
    split; [exact Hsent|]. split; [cbn; lia|].
    split; [exact Hdata|]. right. cbn [error]. exact Herr.
  - cbn [fst snd]. do 2 eexists. exists [req]. split; [reflexivity|].
    split; [exact Hsent|]. split; [cbn; lia|].
    split; [exact Hinv|]. by left.
Qed.

Lemma settles_ext (h h' : H File (State Json) unit) st w :
  h (st, w) = h' (st, w) → settles h' st w → settles h st w.
Proof. unfold settles. by intros ->. Qed.


End Facts.
End WizardProps.

(** ** Instances *)

Module MoreExamples.
Import Api Js Fixtures Samples.
Local Open Scope Q_scope.

Lemma failure_messages_witness :
  (∀ q, answer refused_empty q = Some refused_empty)
  ∧ ok refused_empty = false
  ∧ (ApiCalls.getCaptainIds unit unit stringify string username_only None
       (answer refused_empty) "u" fresh_world).1
    = Throw (Error "Failed to fetch captain IDs").
Proof.
  split; [reflexivity|]. split; [reflexivity|].
  pose proof (ApiCallsProps.failure_messages stringify sid_of sid_of username_only None
                (answer refused_empty) refused_empty fresh_world tt "u" tt
                (λ _, eq_refl) eq_refl) as H.
  cbv zeta in H. destruct H as (_ & _ & H & _). exact H.
Defined.

Lemma report_errors_fixed_witness :
  (∀ q, answer refused q = Some refused)
  ∧ ok refused = false
  ∧ (ApiCalls.listReportItems unit string None (answer refused) "r-1" fresh_world).1
    = Throw (Error "Failed to list report items").
Proof.
  split; [reflexivity|]. split; [reflexivity|].
  pose proof (ApiCallsProps.report_errors_fixed stringify None (answer refused) refused
                fresh_world tt "i-1" "r-1" (λ _, eq_refl) eq_refl) as H.
  destruct H as (_ & _ & _ & H & _). exact H.
Defined.






Lemma runTest_unset_cohort_witness :
  truthy_opt_string (App.test_cohort (App.mkFilters None (Some "b"))) = false
  ∧ StatRun.runTest unit unit stringify_test string any_object "syntax" "network" None
      (answer accepted)
      (App.series_props (App.pre_series one_funnel))
      (App.series_props (App.post_series one_funnel))
      (App.testLabel (App.mkFilters None (Some "b")))
      (App.controlLabel (App.mkFilters None (Some "b")))
      (paired_selected, fresh_world)
    = (Return tt,
       (StatRun.mkState "paired_tests" "Paired t-test" tt [] false
          (Some "No valid data found for the test cohort"), fresh_world)).
Proof.
  split; [reflexivity|].
  exact (StatRunProps.runTest_unset_cohort stringify_test any_object "syntax" "network"
           None (answer accepted) (App.mkFilters None (Some "b")) one_funnel
           paired_selected fresh_world eq_refl ltac:(discriminate) ltac:(discriminate)).
Defined.


Lemma summary_groups_overlap_witness :
  App.test_cohort test_named_control = Some "control_a"
  ∧ "control_a" ≠ ""
  ∧ sublist
      (StatTests.preTest (App.statistical_samples test_named_control one_funnel))
      (App.group_sample "CONTROL" "control" (App.pre_series one_funnel)).
Proof.
  split; [reflexivity|]. split; [discriminate|].
  apply (AppProps.summary_groups_overlap test_named_control one_funnel "control_a"
           eq_refl ltac:(discriminate) eq_refl).
Defined.



Lemma toggleYAxis_flips_witness :
  NoDup ["rides"; "fare"]
  ∧ ChartBuilder.toggleYAxis (ChartBuilder.toggleYAxis ["rides"; "fare"] "tips") "tips"
    = ["rides"; "fare"].
Proof.
  assert (Hnd : NoDup ["rides"; "fare"]).
  { apply (bool_decide_unpack _). vm_compute. exact I. }
  split; [exact Hnd|].
  destruct (ChartLinesProps.toggleYAxis_flips ["rides"; "fare"] "tips" Hnd)
    as (_ & _ & _ & Htwice).
  apply Htwice. apply (bool_decide_unpack _). vm_compute. exact I.
Defined.

Lemma selection_stays_distinct_witness :
  NoDup ["ao_days"]
  ∧ MetricBar.removeMetric (["ao_days"] ++ ["dapr"]) "dapr" = Some ["ao_days"].
Proof.
  assert (Hnd : NoDup ["ao_days"]).
  { apply (bool_decide_unpack _). vm_compute. exact I. }
  split; [exact Hnd|].
  destruct (MetricBarProps.selection_stays_distinct ["ao_days"] [] "dapr" Hnd)
    as (_ & _ & _ & _ & _ & Hadd).
  apply Hadd; [discriminate|]. apply (bool_decide_unpack _). vm_compute. exact I.
Defined.



End MoreExamples.
